(** * nettools ping: wire codec, checksum and echo session

    A shallow embedding of [include/header.hpp] (ICMP and IPv4 headers,
    [compute_checksum]) and of the [pinger] class of [src/ping.cpp], with the
    properties of the design document stated and settled against them.

    Conventions.
    - A C++ unsigned integer of width w is a [Z] in [0, 2^w); every
      conversion the language performs is written out ([to_byte],
      [to_ushort], [to_uint], [to_size]).
    - [byte_type rep_[n]] is a [list Z] read with [!!!] and written with
      [<[i:=v]>].
    - A [posix_time::ptime] is a number of microseconds; a [time_duration]
      is a difference of two of them.
    - [long double] arithmetic is kept behind the interface [LongDouble];
      IEEE binary64 is the instance used to run examples. *)

From Stdlib Require Import ZArith List Lia Bool.
From Stdlib Require Import Floats.PrimFloat Numbers.Cyclic.Int63.Uint63.
From stdpp Require Import base list.
Import ListNotations.
Open Scope Z_scope.

(** ** Machine integers

    [unsigned char] has 8 bits, [unsigned short] 16, [unsigned int] 32 and
    [std::size_t] 64. *)

Definition to_byte (n : Z) : Z := n mod 256.
Definition to_ushort (n : Z) : Z := n mod 65536.
Definition to_uint (n : Z) : Z := n mod 4294967296.
Definition to_size (n : Z) : Z := n mod 18446744073709551616.

Definition is_byte (n : Z) : Prop := 0 <= n < 256.
Definition is_ushort (n : Z) : Prop := 0 <= n < 65536.

(** ** Streams

    [std::istream] over a byte buffer: the unread bytes and the fail state.
    [read] on a stream that has failed extracts nothing; a short read
    extracts what is there and sets the fail state. *)

Record istream := mk_istream { is_buf : list Z; is_fail : bool }.

Definition istream_read (n : nat) (off : nat) (dst : list Z) (s : istream)
  : list Z * istream :=
  if is_fail s then (dst, s)
  else (list_inserts off (take n (is_buf s)) dst,
        mk_istream (drop n (is_buf s)) (length (is_buf s) <? n)%nat).

(** How many bytes an operation that took the stream from [s] to [s']
    extracted. *)
Definition bytes_read (s s' : istream) : Z :=
  Z.of_nat (length (is_buf s)) - Z.of_nat (length (is_buf s')).

(** [std::ostream]: the bytes written so far. *)
Definition ostream := list Z.

Definition ostream_write (bytes : list Z) (os : ostream) : ostream :=
  os ++ map to_byte bytes.

(** ** ICMP header *)

Module icmp_header.

Record t := mk { rep_ : list Z }.

Definition echo_reply : Z := 0.
Definition echo_request : Z := 8.

(** [icmp_header() { std::fill(rep_, rep_ + 8, 0); }] *)
Definition new : t := mk (replicate 8 0).

Definition decode (a b : nat) (h : t) : Z :=
  to_ushort (Z.shiftl (rep_ h !!! a) 8 + rep_ h !!! b).

Definition encode (a b : nat) (n : Z) (h : t) : t :=
  let n := to_ushort n in
  let r := <[a := to_byte (Z.shiftr n 8)]> (rep_ h) in
  mk (<[b := to_byte (Z.land n 255)]> r).

Definition type (h : t) : Z := rep_ h !!! 0%nat.
Definition code (h : t) : Z := rep_ h !!! 1%nat.
Definition checksum (h : t) : Z := decode 2 3 h.
Definition identifier (h : t) : Z := decode 4 5 h.
Definition sequence_number (h : t) : Z := decode 6 7 h.

Definition set_type (n : Z) (h : t) : t := mk (<[0%nat := to_byte n]> (rep_ h)).
Definition set_code (n : Z) (h : t) : t := mk (<[1%nat := to_byte n]> (rep_ h)).
Definition set_checksum (n : Z) (h : t) : t := encode 2 3 n h.
Definition set_identifier (n : Z) (h : t) : t := encode 4 5 n h.
Definition set_sequence_number (n : Z) (h : t) : t := encode 6 7 n h.

(** [operator>>]: [is.read(header.rep_, 8)] *)
Definition read (s : istream) (h : t) : istream * t :=
  let '(r, s') := istream_read 8 0 (rep_ h) s in (s', mk r).

(** [operator<<]: [os.write(header.rep_, 8)] *)
Definition write (os : ostream) (h : t) : ostream :=
  ostream_write (take 8 (rep_ h)) os.

Definition wf (h : t) : Prop :=
  length (rep_ h) = 8%nat /\ Forall is_byte (rep_ h).

End icmp_header.

(** ** compute_checksum *)

(** The [while] loop over the body: two bytes a turn, the first shifted into
    the high byte, a lone last byte added as a high byte only.  [sum] is an
    [unsigned int], so every addition wraps at 2^32. *)
Fixpoint checksum_body (sum : Z) (body : list Z) : Z :=
  match body with
  | [] => sum
  | b1 :: rest =>
      let sum := to_uint (sum + Z.shiftl (to_byte b1) 8) in
      match rest with
      | [] => sum
      | b2 :: rest' => checksum_body (to_uint (sum + to_byte b2)) rest'
      end
  end.

(** The value handed to [header.checksum(...)]. *)
Definition checksum_value (header : icmp_header.t) (body : list Z) : Z :=
  let sum := to_uint (Z.shiftl (icmp_header.type header) 8
                      + icmp_header.code header
                      + icmp_header.identifier header
                      + icmp_header.sequence_number header) in
  let sum := checksum_body sum body in
  let sum := to_uint (Z.shiftr sum 16 + Z.land sum 65535) in
  let sum := to_uint (sum + Z.shiftr sum 16) in
  to_ushort (to_uint (Z.lnot sum)).

Definition compute_checksum (header : icmp_header.t) (body : list Z)
  : icmp_header.t :=
  icmp_header.set_checksum (checksum_value header body) header.

(** ** IPv4 header *)

Module ipv4_header.

Record t := mk { rep_ : list Z }.

(** [ipv4_header() { std::fill(rep_, rep_ + sizeof(rep_), 0); }] *)
Definition new : t := mk (replicate 60 0).

Definition decode (a b : nat) (h : t) : Z :=
  to_ushort (Z.shiftl (rep_ h !!! a) 8 + rep_ h !!! b).

Definition version (h : t) : Z :=
  to_byte (Z.land (Z.shiftr (rep_ h !!! 0%nat) 4) 15).
Definition header_length (h : t) : Z :=
  to_ushort (Z.land (rep_ h !!! 0%nat) 15 * 4).
Definition type_of_service (h : t) : Z := rep_ h !!! 1%nat.
Definition total_length (h : t) : Z := decode 2 3 h.
Definition identification (h : t) : Z := decode 4 5 h.
Definition dont_fragment (h : t) : bool :=
  negb (Z.land (rep_ h !!! 6%nat) 64 =? 0).
Definition more_fragments (h : t) : bool :=
  negb (Z.land (rep_ h !!! 6%nat) 32 =? 0).
Definition fragment_offset (h : t) : Z :=
  to_ushort (Z.land (decode 6 7 h) 8191).
Definition time_to_live (h : t) : Z := to_ushort (rep_ h !!! 8%nat).
Definition protocol (h : t) : Z := rep_ h !!! 9%nat.
Definition header_checksum (h : t) : Z := decode 10 11 h.
Definition source_address (h : t) : list Z :=
  [rep_ h !!! 12%nat; rep_ h !!! 13%nat; rep_ h !!! 14%nat; rep_ h !!! 15%nat].
Definition destination_address (h : t) : list Z :=
  [rep_ h !!! 16%nat; rep_ h !!! 17%nat; rep_ h !!! 18%nat; rep_ h !!! 19%nat].

Definition setstate_failbit (s : istream) : istream :=
  mk_istream (is_buf s) true.

(** [operator>>].  [options_length] is a signed [std::streamsize]. *)
Definition read (s : istream) (h : t) : istream * t :=
  let '(r, s) := istream_read 20 0 (rep_ h) s in
  let h := mk r in
  let s := if version h =? 4 then s else setstate_failbit s in
  let options_length := header_length h - 20 in
  if (options_length <? 0) || (40 <? options_length)
  then (setstate_failbit s, h)
  else
    let '(r, s) := istream_read (Z.to_nat options_length) 20 (rep_ h) s in
    (s, mk r).

End ipv4_header.

(** ** RFC 1071

    The check a receiver makes, as the RFC states it: the 16-bit one's
    complement sum of the whole message, checksum field included, is all
    ones, so that its complement is 0.  The source has no such function;
    this one is written from the RFC, with the end-around carry applied at
    every addition and no accumulator that could wrap. *)

Definition ones_complement_add (a b : Z) : Z :=
  let s := a + b in s mod 65536 + s / 65536.

(** Big-endian 16-bit words of a message, a lone last byte padded with a
    zero byte. *)
Fixpoint words_of (bytes : list Z) : list Z :=
  match bytes with
  | [] => []
  | [b1] => [b1 * 256]
  | b1 :: b2 :: rest => (b1 * 256 + b2) :: words_of rest
  end.

Definition ones_complement_sum (bytes : list Z) : Z :=
  fold_left ones_complement_add (words_of bytes) 0.

Definition rfc1071_check (bytes : list Z) : Z :=
  65535 - ones_complement_sum bytes.

(** The two bytes [encode] stores for [n]. *)
Definition hi (n : Z) : Z := to_byte (Z.shiftr (to_ushort n) 8).
Definition lo (n : Z) : Z := to_byte (Z.land (to_ushort n) 255).

(** The value an end-around-carry sum of words that add up to [s] reaches:
    0 for no words but zeros, otherwise the representative of [s] modulo
    65535 that lies in 1..65535. *)
Definition end_around (s : Z) : Z :=
  if s =? 0 then 0 else (s - 1) mod 65535 + 1.

(** The message on the wire: [os << header << body]. *)
Definition wire (header : icmp_header.t) (body : list Z) : list Z :=
  ostream_write body (icmp_header.write [] header).

(** The header as [start_send] fills it in, checksum not yet computed. *)
Definition make_header (type code identifier sequence_number : Z)
  : icmp_header.t :=
  icmp_header.set_sequence_number sequence_number
    (icmp_header.set_identifier identifier
       (icmp_header.set_code code
          (icmp_header.set_type type icmp_header.new))).

Definition sum_words (ws : list Z) : Z := fold_right Z.add 0 ws.

Definition words_ok (ws : list Z) : Prop :=
  Forall (fun w => 0 <= w <= 65535) ws.

(** The sum [compute_checksum] would reach with an accumulator of unbounded
    width. *)
Definition unbounded_sum (header : icmp_header.t) (body : list Z) : Z :=
  Z.shiftl (icmp_header.type header) 8 + icmp_header.code header
  + icmp_header.identifier header + icmp_header.sequence_number header
  + sum_words (words_of (map to_byte body)).

(** ** long double

    The statistics of the session are [long double] values.  Their
    arithmetic is used through this interface only; no property below
    depends on a rounding mode or a precision. *)

Class LongDouble (F : Type) := {
  ld_of_Z : Z -> F;
  ld_add : F -> F -> F;
  ld_sub : F -> F -> F;
  ld_mul : F -> F -> F;
  ld_div : F -> F -> F;
  ld_fmin : F -> F -> F;
  ld_fmax : F -> F -> F;
  ld_sqrt : F -> F;
  LDBL_MAX : F;
  ld_is_nan : F -> bool
}.

(** IEEE 754 binary64 as a stand-in for the extended format: zero, infinity
    and NaN behave alike in both.  An integer converts to the nearest
    binary64 value, ties to even, whatever its magnitude: below 2^63 the
    63-bit conversion does it; from 2^63 on the low bits are shifted out
    first, any non-zero one of them kept as a sticky bit, and the result is
    doubled as often as bits were shifted out. *)
Definition binary64_of_Z (z : Z) : float :=
  let a := Z.abs z in
  let k := Z.max 0 (Z.log2 a - 62) in
  let sticky := if a mod 2 ^ k =? 0 then 0 else 1 in
  let m := PrimFloat.of_uint63 (Uint63.of_Z (Z.lor (Z.shiftr a k) sticky)) in
  let m := Z.iter k (fun x => PrimFloat.mul x 2) m in
  if z <? 0 then PrimFloat.opp m else m.

(** [fmin] and [fmax] return the other argument when one is NaN. *)
Definition binary64_fmin (x y : float) : float :=
  if PrimFloat.is_nan x then y
  else if PrimFloat.is_nan y then x
  else if PrimFloat.ltb y x then y else x.

Definition binary64_fmax (x y : float) : float :=
  if PrimFloat.is_nan x then y
  else if PrimFloat.is_nan y then x
  else if PrimFloat.ltb x y then y else x.

#[export] Instance binary64_LongDouble : LongDouble float := {
  ld_of_Z := binary64_of_Z;
  ld_add := PrimFloat.add;
  ld_sub := PrimFloat.sub;
  ld_mul := PrimFloat.mul;
  ld_div := PrimFloat.div;
  ld_fmin := binary64_fmin;
  ld_fmax := binary64_fmax;
  ld_sqrt := PrimFloat.sqrt;
  LDBL_MAX := 0x1.fffffffffffffp+1023%float;
  ld_is_nan := PrimFloat.is_nan
}.

(** ** Time *)

(** [posix_time::seconds(n)], in microseconds. *)
Definition seconds (n : Z) : Z := n * 1000000.

(** [time_duration::total_milliseconds()] and [total_microseconds()] of the
    duration [d]: integer division that truncates toward zero. *)
Definition total_milliseconds (d : Z) : Z := Z.quot d 1000.
Definition total_microseconds (d : Z) : Z := d.

(** ** What a handler does to the outside

    [boost::system::error_code], the two completion handlers the timer is
    given, and the calls a handler makes on [std::cout], [std::cerr], the
    socket, the timer and the process, in the order it makes them. *)

Inductive error_code :=
| success
| operation_canceled
| other_error (value : Z).

(** [if (ec)] *)
Definition ec_is_set (ec : error_code) : bool :=
  match ec with success => false | _ => true end.

Definition ec_is_canceled (ec : error_code) : bool :=
  match ec with operation_canceled => true | _ => false end.

Inductive wait_handler := on_handle_timeout | on_start_send.

(** The [time=] field: whole milliseconds in the first variant of the
    program, a [long double] printed with three decimals in the second. *)
Inductive rtt (F : Type) :=
| rtt_ms (ms : Z)
| rtt_fixed3 (v : F).
Arguments rtt_ms {F} ms.
Arguments rtt_fixed3 {F} v.

Record report (F : Type) := mk_report {
  r_bytes : Z;
  r_from : list Z;
  r_icmp_seq : Z;
  r_ttl : Z;
  r_time : rtt F
}.
Arguments mk_report {F}.
Arguments r_bytes {F}.
Arguments r_from {F}.
Arguments r_icmp_seq {F}.
Arguments r_ttl {F}.
Arguments r_time {F}.

Record summary (F : Type) := mk_summary {
  s_transmitted : Z;
  s_received : Z;
  s_lossed : Z;
  s_loss : F;
  s_time : F;
  s_min : F;
  s_avg : F;
  s_max : F;
  s_mdev : F
}.
Arguments mk_summary {F}.
Arguments s_transmitted {F}.
Arguments s_received {F}.
Arguments s_lossed {F}.
Arguments s_loss {F}.
Arguments s_time {F}.
Arguments s_min {F}.
Arguments s_avg {F}.
Arguments s_max {F}.
Arguments s_mdev {F}.

Inductive effect (F : Type) :=
| cout_timed_out
| cout_report (r : report F)
| cout_summary (s : summary F)
| cerr_message (ec : error_code)
| socket_send_to (datagram : list Z)
| socket_async_receive
| timer_expires_at (t : Z)
| timer_async_wait (h : wait_handler)
| timer_cancel
| process_exit (status : Z).
Arguments cout_timed_out {F}.
Arguments cout_report {F} r.
Arguments cout_summary {F} s.
Arguments cerr_message {F} ec.
Arguments socket_send_to {F} datagram.
Arguments socket_async_receive {F}.
Arguments timer_expires_at {F} t.
Arguments timer_async_wait {F} h.
Arguments timer_cancel {F}.
Arguments process_exit {F} status.

Definition is_timed_out {F} (e : effect F) : bool :=
  match e with cout_timed_out => true | _ => false end.
Definition is_report {F} (e : effect F) : bool :=
  match e with cout_report _ => true | _ => false end.
Definition is_cancel {F} (e : effect F) : bool :=
  match e with timer_cancel => true | _ => false end.
Definition is_async_receive {F} (e : effect F) : bool :=
  match e with socket_async_receive => true | _ => false end.
Definition is_send {F} (e : effect F) : bool :=
  match e with socket_send_to _ => true | _ => false end.

(** How many of the effects [es] satisfy [f]. *)
Definition count {F} (f : effect F -> bool) (es : list (effect F)) : nat :=
  length (filter (fun e => f e = true) es).

(** ** The pinger (second variant of [ping.cpp]: statistics and SIGINT) *)

Module pinger.

Section with_environment.

Context {F : Type} {LD : LongDouble F}.

(** [::getpid()], fixed for the life of the process. *)
Variable pid : Z.

(** The data members that the handlers read or write.  The resolver, the
    socket, the timer and the signal set belong to the io_service and are
    reached through effects. *)
Record t := mk {
  sequence_number_ : Z;
  time_sent_ : Z;
  reply_buffer_ : list Z;
  num_replies_ : Z;
  time_init_ : Z;
  num_transmitted_ : Z;
  num_received_ : Z;
  ttl_min_ : F;
  ttl_max_ : F;
  ttl_sum_ : F;
  ttl_sum2_ : F
}.

(** A handler is a state transformer that also lists its effects. *)
Definition proc (A : Type) : Type := t -> A * t * list (effect F).

Definition ret {A} (a : A) : proc A := fun p => (a, p, []).

Definition bind {A B} (m : proc A) (k : A -> proc B) : proc B :=
  fun p =>
    let '(a, p1, es1) := m p in
    let '(b, p2, es2) := k a p1 in
    (b, p2, es1 ++ es2).

Definition get {A} (field : t -> A) : proc A := fun p => (field p, p, []).
Definition modify (f : t -> t) : proc unit := fun p => (tt, f p, []).
Definition emit (e : effect F) : proc unit := fun p => (tt, p, [e]).
Definition when (b : bool) (m : proc unit) : proc unit :=
  if b then m else ret tt.

Notation "x <- m ;; k" := (bind m (fun x => k))
  (at level 100, m at next level, right associativity).
Notation "m ;; k" := (bind m (fun _ => k))
  (at level 100, right associativity).

Definition set_sequence_number_ (v : Z) (p : t) : t :=
  mk v (time_sent_ p) (reply_buffer_ p) (num_replies_ p) (time_init_ p)
     (num_transmitted_ p) (num_received_ p)
     (ttl_min_ p) (ttl_max_ p) (ttl_sum_ p) (ttl_sum2_ p).
Definition set_time_sent_ (v : Z) (p : t) : t :=
  mk (sequence_number_ p) v (reply_buffer_ p) (num_replies_ p) (time_init_ p)
     (num_transmitted_ p) (num_received_ p)
     (ttl_min_ p) (ttl_max_ p) (ttl_sum_ p) (ttl_sum2_ p).
Definition set_reply_buffer_ (v : list Z) (p : t) : t :=
  mk (sequence_number_ p) (time_sent_ p) v (num_replies_ p) (time_init_ p)
     (num_transmitted_ p) (num_received_ p)
     (ttl_min_ p) (ttl_max_ p) (ttl_sum_ p) (ttl_sum2_ p).
Definition set_num_replies_ (v : Z) (p : t) : t :=
  mk (sequence_number_ p) (time_sent_ p) (reply_buffer_ p) v (time_init_ p)
     (num_transmitted_ p) (num_received_ p)
     (ttl_min_ p) (ttl_max_ p) (ttl_sum_ p) (ttl_sum2_ p).
Definition set_num_transmitted_ (v : Z) (p : t) : t :=
  mk (sequence_number_ p) (time_sent_ p) (reply_buffer_ p) (num_replies_ p)
     (time_init_ p) v (num_received_ p)
     (ttl_min_ p) (ttl_max_ p) (ttl_sum_ p) (ttl_sum2_ p).
Definition set_num_received_ (v : Z) (p : t) : t :=
  mk (sequence_number_ p) (time_sent_ p) (reply_buffer_ p) (num_replies_ p)
     (time_init_ p) (num_transmitted_ p) v
     (ttl_min_ p) (ttl_max_ p) (ttl_sum_ p) (ttl_sum2_ p).
Definition set_ttl_min_ (v : F) (p : t) : t :=
  mk (sequence_number_ p) (time_sent_ p) (reply_buffer_ p) (num_replies_ p)
     (time_init_ p) (num_transmitted_ p) (num_received_ p)
     v (ttl_max_ p) (ttl_sum_ p) (ttl_sum2_ p).
Definition set_ttl_max_ (v : F) (p : t) : t :=
  mk (sequence_number_ p) (time_sent_ p) (reply_buffer_ p) (num_replies_ p)
     (time_init_ p) (num_transmitted_ p) (num_received_ p)
     (ttl_min_ p) v (ttl_sum_ p) (ttl_sum2_ p).
Definition set_ttl_sum_ (v : F) (p : t) : t :=
  mk (sequence_number_ p) (time_sent_ p) (reply_buffer_ p) (num_replies_ p)
     (time_init_ p) (num_transmitted_ p) (num_received_ p)
     (ttl_min_ p) (ttl_max_ p) v (ttl_sum2_ p).
Definition set_ttl_sum2_ (v : F) (p : t) : t :=
  mk (sequence_number_ p) (time_sent_ p) (reply_buffer_ p) (num_replies_ p)
     (time_init_ p) (num_transmitted_ p) (num_received_ p)
     (ttl_min_ p) (ttl_max_ p) (ttl_sum_ p) v.

Definition get_identifier : Z := to_ushort pid.

(** [std::string body(56, 'z')] *)
Definition body : list Z := replicate 56 122.

(** [++sequence_number_] on an [unsigned short]: the new value. *)
Definition pre_increment_sequence_number_ : proc Z :=
  modify (fun p => set_sequence_number_ (to_ushort (sequence_number_ p + 1)) p) ;;
  get sequence_number_.

(** [num_replies_++] on a [std::size_t]: the old value. *)
Definition post_increment_num_replies_ : proc Z :=
  old <- get num_replies_ ;;
  modify (set_num_replies_ (to_size (old + 1))) ;;
  ret old.

(** [now] is what [microsec_clock::universal_time()] returns. *)
Definition start_send (now : Z) : proc unit :=
  let echo_request := icmp_header.new in
  let echo_request := icmp_header.set_type icmp_header.echo_request echo_request in
  let echo_request := icmp_header.set_code 0 echo_request in
  let echo_request := icmp_header.set_identifier get_identifier echo_request in
  seq <- pre_increment_sequence_number_ ;;
  let echo_request := icmp_header.set_sequence_number seq echo_request in
  let echo_request := compute_checksum echo_request body in
  modify (fun p => set_num_transmitted_ (to_size (num_transmitted_ p + 1)) p) ;;
  let request_buffer := ostream_write body (icmp_header.write [] echo_request) in
  modify (set_time_sent_ now) ;;
  emit (socket_send_to request_buffer) ;;
  modify (set_num_replies_ 0) ;;
  sent <- get time_sent_ ;;
  emit (timer_expires_at (sent + seconds 5)) ;;
  emit (timer_async_wait on_handle_timeout).

Definition handle_timeout (ec : error_code) : proc unit :=
  replies <- get num_replies_ ;;
  when ((replies =? 0) && negb (ec_is_set ec)) (emit cout_timed_out) ;;
  when (ec_is_set ec && negb (ec_is_canceled ec)) (emit (cerr_message ec)) ;;
  sent <- get time_sent_ ;;
  emit (timer_expires_at (sent + seconds 1)) ;;
  emit (timer_async_wait on_start_send).

Definition start_receive : proc unit :=
  modify (set_reply_buffer_ []) ;;
  emit socket_async_receive.

(** The statements of [handle_receive] that follow a successful filter. *)
Definition accept_reply (now : Z) (length : Z)
    (ipv4_hdr : ipv4_header.t) (icmp_hdr : icmp_header.t) : proc unit :=
  old <- post_increment_num_replies_ ;;
  when (old =? 0) (emit timer_cancel) ;;
  modify (fun p => set_num_received_ (to_size (num_received_ p + 1)) p) ;;
  sent <- get time_sent_ ;;
  let ttl := ld_div (ld_of_Z (total_microseconds (now - sent))) (ld_of_Z 1000) in
  modify (fun p => set_ttl_min_ (ld_fmin (ttl_min_ p) ttl) p) ;;
  modify (fun p => set_ttl_max_ (ld_fmax (ttl_max_ p) ttl) p) ;;
  modify (fun p => set_ttl_sum_ (ld_add (ttl_sum_ p) ttl) p) ;;
  modify (fun p => set_ttl_sum2_ (ld_add (ttl_sum2_ p) (ld_mul ttl ttl)) p) ;;
  emit (cout_report
          (mk_report (to_size (length - ipv4_header.header_length ipv4_hdr))
                     (ipv4_header.source_address ipv4_hdr)
                     (icmp_header.sequence_number icmp_hdr)
                     (ipv4_header.time_to_live ipv4_hdr)
                     (rtt_fixed3 ttl))).

(** [is >> ipv4_hdr >> icmp_hdr] on a stream over [buf]. *)
Definition decode_reply (buf : list Z)
  : istream * ipv4_header.t * icmp_header.t :=
  let stream := mk_istream buf false in
  let '(stream, ipv4_hdr) := ipv4_header.read stream ipv4_header.new in
  let '(stream, icmp_hdr) := icmp_header.read stream icmp_header.new in
  (stream, ipv4_hdr, icmp_hdr).

(** The condition of the filter, [seq] being [sequence_number_]. *)
Definition wanted (stream : istream) (icmp_hdr : icmp_header.t) (seq : Z)
  : bool :=
  negb (is_fail stream)
  && (icmp_header.type icmp_hdr =? icmp_header.echo_reply)
  && (icmp_header.identifier icmp_hdr =? get_identifier)
  && (icmp_header.sequence_number icmp_hdr =? seq).

(** The test that guards [return]: [sent] is [time_sent_]. *)
Definition timed_out (tmp sent : Z) : bool :=
  5000 <? total_milliseconds (tmp - sent).

(** [received] is what the socket wrote into the prepared area, [tmp] and
    [now] are the two readings of the clock.  The inner block yields [true]
    when it leaves the function through [return]. *)
Definition handle_receive (ec : error_code) (received : list Z) (tmp now : Z)
  : proc unit :=
  let length := Z.of_nat (length received) in
  returned <-
    (if ec_is_set ec then
       emit (cerr_message ec) ;; ret false
     else
       modify (fun p => set_reply_buffer_ (reply_buffer_ p ++ received) p) ;;
       sent <- get time_sent_ ;;
       if timed_out tmp sent then ret true
       else
         buf <- get reply_buffer_ ;;
         let '(stream, ipv4_hdr, icmp_hdr) := decode_reply buf in
         modify (set_reply_buffer_ (is_buf stream)) ;;
         seq <- get sequence_number_ ;;
         when (wanted stream icmp_hdr seq)
              (accept_reply now length ipv4_hdr icmp_hdr) ;;
         ret false) ;;
  if (returned : bool) then ret tt else start_receive.

Definition handle_termination (now : Z) : proc unit :=
  p <- get id ;;
  let total_time :=
    ld_div (ld_of_Z (total_milliseconds (now - time_init_ p))) (ld_of_Z 1000) in
  modify (fun p => set_ttl_sum_ (ld_div (ttl_sum_ p) (ld_of_Z (num_received_ p))) p) ;;
  modify (fun p => set_ttl_sum2_ (ld_div (ttl_sum2_ p) (ld_of_Z (num_received_ p))) p) ;;
  p <- get id ;;
  let ttl_mdev :=
    ld_sqrt (ld_sub (ttl_sum2_ p) (ld_mul (ttl_sum_ p) (ttl_sum_ p))) in
  emit (cout_summary
          (mk_summary (num_transmitted_ p) (num_received_ p)
             (to_size (num_transmitted_ p - num_received_ p))
             (ld_div (ld_of_Z (to_size (num_transmitted_ p - num_received_ p)))
                     (ld_of_Z (num_transmitted_ p)))
             total_time (ttl_min_ p) (ttl_sum_ p) (ttl_max_ p) ttl_mdev)) ;;
  emit (process_exit 0).

(** The member initialisers of the constructor; [now] is the reading of the
    clock that initialises [time_init_]. *)
Definition initial (now : Z) : t :=
  mk 0 0 [] 0 now 0 0 LDBL_MAX (ld_of_Z 0) (ld_of_Z 0) (ld_of_Z 0).

(** The body of the constructor after name resolution. *)
Definition construct (now : Z) : proc unit :=
  start_send now ;;
  start_receive.

(** What runs between two calls of [start_send]: completions of the
    receive and of the wait for the timeout, in any order. *)
Inductive cycle_event :=
| receive_completed (ec : error_code) (received : list Z) (tmp now : Z)
| timeout_completed (ec : error_code).

Definition handle (ev : cycle_event) : proc unit :=
  match ev with
  | receive_completed ec received tmp now => handle_receive ec received tmp now
  | timeout_completed ec => handle_timeout ec
  end.

Fixpoint run_cycle (evs : list cycle_event) : proc unit :=
  match evs with
  | [] => ret tt
  | ev :: evs => handle ev ;; run_cycle evs
  end.

(** State and effects of a handler. *)
Definition state_after (m : proc unit) (p : t) : t := snd (fst (m p)).
Definition effects_of (m : proc unit) (p : t) : list (effect F) := snd (m p).

(** Whether [handle_receive] lets the datagram through to [accept_reply],
    for a session whose current sequence number is [seq], whose request left
    at [sent] and whose buffer holds [buf]. *)
Definition accepts (seq sent : Z) (buf : list Z) (ev : cycle_event) : bool :=
  match ev with
  | receive_completed ec received tmp now =>
      negb (ec_is_set ec)
      && negb (timed_out tmp sent)
      && (let '(stream, _, icmp_hdr) := decode_reply (buf ++ received) in
          wanted stream icmp_hdr seq)
  | timeout_completed _ => false
  end.

(** The round-trip time [accept_reply] computes. *)
Definition rtt_of (sent : Z) (ev : cycle_event) : F :=
  match ev with
  | receive_completed _ _ _ now =>
      ld_div (ld_of_Z (total_microseconds (now - sent))) (ld_of_Z 1000)
  | timeout_completed _ => ld_of_Z 0
  end.

(** The sequence number a datagram handed to the socket carries. *)
Definition sent_sequence_number (datagram : list Z) : Z :=
  icmp_header.sequence_number (icmp_header.mk (take 8 datagram)).

(** The request [start_send] builds for the sequence number [seq]. *)
Definition request_of (seq : Z) : list Z :=
  wire (compute_checksum
          (make_header icmp_header.echo_request 0 get_identifier seq) body)
       body.

(** The session as [start_send] leaves it when the clock reads [now]. *)
Definition sent_state (now : Z) (p : t) : t :=
  mk (to_ushort (sequence_number_ p + 1)) now (reply_buffer_ p) 0
     (time_init_ p) (to_size (num_transmitted_ p + 1)) (num_received_ p)
     (ttl_min_ p) (ttl_max_ p) (ttl_sum_ p) (ttl_sum2_ p).

(** The session as [handle_receive] leaves it after a reply it accepted
    when the clock read [now]. *)
Definition accepted_state (now : Z) (p : t) : t :=
  let ttl := ld_div (ld_of_Z (total_microseconds (now - time_sent_ p)))
                    (ld_of_Z 1000) in
  mk (sequence_number_ p) (time_sent_ p) []
     (to_size (num_replies_ p + 1)) (time_init_ p)
     (num_transmitted_ p) (to_size (num_received_ p + 1))
     (ld_fmin (ttl_min_ p) ttl) (ld_fmax (ttl_max_ p) ttl)
     (ld_add (ttl_sum_ p) ttl) (ld_add (ttl_sum2_ p) (ld_mul ttl ttl)).

(** The line [handle_receive] prints for such a reply. *)
Definition report_of (received : list Z) (now : Z) (p : t)
    (ipv4_hdr : ipv4_header.t) (icmp_hdr : icmp_header.t) : report F :=
  mk_report
    (to_size (Z.of_nat (length received) - ipv4_header.header_length ipv4_hdr))
    (ipv4_header.source_address ipv4_hdr)
    (icmp_header.sequence_number icmp_hdr)
    (ipv4_header.time_to_live ipv4_hdr)
    (rtt_fixed3 (ld_div (ld_of_Z (total_microseconds (now - time_sent_ p)))
                        (ld_of_Z 1000))).

(** [accepts] for the session [p] as it stands. *)
Definition accepted_in (p : t) (ev : cycle_event) : bool :=
  accepts (sequence_number_ p) (time_sent_ p) (reply_buffer_ p) ev.

(** How many of the events [evs], handled in this order from [p] on, are
    replies that [handle_receive] accepts. *)
Fixpoint accepted_count (p : t) (evs : list cycle_event) : Z :=
  match evs with
  | [] => 0
  | ev :: evs =>
      (if accepted_in p ev then 1 else 0)
      + accepted_count (state_after (handle ev) p) evs
  end.

(** The datagrams handed to the socket, and the sequence numbers they
    carry, in the order of the calls. *)
Definition sent_datagrams (es : list (effect F)) : list (list Z) :=
  omap (fun e => match e with socket_send_to d => Some d | _ => None end) es.

Definition sequence_numbers_sent (es : list (effect F)) : list Z :=
  map sent_sequence_number (sent_datagrams es).

(** Two consecutive requests and the cycle between them. *)
Definition two_sends (now1 : Z) (evs : list cycle_event) (now2 : Z)
  : proc unit :=
  start_send now1 ;; run_cycle evs ;; start_send now2.

(** The statistics of the session. *)
Definition statistics (p : t) : Z * F * F * F * F :=
  (num_received_ p, ttl_min_ p, ttl_max_ p, ttl_sum_ p, ttl_sum2_ p).

(** The session after [n] requests sent at the times [now], [now + step],
    and so on, nothing having been received in between. *)
Fixpoint after_sends (n : nat) (now step : Z) (p : t) : t :=
  match n with
  | O => p
  | S n => after_sends n (now + step) step (state_after (start_send now) p)
  end.

End with_environment.

Arguments t F : clear implicits.
Arguments proc F A : clear implicits.

End pinger.

(** ** The io_service the pinger runs on

    What Boost.Asio does with the operations the handlers start, as its
    documentation describes them: [expires_at] and [cancel] complete every
    outstanding wait with [operation_canceled]; a wait completes with
    success once the expiry time is reached (at once when it already lies in
    the past); a completion handler runs when the loop dispatches it, never
    inside the call that started the operation. *)

Module io_service.

Section with_environment.

Context {F : Type} {LD : LongDouble F}.
Variable pid : Z.

Record t := mk {
  clock : Z;
  timer_expiry : Z;
  timer_waits : list wait_handler;
  aborted : list wait_handler;
  receives : nat;
  exited : option Z;
  log : list (effect F)
}.

Definition apply_effect (io : t) (e : effect F) : t :=
  let io := mk (clock io) (timer_expiry io) (timer_waits io) (aborted io)
               (receives io) (exited io) (log io ++ [e]) in
  match e with
  | timer_expires_at when_ =>
      mk (clock io) when_ [] (aborted io ++ timer_waits io)
         (receives io) (exited io) (log io)
  | timer_async_wait h =>
      mk (clock io) (timer_expiry io) (timer_waits io ++ [h]) (aborted io)
         (receives io) (exited io) (log io)
  | timer_cancel =>
      mk (clock io) (timer_expiry io) [] (aborted io ++ timer_waits io)
         (receives io) (exited io) (log io)
  | socket_async_receive =>
      mk (clock io) (timer_expiry io) (timer_waits io) (aborted io)
         (S (receives io)) (exited io) (log io)
  | process_exit status =>
      mk (clock io) (timer_expiry io) (timer_waits io) (aborted io)
         (receives io) (Some status) (log io)
  | _ => io
  end.

Record world := mk_world { session : pinger.t F; service : t }.

(** Runs a handler at time [now] and hands its effects to the service. *)
Definition perform (now : Z) (m : pinger.proc F unit) (w : world) : world :=
  let '(_, p, es) := m (session w) in
  let io := service w in
  let io := mk now (timer_expiry io) (timer_waits io) (aborted io)
               (receives io) (exited io) (log io) in
  mk_world p (fold_left apply_effect es io).

Definition run_wait_handler (h : wait_handler) (ec : error_code) (now : Z)
  : pinger.proc F unit :=
  match h with
  | on_handle_timeout => pinger.handle_timeout ec
  | on_start_send => pinger.start_send pid now
  end.

(** What the loop can dispatch next. *)
Inductive event :=
| timer_expired (now : Z)
| wait_aborted (now : Z)
| datagram (ec : error_code) (received : list Z) (tmp now : Z)
| sigint (now : Z).

Definition set_timer_waits (l : list wait_handler) (io : t) : t :=
  mk (clock io) (timer_expiry io) l (aborted io)
     (receives io) (exited io) (log io).
Definition set_aborted (l : list wait_handler) (io : t) : t :=
  mk (clock io) (timer_expiry io) (timer_waits io) l
     (receives io) (exited io) (log io).
Definition set_receives (n : nat) (io : t) : t :=
  mk (clock io) (timer_expiry io) (timer_waits io) (aborted io)
     n (exited io) (log io).

(** One dispatch; [None] when the event cannot happen in [w]: time does not
    run backwards, a wait completes with success only at or after the
    expiry time, a datagram is delivered only to an outstanding receive,
    nothing runs after [exit]. *)
Definition dispatch (ev : event) (w : world) : option world :=
  let io := service w in
  match exited io with
  | Some _ => None
  | None =>
      match ev with
      | timer_expired now =>
          match timer_waits io with
          | h :: rest =>
              if (timer_expiry io <=? now) && (clock io <=? now) then
                Some (perform now (run_wait_handler h success now)
                        (mk_world (session w) (set_timer_waits rest io)))
              else None
          | [] => None
          end
      | wait_aborted now =>
          match aborted io with
          | h :: rest =>
              if clock io <=? now then
                Some (perform now (run_wait_handler h operation_canceled now)
                        (mk_world (session w) (set_aborted rest io)))
              else None
          | [] => None
          end
      | datagram ec received tmp now =>
          match receives io with
          | S n =>
              if (clock io <=? tmp) && (tmp <=? now) then
                Some (perform now (pinger.handle_receive pid ec received tmp now)
                        (mk_world (session w) (set_receives n io)))
              else None
          | O => None
          end
      | sigint now =>
          if clock io <=? now then
            Some (perform now (pinger.handle_termination now) w)
          else None
      end
  end.

Fixpoint deliver (evs : list event) (w : world) : option world :=
  match evs with
  | [] => Some w
  | ev :: evs =>
      match dispatch ev w with
      | Some w => deliver evs w
      | None => None
      end
  end.

(** The completion of the timer at the earliest time the loop can deliver
    it: the expiry time, or the present when that has passed. *)
Definition next_timer (w : world) : option world :=
  dispatch (timer_expired (Z.max (clock (service w)) (timer_expiry (service w)))) w.

(** What has been logged since the world was [w0]. *)
Definition since (w0 w : world) : list (effect F) :=
  drop (length (log (service w0))) (log (service w)).

(** An event of a cycle in which no reply is accepted, the request having
    left at [sent] with the sequence number [seq]: a receive that completes
    by [sent] + 5 s with anything but a reply that [handle_receive]
    accepts. *)
Definition unanswered (seq sent : Z) (ev : event) : Prop :=
  match ev with
  | datagram ec received tmp now =>
      now <= sent + seconds 5
      /\ pinger.accepts pid seq sent []
           (pinger.receive_completed ec received tmp now) = false
  | _ => False
  end.

(** The cycle while no reply has been accepted, [w1] being the world in
    which the request has just left at time [t]: the session is as
    [start_send] left it, the wait for the timeout is outstanding, and
    nothing but errors and new receives has been logged since. *)
Record waiting (t : Z) (w1 w : world) : Prop := {
  waiting_session : session w = session w1;
  waiting_expiry : timer_expiry (service w) = t + seconds 5;
  waiting_waits : timer_waits (service w) = [on_handle_timeout];
  waiting_aborted : aborted (service w) = [];
  waiting_exited : exited (service w) = None;
  waiting_clock : t <= clock (service w) <= t + seconds 5;
  waiting_log : exists l,
      log (service w) = log (service w1) ++ l
      /\ count is_timed_out l = 0%nat /\ count is_send l = 0%nat
}.

(** A service on which nothing has been started yet. *)
Definition idle (now : Z) : t := mk now 0 [] [] 0 None [].

(** The program from the construction of the pinger on: [now] is the time
    of construction. *)
Definition boot (now : Z) : world :=
  perform now (pinger.construct pid now)
    (mk_world (pinger.initial now) (idle now)).

End with_environment.

Arguments t F : clear implicits.
Arguments world F : clear implicits.
Arguments event : clear implicits.

End io_service.

(** ** The first variant of [ping.cpp] (no statistics, no error codes) *)

Module pinger_v1.

Section with_environment.

Context {F : Type}.
Variable pid : Z.

Record t := mk {
  sequence_number_ : Z;
  time_sent_ : Z;
  reply_buffer_ : list Z;
  num_replies_ : Z
}.

Definition get_identifier : Z := to_ushort pid.

(** [std::string body("Some message.")] *)
Definition body : list Z :=
  [83; 111; 109; 101; 32; 109; 101; 115; 115; 97; 103; 101; 46].

Definition start_send (now : Z) (p : t) : t * list (effect F) :=
  let echo_request := icmp_header.new in
  let echo_request := icmp_header.set_type icmp_header.echo_request echo_request in
  let echo_request := icmp_header.set_code 0 echo_request in
  let echo_request := icmp_header.set_identifier get_identifier echo_request in
  let seq := to_ushort (sequence_number_ p + 1) in
  let echo_request := icmp_header.set_sequence_number seq echo_request in
  let echo_request := compute_checksum echo_request body in
  let request_buffer := ostream_write body (icmp_header.write [] echo_request) in
  (mk seq now (reply_buffer_ p) 0,
   [socket_send_to request_buffer;
    timer_expires_at (now + seconds 5);
    timer_async_wait on_handle_timeout]).

Definition handle_timeout (p : t) : t * list (effect F) :=
  (p,
   (if num_replies_ p =? 0 then [cout_timed_out] else [])
   ++ [timer_expires_at (time_sent_ p + seconds 1);
       timer_async_wait on_start_send]).

Definition start_receive (p : t) : t * list (effect F) :=
  (mk (sequence_number_ p) (time_sent_ p) [] (num_replies_ p),
   [socket_async_receive]).

Definition handle_receive (received : list Z) (now : Z) (p : t)
  : t * list (effect F) :=
  let length := Z.of_nat (length received) in
  let buf := reply_buffer_ p ++ received in
  let stream := mk_istream buf false in
  let '(stream, ipv4_hdr) := ipv4_header.read stream ipv4_header.new in
  let '(stream, icmp_hdr) := icmp_header.read stream icmp_header.new in
  let p := mk (sequence_number_ p) (time_sent_ p) (is_buf stream) (num_replies_ p) in
  if negb (is_fail stream)
     && (icmp_header.type icmp_hdr =? icmp_header.echo_reply)
     && (icmp_header.identifier icmp_hdr =? get_identifier)
     && (icmp_header.sequence_number icmp_hdr =? sequence_number_ p)
  then
    let old := num_replies_ p in
    let p := mk (sequence_number_ p) (time_sent_ p) (reply_buffer_ p)
                (to_size (old + 1)) in
    let es1 := if old =? 0 then [timer_cancel] else [] in
    let line :=
      mk_report (to_size (length - ipv4_header.header_length ipv4_hdr))
                (ipv4_header.source_address ipv4_hdr)
                (icmp_header.sequence_number icmp_hdr)
                (ipv4_header.time_to_live ipv4_hdr)
                (rtt_ms (total_milliseconds (now - time_sent_ p))) in
    let '(p, es2) := start_receive p in
    (p, es1 ++ [cout_report line] ++ es2)
  else (p, []).

End with_environment.

Arguments t : clear implicits.

End pinger_v1.

(** ** Notions the further properties are stated with *)

(** The five fields of an ICMP header, as its getters read them. *)
Definition icmp_fields (h : icmp_header.t) : Z * Z * Z * Z * Z :=
  (icmp_header.type h, icmp_header.code h, icmp_header.checksum h,
   icmp_header.identifier h, icmp_header.sequence_number h).

(** The bytes [ip] are an IPv4 header that [operator>>] takes whole: between
    20 and 60 of them, a multiple of four, and the first one says version 4
    and that many 32-bit words. *)
Definition ipv4_bytes_ok (ip : list Z) : Prop :=
  (20 <= length ip <= 60)%nat
  /\ Z.of_nat (length ip) mod 4 = 0
  /\ ip !!! 0%nat = 64 + Z.of_nat (length ip) / 4.

Section reachability.

Context {F : Type} {LD : LongDouble F}.
Variable pid : Z.

(** The worlds the program can be in: the pinger is constructed at some
    time and the loop dispatches some events one after the other. *)
Definition reachable (w : io_service.world F) : Prop :=
  exists now evs, io_service.deliver pid evs (io_service.boot pid now) = Some w.

(** What every dispatch preserves: at most one receive is outstanding and
    [reply_buffer_] is empty while it is; one wait on the timer is
    outstanding or completed and not yet dispatched; the counters of the
    session are those of the log, as far as their types can hold them. *)
Record steady (w : io_service.world F) : Prop := {
  steady_receives : (io_service.receives (io_service.service w) <= 1)%nat;
  steady_buffer :
    io_service.receives (io_service.service w) = 1%nat ->
    pinger.reply_buffer_ (io_service.session w) = [];
  steady_timer :
    (length (io_service.timer_waits (io_service.service w))
     + length (io_service.aborted (io_service.service w)) = 1)%nat;
  steady_sent : (1 <= count is_send (io_service.log (io_service.service w)))%nat;
  steady_transmitted :
    pinger.num_transmitted_ (io_service.session w)
    = to_size (Z.of_nat (count is_send (io_service.log (io_service.service w))));
  steady_sequence :
    pinger.sequence_number_ (io_service.session w)
    = to_ushort (Z.of_nat (count is_send (io_service.log (io_service.service w))));
  steady_received :
    pinger.num_received_ (io_service.session w)
    = to_size (Z.of_nat (count is_report (io_service.log (io_service.service w))))
}.

End reachability.

(** ** Inputs used in examples *)

(** A header and a stream on which the version is wrong although the header
    length is valid: the 4 option bytes stay in the stream. *)
Definition version5_input : list Z := 86 :: replicate 23 0.

(** A well-formed 24-byte header followed by 8 more bytes. *)
Definition ipv4_input : list Z :=
  [70; 0; 0; 32; 0; 0; 0; 0; 64; 1; 0; 0; 10; 0; 0; 1; 10; 0; 0; 2;
   1; 1; 1; 0] ++ replicate 8 7.

(** A body long enough for the 32-bit sum to wrap: 131074 bytes 0xFF. *)
Definition long_body : list Z := replicate (Z.to_nat 131074) 255.

(** An echo reply as it arrives: a 20-byte IPv4 header from 10.0.0.1 with
    TTL 64, then the ICMP header for the identifier [id] and the sequence
    number [seq], then the 56 bytes of the request. *)
Definition echo_reply_datagram (id seq : Z) : list Z :=
  [69; 0; 0; 84; 0; 0; 0; 0; 64; 1; 0; 0; 10; 0; 0; 1; 10; 0; 0; 2]
  ++ wire (compute_checksum (make_header icmp_header.echo_reply 0 id seq)
                            (replicate 56 122))
          (replicate 56 122).

(** The process id of the examples. *)
Definition example_pid : Z := 1234.

(** The program of the examples, started when the clock reads 0. *)
Definition example_world : io_service.world float :=
  io_service.boot example_pid 0.

(** A cycle with a duplicate: the reply to request 1 after 100 ms, the wait
    for the timeout completing as cancelled, a reply to some other request,
    then the reply to request 1 once more. *)
Definition duplicate_cycle : list pinger.cycle_event :=
  [pinger.receive_completed success
     (echo_reply_datagram example_pid 1) 100000 100010;
   pinger.timeout_completed operation_canceled;
   pinger.receive_completed success
     (echo_reply_datagram example_pid 9) 150000 150010].

Definition duplicate_reply : pinger.cycle_event :=
  pinger.receive_completed success
    (echo_reply_datagram example_pid 1) 200000 200010.

(** The session after 65534 requests, one every five seconds. *)
Definition long_session : pinger.t float :=
  pinger.after_sends example_pid (Z.to_nat 65534) 0 (seconds 5)
    (pinger.initial 0).

(** The session after five requests that nothing answered. *)
Definition unanswered_session : pinger.t float :=
  pinger.after_sends example_pid 5 0 (seconds 5) (pinger.initial 0).

(** The world in which the second request of the examples is about to
    leave: the first one timed out, the wait that [handle_timeout] started
    has completed and its handler is being dispatched. *)
Definition before_second_request : io_service.world float :=
  match io_service.next_timer example_pid example_world with
  | Some w =>
      io_service.mk_world (io_service.session w)
        (io_service.set_timer_waits [] (io_service.service w))
  | None => example_world
  end.

(** Two receives that complete during the second cycle: a reply to the
    first request, and a transport error. *)
Definition unanswered_events : list io_service.event :=
  [io_service.datagram success (echo_reply_datagram example_pid 1)
     5100000 5100010;
   io_service.datagram (other_error 111) [] 6000000 6000000].

(** A session of the first variant that waits for the reply to request 1. *)
Definition v1_session : pinger_v1.t :=
  pinger_v1.mk 1 0 [] 0.

(** A 20-byte IPv4 header from 10.0.0.1 with TTL 64 and no options. *)
Definition example_ip : list Z :=
  [69; 0; 0; 84; 0; 0; 0; 0; 64; 1; 0; 0; 10; 0; 0; 1; 10; 0; 0; 2].

(** The ICMP header of the echo reply to request [seq] of the examples. *)
Definition example_reply_header (seq : Z) : icmp_header.t :=
  compute_checksum (make_header icmp_header.echo_reply 0 example_pid seq)
                   (replicate 56 122).

(** The session of the examples after the reply to request 1 has come in
    twice: one request sent, two replies counted. *)
Definition duplicate_session : pinger.t float :=
  pinger.state_after
    (pinger.run_cycle example_pid (duplicate_cycle ++ [duplicate_reply]))
    (io_service.session example_world).

(** The program of the examples interrupted after one second. *)
Definition interrupted_world : io_service.world float :=
  io_service.perform 1000000 (pinger.handle_termination 1000000) example_world.

(** An IPv4 header with both fragment flags set and the offset 5. *)
Definition fragmented_header : ipv4_header.t :=
  ipv4_header.mk ([69; 0; 0; 84; 0; 0; 96; 5] ++ replicate 52 0).

(** * Properties *)

(** ** Machine integers and bytes *)

Lemma to_uint_add_l a b : to_uint (to_uint a + b) = to_uint (a + b).
Proof. unfold to_uint. apply Zplus_mod_idemp_l. Qed.

Lemma to_byte_range n : 0 <= to_byte n < 256.
Proof. unfold to_byte. apply Z.mod_pos_bound. lia. Qed.

Lemma checksum_body_sum_aux (n : nat) :
  forall body s, (length body <= n)%nat ->
    checksum_body (to_uint s) body
    = to_uint (s + sum_words (words_of (map to_byte body))).
Proof.
  induction n as [|n IH]; intros [|b1 [|b2 rest]] s Hlen; simpl in *; try lia.
  - apply (f_equal to_uint); lia.
  - apply (f_equal to_uint); lia.
  - rewrite Z.shiftl_mul_pow2 by lia. change (2 ^ 8) with 256.
    unfold to_uint. Z.div_mod_to_equations. lia.
  - rewrite IH by lia. rewrite Z.shiftl_mul_pow2 by lia. change (2 ^ 8) with 256.
    generalize (sum_words (words_of (map to_byte rest))); intros r.
    unfold to_uint. Z.div_mod_to_equations. lia.
Qed.

Lemma checksum_body_sum body s :
  checksum_body (to_uint s) body
  = to_uint (s + sum_words (words_of (map to_byte body))).
Proof. now apply (checksum_body_sum_aux (length body)). Qed.

(** The two folds and the complement. *)
Lemma fold_complement s :
  0 <= s < 4294967296 ->
  (let sum := to_uint (Z.shiftr s 16 + Z.land s 65535) in
   let sum := to_uint (sum + Z.shiftr sum 16) in
   to_ushort (to_uint (Z.lnot sum))) = 65535 - end_around s.
Proof.
  intros Hs. cbv zeta. unfold end_around, to_uint, to_ushort, Z.lnot.
  rewrite !Z.shiftr_div_pow2 by lia.
  change 65535 with (Z.ones 16) at 1 2. rewrite !Z.land_ones by lia.
  change (2 ^ 16) with 65536. change (Z.ones 16) with 65535.
  destruct (Z.eqb_spec s 0) as [->|Hne]; [reflexivity|].
  Z.div_mod_to_equations. lia.
Qed.

Lemma end_around_range s : 0 <= s -> 0 <= end_around s <= 65535.
Proof.
  intros. unfold end_around. destruct (Z.eqb_spec s 0); [lia|].
  Z.div_mod_to_equations. lia.
Qed.

Lemma ones_complement_add_end_around x w :
  0 <= x -> 0 <= w <= 65535 ->
  ones_complement_add (end_around x) w = end_around (x + w).
Proof.
  intros Hx Hw. unfold ones_complement_add, end_around. cbv zeta.
  destruct (Z.eqb_spec x 0) as [Hx0|Hx0];
    destruct (Z.eqb_spec (x + w) 0) as [H1|H1]; try lia;
    Z.div_mod_to_equations; lia.
Qed.

Lemma sum_words_nonneg ws : words_ok ws -> 0 <= sum_words ws.
Proof. induction 1; simpl; lia. Qed.

Lemma fold_ones_complement ws :
  words_ok ws -> forall x, 0 <= x ->
  fold_left ones_complement_add ws (end_around x) = end_around (x + sum_words ws).
Proof.
  induction 1 as [|w ws Hw Hws IH]; intros x Hx; simpl.
  - apply (f_equal end_around); lia.
  - rewrite ones_complement_add_end_around by lia.
    rewrite IH by lia. apply (f_equal end_around); lia.
Qed.

Lemma words_of_ok_aux (n : nat) : forall bytes, (length bytes <= n)%nat ->
  Forall is_byte bytes -> words_ok (words_of bytes).
Proof.
  unfold words_ok, is_byte.
  induction n as [|n IH]; intros [|b1 [|b2 rest]] Hlen Hb; simpl in *;
    try lia; try apply List.Forall_nil.
  - inversion Hb; subst. apply List.Forall_cons; [lia|apply List.Forall_nil].
  - inversion Hb as [|? ? H1 Hb']; subst. inversion Hb' as [|? ? H2 Hb'']; subst.
    apply List.Forall_cons; [lia|]. apply IH; [lia|assumption].
Qed.

Lemma words_of_ok bytes : Forall is_byte bytes -> words_ok (words_of bytes).
Proof. now apply (words_of_ok_aux (length bytes)). Qed.

Lemma map_to_byte_ok body : Forall is_byte (map to_byte body).
Proof. apply Forall_map, Forall_forall. intros x _. apply to_byte_range. Qed.

Lemma hi_lo_value n : is_ushort n -> hi n * 256 + lo n = n.
Proof.
  unfold is_ushort, hi, lo, to_byte, to_ushort. intros Hn.
  rewrite Z.shiftr_div_pow2 by lia.
  change 255 with (Z.ones 8). rewrite Z.land_ones by lia.
  change (2 ^ 8) with 256.
  Z.div_mod_to_equations. lia.
Qed.

Lemma word_of_bytes x y :
  is_byte x -> is_byte y -> to_ushort (Z.shiftl x 8 + y) = x * 256 + y.
Proof.
  unfold is_byte, to_ushort. intros. rewrite Z.shiftl_mul_pow2 by lia.
  change (2 ^ 8) with 256. apply Z.mod_small. lia.
Qed.

Lemma to_byte_small n : is_byte n -> to_byte n = n.
Proof. unfold is_byte, to_byte. intros. apply Z.mod_small. lia. Qed.

Lemma hi_byte n : is_byte (hi n).
Proof. unfold hi. apply to_byte_range. Qed.
Lemma lo_byte n : is_byte (lo n).
Proof. unfold lo. apply to_byte_range. Qed.

Lemma checksum_value_range h body : is_ushort (checksum_value h body).
Proof. unfold checksum_value, is_ushort, to_ushort. apply Z.mod_pos_bound. lia. Qed.

Lemma end_around_complement u :
  0 <= u -> end_around (u + (65535 - end_around u)) = 65535.
Proof.
  intros Hu. unfold end_around.
  destruct (Z.eqb_spec u 0) as [->|Hu0]; [reflexivity|].
  destruct (Z.eqb_spec (u + (65535 - ((u - 1) mod 65535 + 1))) 0) as [H0|H0];
    Z.div_mod_to_equations; lia.
Qed.

Lemma wf_inv h :
  icmp_header.wf h ->
  exists a b c d e f g i,
    h = icmp_header.mk [a; b; c; d; e; f; g; i]
    /\ is_byte a /\ is_byte b /\ is_byte c /\ is_byte d
    /\ is_byte e /\ is_byte f /\ is_byte g /\ is_byte i.
Proof.
  destruct h as [r]. intros [Hlen Hb]. simpl in *.
  do 8 (destruct r as [|? r]; [discriminate|]).
  destruct r; [|discriminate].
  repeat match goal with H : Forall _ (_ :: _) |- _ =>
    apply List.Forall_cons_iff in H; destruct H end.
  do 8 eexists. split; [reflexivity|]. unfold is_byte in *. repeat split; lia.
Qed.

Lemma unbounded_sum_nonneg h body :
  icmp_header.wf h -> 0 <= unbounded_sum h body.
Proof.
  intros Hwf.
  destruct (wf_inv h Hwf)
    as (a & b & c & d & e & f & g & i & -> & Ha & Hb & _ & _ & He & Hf & Hg & Hi).
  pose proof (sum_words_nonneg _ (words_of_ok _ (map_to_byte_ok body))) as Hw0.
  unfold unbounded_sum, icmp_header.type, icmp_header.code,
    icmp_header.identifier, icmp_header.sequence_number, icmp_header.decode.
  cbn [icmp_header.rep_ lookup_total list_lookup_total].
  rewrite !word_of_bytes by assumption.
  rewrite Z.shiftl_mul_pow2 by lia. unfold is_byte in *. lia.
Qed.

(** What [compute_checksum] stores: the complement of the end-around sum of
    what its 32-bit accumulator holds after the loop. *)
Lemma checksum_value_wrapped h body :
  checksum_value h body = 65535 - end_around (to_uint (unbounded_sum h body)).
Proof.
  unfold checksum_value. cbv zeta. rewrite checksum_body_sum.
  apply fold_complement. unfold to_uint. apply Z.mod_pos_bound. lia.
Qed.

(** What the receiver computes over the message that leaves. *)
Lemma rfc1071_check_wire h body :
  icmp_header.wf h ->
  rfc1071_check (wire (compute_checksum h body) body)
  = 65535 - end_around (unbounded_sum h body + checksum_value h body).
Proof.
  intros Hwf. pose proof (unbounded_sum_nonneg h body Hwf) as HU0.
  destruct (wf_inv h Hwf)
    as (a & b & c & d & e & f & g & i & -> & Ha & Hb & Hc & Hd & He & Hf & Hg & Hi).
  pose proof (words_of_ok _ (map_to_byte_ok body)) as Hws.
  pose proof (sum_words_nonneg _ Hws) as Hw0.
  set (h := icmp_header.mk [a; b; c; d; e; f; g; i]) in *.
  set (W := sum_words (words_of (map to_byte body))) in *.
  assert (HU : unbounded_sum h body
               = a * 256 + b + (e * 256 + f) + (g * 256 + i) + W).
  { unfold unbounded_sum, icmp_header.type, icmp_header.code,
      icmp_header.identifier, icmp_header.sequence_number, icmp_header.decode.
    cbn [icmp_header.rep_ h lookup_total list_lookup_total].
    rewrite !word_of_bytes by assumption.
    rewrite Z.shiftl_mul_pow2 by lia. reflexivity. }
  pose proof (checksum_value_range h body) as Hcr.
  set (cv := checksum_value h body) in *.
  assert (Hwire : words_of (wire (compute_checksum h body) body)
                  = [a * 256 + b; hi cv * 256 + lo cv; e * 256 + f; g * 256 + i]
                    ++ words_of (map to_byte body)).
  { assert (Hrep : icmp_header.rep_ (compute_checksum h body)
                   = [a; b; hi cv; lo cv; e; f; g; i]) by reflexivity.
    unfold wire, icmp_header.write, ostream_write. rewrite Hrep.
    cbn [take map app].
    rewrite (to_byte_small a), (to_byte_small b), (to_byte_small e),
      (to_byte_small f), (to_byte_small g), (to_byte_small i),
      (to_byte_small (hi cv)), (to_byte_small (lo cv))
      by (assumption || apply hi_byte || apply lo_byte).
    reflexivity. }
  unfold rfc1071_check, ones_complement_sum. rewrite Hwire.
  change 0 with (end_around 0) at 1.
  rewrite fold_ones_complement.
  - apply (f_equal (fun x => 65535 - end_around x)).
    cbn [app sum_words fold_right].
    fold (sum_words (words_of (map to_byte body))). fold W.
    rewrite hi_lo_value by assumption. rewrite HU. lia.
  - unfold words_ok. cbn [app]. unfold is_byte, is_ushort in *.
    pose proof (hi_lo_value cv Hcr).
    repeat (apply List.Forall_cons; [lia|]). exact Hws.
  - lia.
Qed.

Lemma checksum_verifies_wf h body :
  icmp_header.wf h ->
  unbounded_sum h body < 4294967296 ->
  rfc1071_check (wire (compute_checksum h body) body) = 0.
Proof.
  intros Hwf Hsum. pose proof (unbounded_sum_nonneg h body Hwf) as HU0.
  rewrite rfc1071_check_wire by assumption.
  rewrite checksum_value_wrapped.
  replace (to_uint (unbounded_sum h body)) with (unbounded_sum h body)
    by (unfold to_uint; symmetry; apply Z.mod_small; lia).
  rewrite end_around_complement by assumption. reflexivity.
Qed.

(** The words of a body of [n] pairs of bytes 0xFF add up to [n] times
    0xFFFF. *)
Lemma sum_words_all_ones (n : nat) :
  sum_words (words_of (map to_byte (replicate (n + n) 255)))
  = 65535 * Z.of_nat n.
Proof.
  induction n as [|n IH]; [reflexivity|].
  replace (S n + S n)%nat with (S (S (n + n))) by lia.
  cbn [replicate map words_of sum_words fold_right].
  fold (sum_words (words_of (map to_byte (replicate (n + n) 255)))).
  rewrite IH. change (to_byte 255) with 255. lia.
Qed.

Lemma to_byte_idem n : to_byte (to_byte n) = to_byte n.
Proof. unfold to_byte. apply Z.mod_mod. lia. Qed.

Lemma to_ushort_small n : is_ushort n -> to_ushort n = n.
Proof. unfold is_ushort, to_ushort. intros. apply Z.mod_small. lia. Qed.

Lemma ushort_bytes n :
  to_ushort (Z.shiftl (hi n) 8 + lo n) = to_ushort n.
Proof.
  rewrite word_of_bytes by (apply hi_byte || apply lo_byte).
  unfold hi, lo. fold (hi (to_ushort n)) (lo (to_ushort n)).
  assert (Hn : is_ushort (to_ushort n))
    by (unfold is_ushort, to_ushort; apply Z.mod_pos_bound; lia).
  pose proof (hi_lo_value (to_ushort n) Hn) as H.
  unfold hi, lo in H |- *. unfold to_ushort in H |- * at 1.
  rewrite !Z.mod_mod in H by lia. exact H.
Qed.

(** ** IPv4 decoding *)

Lemma header_length_range h : 0 <= ipv4_header.header_length h <= 60.
Proof.
  unfold ipv4_header.header_length, to_ushort.
  assert (0 <= Z.land (ipv4_header.rep_ h !!! 0%nat) 15 <= 15).
  { change 15 with (Z.ones 4) at 1 2. rewrite Z.land_ones by lia.
    pose proof (Z.mod_pos_bound (ipv4_header.rep_ h !!! 0%nat) (2 ^ 4)). lia. }
  rewrite Z.mod_small; lia.
Qed.

Lemma first_byte_inserts (k r : list Z) :
  (list_inserts 20 k r) !!! 0%nat = r !!! 0%nat.
Proof. apply list_lookup_total_inserts_lt. lia. Qed.

Lemma version_inserts k r :
  ipv4_header.version (ipv4_header.mk (list_inserts 20 k r))
  = ipv4_header.version (ipv4_header.mk r).
Proof. unfold ipv4_header.version. simpl. now rewrite first_byte_inserts. Qed.

Lemma header_length_inserts k r :
  ipv4_header.header_length (ipv4_header.mk (list_inserts 20 k r))
  = ipv4_header.header_length (ipv4_header.mk r).
Proof. unfold ipv4_header.header_length. simpl. now rewrite first_byte_inserts. Qed.

Lemma read_failed buf h :
  ipv4_header.read (mk_istream buf true) h
  = (mk_istream buf true, ipv4_header.mk (ipv4_header.rep_ h)).
Proof.
  unfold ipv4_header.read, istream_read. cbn [is_fail is_buf].
  destruct (ipv4_header.version _ =? 4);
    destruct ((_ <? 0) || (40 <? _));
    cbn [is_fail is_buf ipv4_header.setstate_failbit ipv4_header.rep_];
    reflexivity.
Qed.

Lemma read_good buf h :
  ipv4_header.read (mk_istream buf false) h
  = let h1 := ipv4_header.mk (list_inserts 0 (take 20 buf) (ipv4_header.rep_ h)) in
    let ol := ipv4_header.header_length h1 - 20 in
    if (ol <? 0) || (40 <? ol) then (mk_istream (drop 20 buf) true, h1)
    else if (length buf <? 20)%nat || negb (ipv4_header.version h1 =? 4)
    then (mk_istream (drop 20 buf) true, h1)
    else (mk_istream (drop (Z.to_nat ol) (drop 20 buf))
                     (length (drop 20 buf) <? Z.to_nat ol)%nat,
          ipv4_header.mk (list_inserts 20 (take (Z.to_nat ol) (drop 20 buf))
                                       (ipv4_header.rep_ h1))).
Proof.
  unfold ipv4_header.read, istream_read. cbn [is_fail is_buf]. cbv zeta.
  set (h1 := ipv4_header.mk (list_inserts 0 (take 20 buf) (ipv4_header.rep_ h))).
  destruct (ipv4_header.version h1 =? 4);
    destruct ((ipv4_header.header_length h1 - 20 <? 0)
              || (40 <? ipv4_header.header_length h1 - 20));
    destruct (length buf <? 20)%nat;
    cbn [is_fail is_buf ipv4_header.setstate_failbit ipv4_header.rep_ orb negb];
    reflexivity.
Qed.

(** C7, as amended.  Decoding an IPv4 header leaves the stream failed
    whenever the version that was read is not 4 and whenever the header
    length that was read puts the options below 0 or above 40 bytes.  A
    decode that succeeds has extracted exactly the 20 fixed bytes and the
    options-length bytes after them, and it succeeds when the stream was
    good, the version is 4, the header length is valid and the input holds
    that many bytes.  In every case no more than that is extracted.  Once
    the stream has failed, because it had failed before, or held fewer than
    20 bytes, or the version read is not 4, no option byte is read, however
    valid the header length: nothing is extracted from a stream that had
    failed, the 20 fixed bytes or what there is of them otherwise, and the
    header is left as it was from byte 20 on. *)
Theorem ipv4_decode s h :
  let s' := fst (ipv4_header.read s h) in
  let h' := snd (ipv4_header.read s h) in
  (ipv4_header.version h' <> 4 -> is_fail s' = true)
  /\ (ipv4_header.header_length h' - 20 < 0
      \/ 40 < ipv4_header.header_length h' - 20 -> is_fail s' = true)
  /\ (is_fail s' = false ->
      bytes_read s s' = 20 + (ipv4_header.header_length h' - 20)
      /\ is_buf s' = drop (Z.to_nat (ipv4_header.header_length h')) (is_buf s))
  /\ (is_fail s = false -> ipv4_header.version h' = 4 ->
      0 <= ipv4_header.header_length h' - 20 <= 40 ->
      ipv4_header.header_length h' <= Z.of_nat (length (is_buf s)) ->
      is_fail s' = false)
  /\ 0 <= bytes_read s s' <= 20 + Z.max 0 (ipv4_header.header_length h' - 20)
  /\ (is_fail s = true
      \/ (length (is_buf s) < 20)%nat
      \/ ipv4_header.version h' <> 4 ->
      is_buf s' = (if is_fail s then is_buf s else drop 20 (is_buf s))
      /\ bytes_read s s'
         = (if is_fail s then 0
            else Z.min 20 (Z.of_nat (length (is_buf s))))
      /\ forall i : nat, (20 <= i)%nat ->
           ipv4_header.rep_ h' !! i = ipv4_header.rep_ h !! i).
Proof.
  assert (Hopt : forall buf (i : nat), (20 <= i)%nat ->
            list_inserts 0 (take 20 buf) (ipv4_header.rep_ h) !! i
            = ipv4_header.rep_ h !! i).
  { intros buf i Hi. apply list_lookup_inserts_ge.
    rewrite length_take. lia. }
  destruct s as [buf [|]]; unfold bytes_read.
  - rewrite read_failed. cbn [fst snd is_fail is_buf].
    pose proof (header_length_range (ipv4_header.mk (ipv4_header.rep_ h))).
    repeat split; intros; try discriminate; try reflexivity; lia.
  - rewrite read_good. cbv zeta.
    set (h1 := ipv4_header.mk (list_inserts 0 (take 20 buf) (ipv4_header.rep_ h))).
    pose proof (header_length_range h1) as Hr.
    destruct ((ipv4_header.header_length h1 - 20 <? 0)
              || (40 <? ipv4_header.header_length h1 - 20)) eqn:Ho.
    + cbn [fst snd is_fail is_buf]. rewrite length_drop.
      apply orb_true_iff in Ho.
      repeat split; intros; try discriminate; try reflexivity; try lia.
      apply Hopt. assumption.
    + apply orb_false_iff in Ho. destruct Ho as [Ho1 Ho2].
      apply Z.ltb_ge in Ho1, Ho2.
      destruct ((length buf <? 20)%nat || negb (ipv4_header.version h1 =? 4)) eqn:Hs.
      * cbn [fst snd is_fail is_buf]. rewrite length_drop.
        apply orb_true_iff in Hs.
        repeat split; intros; try discriminate; try reflexivity; try lia.
        -- exfalso. destruct Hs as [Hs|Hs].
           ++ apply Nat.ltb_lt in Hs. lia.
           ++ apply negb_true_iff, Z.eqb_neq in Hs. contradiction.
        -- apply Hopt. assumption.
      * apply orb_false_iff in Hs. destruct Hs as [Hs1 Hs2].
        apply Nat.ltb_ge in Hs1. apply negb_false_iff, Z.eqb_eq in Hs2.
        cbn [fst snd is_fail is_buf].
        rewrite version_inserts, header_length_inserts.
        change (ipv4_header.mk (ipv4_header.rep_ h1)) with h1.
        rewrite !length_drop, drop_drop.
        replace (20 + Z.to_nat (ipv4_header.header_length h1 - 20))%nat
          with (Z.to_nat (ipv4_header.header_length h1)) by lia.
        repeat split; intros;
          repeat match goal with
                 | H : (_ <? _)%nat = false |- _ => apply Nat.ltb_ge in H
                 | |- (_ <? _)%nat = false => apply Nat.ltb_ge
                 | H : false = true \/ _ |- _ =>
                     destruct H as [H|[H|H]]; [discriminate|lia|contradiction]
                 end;
          try contradiction; try lia; try reflexivity.
Qed.

Lemma set_checksum_rep n h :
  icmp_header.rep_ (icmp_header.set_checksum n h)
  = <[3%nat := lo n]> (<[2%nat := hi n]> (icmp_header.rep_ h)).
Proof. reflexivity. Qed.

Lemma lookup_total_set_checksum n h (i : nat) :
  i <> 2%nat -> i <> 3%nat ->
  icmp_header.rep_ (icmp_header.set_checksum n h) !!! i = icmp_header.rep_ h !!! i.
Proof.
  intros H2 H3. rewrite set_checksum_rep.
  rewrite !list_lookup_total_insert_ne by congruence. reflexivity.
Qed.

Lemma lookup_set_checksum n h (i : nat) :
  i <> 2%nat -> i <> 3%nat ->
  icmp_header.rep_ (icmp_header.set_checksum n h) !! i = icmp_header.rep_ h !! i.
Proof.
  intros H2 H3. rewrite set_checksum_rep.
  rewrite !list_lookup_insert_ne by congruence. reflexivity.
Qed.

Lemma fields_set_checksum n h :
  icmp_header.type (icmp_header.set_checksum n h) = icmp_header.type h
  /\ icmp_header.code (icmp_header.set_checksum n h) = icmp_header.code h
  /\ icmp_header.identifier (icmp_header.set_checksum n h) = icmp_header.identifier h
  /\ icmp_header.sequence_number (icmp_header.set_checksum n h)
     = icmp_header.sequence_number h.
Proof.
  unfold icmp_header.type, icmp_header.code, icmp_header.identifier,
    icmp_header.sequence_number, icmp_header.decode.
  rewrite !lookup_total_set_checksum by lia. auto.
Qed.

Lemma checksum_value_set_checksum n h body :
  checksum_value (icmp_header.set_checksum n h) body = checksum_value h body.
Proof.
  unfold checksum_value.
  destruct (fields_set_checksum n h) as (-> & -> & -> & ->). reflexivity.
Qed.

Lemma set_checksum_twice n m h :
  icmp_header.set_checksum n (icmp_header.set_checksum m h)
  = icmp_header.set_checksum n h.
Proof.
  apply (f_equal icmp_header.mk).
  change (<[3%nat := lo n]> (<[2%nat := hi n]>
            (<[3%nat := lo m]> (<[2%nat := hi m]> (icmp_header.rep_ h))))
          = <[3%nat := lo n]> (<[2%nat := hi n]> (icmp_header.rep_ h))).
  rewrite (list_insert_insert_ne _ 2 3 (hi n) (lo m)) by lia.
  rewrite !list_insert_insert_eq. reflexivity.
Qed.

Lemma wire_lookup h body (i : nat) :
  wire h body !! i
  = match take 8 (icmp_header.rep_ h) !! i with
    | Some x => Some (to_byte x)
    | None => map to_byte body !! (i - length (take 8 (icmp_header.rep_ h)))%nat
    end.
Proof.
  unfold wire, icmp_header.write, ostream_write. cbn [app].
  rewrite lookup_app, length_map, list_lookup_fmap.
  destruct (take 8 (icmp_header.rep_ h) !! i); reflexivity.
Qed.

(** C10.  [compute_checksum] writes bytes 2 and 3 of the header and nothing
    else: type, code, identifier and sequence number keep their values,
    every other byte of the header and of the message on the wire (so the
    whole body) is what it was; and the value it stores does not depend on
    what the checksum field held before. *)
Theorem compute_checksum_frame h body :
  icmp_header.type (compute_checksum h body) = icmp_header.type h
  /\ icmp_header.code (compute_checksum h body) = icmp_header.code h
  /\ icmp_header.identifier (compute_checksum h body) = icmp_header.identifier h
  /\ icmp_header.sequence_number (compute_checksum h body)
     = icmp_header.sequence_number h
  /\ (forall i : nat, i <> 2%nat -> i <> 3%nat ->
        icmp_header.rep_ (compute_checksum h body) !! i = icmp_header.rep_ h !! i)
  /\ (forall i : nat, i <> 2%nat -> i <> 3%nat ->
        wire (compute_checksum h body) body !! i = wire h body !! i)
  /\ (forall prior,
        checksum_value (icmp_header.set_checksum prior h) body = checksum_value h body
        /\ compute_checksum (icmp_header.set_checksum prior h) body
           = compute_checksum h body).
Proof.
  unfold compute_checksum.
  destruct (fields_set_checksum (checksum_value h body) h) as (Ht & Hc & Hi & Hs).
  repeat split; try assumption.
  - intros i H2 H3. now apply lookup_set_checksum.
  - intros i H2 H3. rewrite !wire_lookup.
    rewrite !length_take, !lookup_take. rewrite set_checksum_rep, !length_insert.
    rewrite !list_lookup_insert_ne by congruence. reflexivity.
  - apply checksum_value_set_checksum.
  - rewrite checksum_value_set_checksum. apply set_checksum_twice.
Qed.

(** C7, counterexample: the header length read is 24, a valid one, and 24
    bytes are there, yet 20 bytes are extracted and not 24. *)
Lemma ipv4_decode_counterexample :
  let s := mk_istream version5_input false in
  let s' := fst (ipv4_header.read s ipv4_header.new) in
  let h' := snd (ipv4_header.read s ipv4_header.new) in
  0 <= ipv4_header.header_length h' - 20 <= 40
  /\ bytes_read s s' <> 20 + (ipv4_header.header_length h' - 20).
Proof. vm_compute. split; [split|]; discriminate. Qed.

(** C7 on a good stream: a 24-byte header, version 4, is decoded and the 8
    bytes after it stay in the stream. *)
Lemma ipv4_decode_witness :
  let s := mk_istream ipv4_input false in
  let s' := fst (ipv4_header.read s ipv4_header.new) in
  let h' := snd (ipv4_header.read s ipv4_header.new) in
  is_fail s' = false
  /\ bytes_read s s' = 24
  /\ is_buf s' = replicate 8 7.
Proof.
  pose proof (ipv4_decode (mk_istream ipv4_input false) ipv4_header.new)
    as (_ & _ & Hread & Hok & _).
  assert (Hgood : is_fail (fst (ipv4_header.read (mk_istream ipv4_input false)
                                  ipv4_header.new)) = false).
  { apply Hok; vm_compute; try reflexivity; try (split; discriminate);
      discriminate. }
  destruct (Hread Hgood) as [Hn Hbuf].
  cbv zeta. split; [exact Hgood|]. split.
  - rewrite Hn. reflexivity.
  - rewrite Hbuf. reflexivity.
Defined.

(** ** ICMP encoding and decoding *)

Lemma make_header_rep ty cd id sq :
  icmp_header.rep_ (make_header ty cd id sq)
  = [to_byte ty; to_byte cd; 0; 0; hi id; lo id; hi sq; lo sq].
Proof. reflexivity. Qed.

Lemma make_header_wf ty cd id sq : icmp_header.wf (make_header ty cd id sq).
Proof.
  split; rewrite make_header_rep; [reflexivity|].
  repeat apply List.Forall_cons;
    try apply to_byte_range; try apply hi_byte; try apply lo_byte;
    try apply List.Forall_nil; unfold is_byte; lia.
Qed.

(** C8.  Decoding the eight bytes that encode a header built from a type, a
    code, an identifier and a sequence number, its checksum computed over
    any body, gives that header back: the stream stays good, what followed
    the eight bytes is left in it, and the five fields read the four values
    given and the checksum that was computed. *)
Theorem icmp_encode_decode_inverse ty cd id sq body rest :
  is_byte ty -> is_byte cd -> is_ushort id -> is_ushort sq ->
  let h := compute_checksum (make_header ty cd id sq) body in
  icmp_header.read (mk_istream (icmp_header.write [] h ++ rest) false)
                   icmp_header.new
  = (mk_istream rest false, h)
  /\ icmp_header.type h = ty
  /\ icmp_header.code h = cd
  /\ icmp_header.identifier h = id
  /\ icmp_header.sequence_number h = sq
  /\ icmp_header.checksum h = checksum_value (make_header ty cd id sq) body.
Proof.
  intros Hty Hcd Hid Hsq h.
  set (cv := checksum_value (make_header ty cd id sq) body).
  assert (Hrep : icmp_header.rep_ h
                 = [to_byte ty; to_byte cd; hi cv; lo cv;
                    hi id; lo id; hi sq; lo sq]) by reflexivity.
  pose proof (checksum_value_range (make_header ty cd id sq) body) as Hc.
  fold cv in Hc.
  repeat split.
  - unfold icmp_header.read, icmp_header.write, ostream_write, istream_read.
    destruct h as [r]. simpl in Hrep. subst r.
    cbn -[to_byte hi lo cv].
    rewrite !to_byte_idem.
    rewrite !(to_byte_small (hi _)) by apply hi_byte.
    rewrite !(to_byte_small (lo _)) by apply lo_byte.
    reflexivity.
  - unfold icmp_header.type. rewrite Hrep. now apply to_byte_small.
  - unfold icmp_header.code. rewrite Hrep. now apply to_byte_small.
  - unfold icmp_header.identifier, icmp_header.decode. rewrite Hrep.
    change (to_ushort (Z.shiftl (hi id) 8 + lo id) = id).
    rewrite ushort_bytes. now apply to_ushort_small.
  - unfold icmp_header.sequence_number, icmp_header.decode. rewrite Hrep.
    change (to_ushort (Z.shiftl (hi sq) 8 + lo sq) = sq).
    rewrite ushort_bytes. now apply to_ushort_small.
  - unfold icmp_header.checksum, icmp_header.decode. rewrite Hrep.
    change (to_ushort (Z.shiftl (hi cv) 8 + lo cv) = cv).
    rewrite ushort_bytes. now apply to_ushort_small.
Qed.

(** C8 on the first request of a session with identifier 1234. *)
Lemma icmp_encode_decode_inverse_witness :
  let h := compute_checksum (make_header 8 0 1234 1) (replicate 56 122) in
  icmp_header.read (mk_istream (icmp_header.write [] h ++ []) false)
                   icmp_header.new
  = (mk_istream [] false, h)
  /\ icmp_header.type h = 8
  /\ icmp_header.code h = 0
  /\ icmp_header.identifier h = 1234
  /\ icmp_header.sequence_number h = 1
  /\ icmp_header.checksum h
     = checksum_value (make_header 8 0 1234 1) (replicate 56 122).
Proof.
  apply (icmp_encode_decode_inverse 8 0 1234 1 (replicate 56 122) []);
    unfold is_byte, is_ushort; lia.
Defined.

(** ** The checksum verifies *)

(** C1, as amended.  For every type, code, identifier and sequence number and
    every body for which the sum of the header words and the body words
    stays below 2^32, the message that leaves with the computed checksum in
    its header passes the RFC 1071 check: the one's complement sum of all
    its 16-bit words is all ones, its complement 0. *)
Theorem checksum_round_trip ty cd id sq body :
  unbounded_sum (make_header ty cd id sq) body < 4294967296 ->
  rfc1071_check (wire (compute_checksum (make_header ty cd id sq) body) body) = 0.
Proof. apply checksum_verifies_wf, make_header_wf. Qed.

(** C1 on the first request of a session with identifier 1234. *)
Lemma checksum_round_trip_witness :
  unbounded_sum (make_header 8 0 1234 1) (replicate 56 122) < 4294967296
  /\ rfc1071_check
       (wire (compute_checksum (make_header 8 0 1234 1) (replicate 56 122))
             (replicate 56 122)) = 0.
Proof.
  split; [reflexivity|].
  apply (checksum_round_trip 8 0 1234 1 (replicate 56 122)). reflexivity.
Defined.

Lemma sum_words_bound_aux (n : nat) : forall bytes,
  (length bytes <= n)%nat -> Forall is_byte bytes ->
  2 * sum_words (words_of bytes) <= 65535 * (Z.of_nat (length bytes) + 1).
Proof.
  unfold is_byte.
  induction n as [|n IH]; intros [|b1 [|b2 rest]] Hlen Hb;
    cbn [words_of sum_words fold_right length] in *; try lia.
  - apply List.Forall_cons_iff in Hb. destruct Hb as [H1 _]. lia.
  - apply List.Forall_cons_iff in Hb. destruct Hb as [H1 Hb].
    apply List.Forall_cons_iff in Hb. destruct Hb as [H2 Hb].
    specialize (IH rest ltac:(lia) Hb).
    fold (sum_words (words_of rest)). lia.
Qed.

Lemma header_sum_bound h :
  icmp_header.wf h ->
  0 <= Z.shiftl (icmp_header.type h) 8 + icmp_header.code h
       + icmp_header.identifier h + icmp_header.sequence_number h <= 196605.
Proof.
  intros Hwf.
  destruct (wf_inv h Hwf)
    as (a & b & c & d & e & f & g & i & -> & Ha & Hb & _ & _ & He & Hf & Hg & Hi).
  unfold icmp_header.type, icmp_header.code, icmp_header.identifier,
    icmp_header.sequence_number, icmp_header.decode.
  cbn [icmp_header.rep_ lookup_total list_lookup_total].
  rewrite !word_of_bytes by assumption.
  rewrite Z.shiftl_mul_pow2 by lia. unfold is_byte in *. lia.
Qed.

(** Whatever fits in an IP datagram, and twice as much, is short enough for
    the sum not to wrap. *)
Lemma short_body_fits ty cd id sq body :
  Z.of_nat (length body) <= 131000 ->
  unbounded_sum (make_header ty cd id sq) body < 4294967296.
Proof.
  intros Hlen. unfold unbounded_sum.
  pose proof (header_sum_bound _ (make_header_wf ty cd id sq)) as Hh.
  pose proof (sum_words_bound_aux (length (map to_byte body)) (map to_byte body)
                (Nat.le_refl _) (map_to_byte_ok body)) as Hb.
  rewrite length_map in Hb. lia.
Qed.

(** C1, counterexample: an echo request with identifier 1, sequence number 1
    and that body leaves with a checksum that the RFC 1071 check rejects. *)
Lemma checksum_round_trip_counterexample :
  rfc1071_check (wire (compute_checksum (make_header 8 0 1 1) long_body)
                      long_body) <> 0.
Proof.
  assert (HU : unbounded_sum (make_header 8 0 1 1) long_body = 4294969345).
  { unfold unbounded_sum, long_body.
    replace (Z.to_nat 131074) with (Z.to_nat 65537 + Z.to_nat 65537)%nat by lia.
    rewrite sum_words_all_ones, Z2Nat.id by lia. reflexivity. }
  rewrite rfc1071_check_wire by apply make_header_wf.
  rewrite checksum_value_wrapped, HU. vm_compute. discriminate.
Qed.

(** ** The handlers of the pinger, path by path *)

Ltac run_proc :=
  unfold pinger.handle_receive, pinger.handle_timeout, pinger.start_send,
    pinger.start_receive, pinger.accept_reply, pinger.handle_termination,
    pinger.pre_increment_sequence_number_, pinger.post_increment_num_replies_,
    pinger.bind, pinger.ret, pinger.get, pinger.modify, pinger.emit, pinger.when;
  cbn [pinger.sequence_number_ pinger.time_sent_ pinger.reply_buffer_
       pinger.num_replies_ pinger.time_init_ pinger.num_transmitted_
       pinger.num_received_ pinger.ttl_min_ pinger.ttl_max_ pinger.ttl_sum_
       pinger.ttl_sum2_ pinger.set_sequence_number_ pinger.set_time_sent_
       pinger.set_reply_buffer_ pinger.set_num_replies_
       pinger.set_num_transmitted_ pinger.set_num_received_
       pinger.set_ttl_min_ pinger.set_ttl_max_ pinger.set_ttl_sum_
       pinger.set_ttl_sum2_ app fst snd].

Lemma compute_checksum_rep ty cd id sq body :
  icmp_header.rep_ (compute_checksum (make_header ty cd id sq) body)
  = [to_byte ty; to_byte cd;
     hi (checksum_value (make_header ty cd id sq) body);
     lo (checksum_value (make_header ty cd id sq) body);
     hi id; lo id; hi sq; lo sq].
Proof.
  unfold compute_checksum.
  generalize (checksum_value (make_header ty cd id sq) body) as cv.
  intros cv. reflexivity.
Qed.

Section session.

Context {F : Type} {LD : LongDouble F}.
Variable pid : Z.

Implicit Types p : pinger.t F.

Lemma handle_receive_error ec received tmp now p :
  ec_is_set ec = true ->
  pinger.handle_receive pid ec received tmp now p
  = (tt, pinger.set_reply_buffer_ [] p, [cerr_message ec; socket_async_receive]).
Proof.
  intros Hec. destruct p. run_proc. rewrite Hec. run_proc. reflexivity.
Qed.

Lemma handle_receive_timed_out received tmp now p :
  pinger.timed_out tmp (pinger.time_sent_ p) = true ->
  pinger.handle_receive pid success received tmp now p
  = (tt, pinger.set_reply_buffer_ (pinger.reply_buffer_ p ++ received) p, []).
Proof.
  intros Hto. destruct p. run_proc. cbn [ec_is_set]. run_proc.
  cbn [pinger.time_sent_] in Hto. rewrite Hto. run_proc. reflexivity.
Qed.

Lemma handle_receive_unwanted received tmp now p stream ipv4_hdr icmp_hdr :
  pinger.timed_out tmp (pinger.time_sent_ p) = false ->
  pinger.decode_reply (pinger.reply_buffer_ p ++ received)
    = (stream, ipv4_hdr, icmp_hdr) ->
  pinger.wanted pid stream icmp_hdr (pinger.sequence_number_ p) = false ->
  pinger.handle_receive pid success received tmp now p
  = (tt, pinger.set_reply_buffer_ [] p, [socket_async_receive]).
Proof.
  intros Hto Hd Hw. destruct p. run_proc. cbn [ec_is_set]. run_proc.
  cbn [pinger.time_sent_ pinger.reply_buffer_ pinger.sequence_number_] in *.
  rewrite Hto. run_proc. rewrite Hd. run_proc. rewrite Hw. run_proc.
  reflexivity.
Qed.

Lemma handle_receive_wanted received tmp now p stream ipv4_hdr icmp_hdr :
  pinger.timed_out tmp (pinger.time_sent_ p) = false ->
  pinger.decode_reply (pinger.reply_buffer_ p ++ received)
    = (stream, ipv4_hdr, icmp_hdr) ->
  pinger.wanted pid stream icmp_hdr (pinger.sequence_number_ p) = true ->
  pinger.handle_receive pid success received tmp now p
  = (tt, pinger.accepted_state now p,
     (if pinger.num_replies_ p =? 0 then [timer_cancel] else [])
     ++ [cout_report (pinger.report_of received now p ipv4_hdr icmp_hdr);
         socket_async_receive]).
Proof.
  intros Hto Hd Hw. destruct p. run_proc. cbn [ec_is_set]. run_proc.
  cbn [pinger.time_sent_ pinger.reply_buffer_ pinger.sequence_number_] in *.
  rewrite Hto. run_proc. rewrite Hd. run_proc. rewrite Hw. run_proc.
  unfold pinger.accepted_state, pinger.report_of.
  cbn [pinger.time_sent_ pinger.num_replies_
    pinger.sequence_number_ pinger.time_init_ pinger.num_transmitted_
    pinger.num_received_ pinger.ttl_min_ pinger.ttl_max_ pinger.ttl_sum_
    pinger.ttl_sum2_].
  destruct (num_replies_ =? 0); reflexivity.
Qed.

Lemma start_send_result now p :
  pinger.start_send pid now p
  = (tt, pinger.sent_state now p,
     [socket_send_to
        (pinger.request_of pid (to_ushort (pinger.sequence_number_ p + 1)));
      timer_expires_at (now + seconds 5);
      timer_async_wait on_handle_timeout]).
Proof.
  destruct p. unfold pinger.sent_state, pinger.request_of, wire, make_header.
  run_proc. reflexivity.
Qed.

Lemma handle_timeout_result ec p :
  pinger.handle_timeout ec p
  = (tt, p,
     (if (pinger.num_replies_ p =? 0) && negb (ec_is_set ec)
      then [cout_timed_out] else [])
     ++ (if ec_is_set ec && negb (ec_is_canceled ec)
         then [cerr_message ec] else [])
     ++ [timer_expires_at (pinger.time_sent_ p + seconds 1);
         timer_async_wait on_start_send]).
Proof.
  destruct p. run_proc.
  destruct ((num_replies_ =? 0) && negb (ec_is_set ec));
    destruct (ec_is_set ec && negb (ec_is_canceled ec)); reflexivity.
Qed.

Lemma sent_sequence_number_request seq :
  pinger.sent_sequence_number (pinger.request_of pid seq) = to_ushort seq.
Proof.
  unfold pinger.sent_sequence_number, pinger.request_of.
  unfold wire, icmp_header.write, ostream_write.
  rewrite compute_checksum_rep.
  generalize (checksum_value
                (make_header icmp_header.echo_request 0
                   (pinger.get_identifier pid) seq) pinger.body) as cv.
  intros cv. cbn [take map app].
  unfold icmp_header.sequence_number, icmp_header.decode.
  cbn [icmp_header.rep_ lookup_total list_lookup_total].
  rewrite !to_byte_small by (apply hi_byte || apply lo_byte).
  apply ushort_bytes.
Qed.

(** ** Datagrams that are dropped *)

(** The age test works on whole milliseconds: a datagram is held to be too
    old from 5001 ms on. *)
Lemma timed_out_iff tmp sent :
  pinger.timed_out tmp sent = true <-> seconds 5 + 1000 <= tmp - sent.
Proof.
  unfold pinger.timed_out, total_milliseconds, seconds.
  rewrite Z.ltb_lt. Z.to_euclidean_division_equations. lia.
Qed.

(** What [handle_receive] drops.  A datagram that arrives with a transport
    error, or fails to decode, or is no echo reply, or carries another
    identifier or another sequence number than the current one, or whose
    age in whole milliseconds exceeds 5000, is dropped: [handle_receive]
    prints no report, cancels no timer and leaves the received count, the
    minimum, the maximum, the sum and the sum of squares as they were. *)
Lemma rejected_datagram_is_dropped p ec received tmp now stream ipv4_hdr icmp_hdr :
  pinger.decode_reply (pinger.reply_buffer_ p ++ received)
    = (stream, ipv4_hdr, icmp_hdr) ->
  ec_is_set ec = true
  \/ is_fail stream = true
  \/ icmp_header.type icmp_hdr <> icmp_header.echo_reply
  \/ icmp_header.identifier icmp_hdr <> pinger.get_identifier pid
  \/ icmp_header.sequence_number icmp_hdr <> pinger.sequence_number_ p
  \/ 5000 < total_milliseconds (tmp - pinger.time_sent_ p) ->
  let m := pinger.handle_receive pid ec received tmp now in
  count is_report (pinger.effects_of m p) = 0%nat
  /\ count is_cancel (pinger.effects_of m p) = 0%nat
  /\ pinger.statistics (pinger.state_after m p) = pinger.statistics p
  /\ pinger.num_replies_ (pinger.state_after m p) = pinger.num_replies_ p.
Proof.
  intros Hd Hrej m. unfold m, pinger.effects_of, pinger.state_after.
  destruct (ec_is_set ec) eqn:Hec.
  { rewrite handle_receive_error by assumption.
    destruct p; repeat split; reflexivity. }
  destruct ec; try discriminate.
  destruct Hrej as [Hrej|Hrej]; [discriminate|].
  destruct (pinger.timed_out tmp (pinger.time_sent_ p)) eqn:Hto.
  - rewrite handle_receive_timed_out by assumption.
    destruct p; repeat split; reflexivity.
  - assert (Hw : pinger.wanted pid stream icmp_hdr (pinger.sequence_number_ p) = false).
    { unfold pinger.wanted.
      destruct Hrej as [Hf|[Ht|[Hi|[Hs|Ha]]]].
      - rewrite Hf. reflexivity.
      - apply Z.eqb_neq in Ht. rewrite Ht. now rewrite andb_false_r.
      - apply Z.eqb_neq in Hi. rewrite Hi. now rewrite andb_false_r.
      - apply Z.eqb_neq in Hs. rewrite Hs. now rewrite andb_false_r.
      - unfold pinger.timed_out in Hto. apply Z.ltb_ge in Hto. lia. }
    rewrite (handle_receive_unwanted _ _ _ _ _ _ _ Hto Hd Hw).
    destruct p; repeat split; reflexivity.
Qed.

(** C4, on the code.  The age test compares whole milliseconds with 5000,
    so a datagram that is more than five seconds and less than 5.001 s old
    passes it.  When it is an echo reply for the identifier of the process
    and the current sequence number, [handle_receive] does not drop it: it
    prints its report, counts it, takes its round-trip time into the
    statistics, and cancels the timer if it is the first reply of the
    cycle. *)
Theorem late_reply_is_accepted p received tmp now stream ipv4_hdr icmp_hdr :
  pinger.decode_reply (pinger.reply_buffer_ p ++ received)
    = (stream, ipv4_hdr, icmp_hdr) ->
  is_fail stream = false ->
  icmp_header.type icmp_hdr = icmp_header.echo_reply ->
  icmp_header.identifier icmp_hdr = pinger.get_identifier pid ->
  icmp_header.sequence_number icmp_hdr = pinger.sequence_number_ p ->
  seconds 5 < tmp - pinger.time_sent_ p < seconds 5 + 1000 ->
  let m := pinger.handle_receive pid success received tmp now in
  count is_report (pinger.effects_of m p) = 1%nat
  /\ count is_cancel (pinger.effects_of m p)
     = (if pinger.num_replies_ p =? 0 then 1%nat else 0%nat)
  /\ pinger.state_after m p = pinger.accepted_state now p
  /\ pinger.num_received_ (pinger.state_after m p)
     = to_size (pinger.num_received_ p + 1)
  /\ pinger.num_replies_ (pinger.state_after m p)
     = to_size (pinger.num_replies_ p + 1).
Proof.
  intros Hd Hf Ht Hi Hs Hage m.
  assert (Hto : pinger.timed_out tmp (pinger.time_sent_ p) = false).
  { destruct (pinger.timed_out tmp (pinger.time_sent_ p)) eqn:Hto;
      [|reflexivity].
    apply timed_out_iff in Hto. lia. }
  assert (Hw : pinger.wanted pid stream icmp_hdr (pinger.sequence_number_ p) = true).
  { unfold pinger.wanted. rewrite Hf, Ht, Hi, Hs, !Z.eqb_refl. reflexivity. }
  unfold m, pinger.effects_of, pinger.state_after.
  rewrite (handle_receive_wanted _ _ _ _ _ _ _ Hto Hd Hw). cbn [fst snd].
  destruct p. cbn [pinger.num_replies_].
  destruct (num_replies_ =? 0); repeat split; reflexivity.
Qed.

(** ** Re-arming the receive *)

(** Every way through [handle_receive] but the early [return] ends in
    [start_receive]: one receive is started and the buffer is empty. *)
Lemma receive_rearmed ec received tmp now p :
  ec_is_set ec = true \/ pinger.timed_out tmp (pinger.time_sent_ p) = false ->
  let m := pinger.handle_receive pid ec received tmp now in
  count is_async_receive (pinger.effects_of m p) = 1%nat
  /\ pinger.reply_buffer_ (pinger.state_after m p) = [].
Proof.
  intros Hc m. unfold m, pinger.effects_of, pinger.state_after.
  destruct (ec_is_set ec) eqn:Hec.
  - rewrite handle_receive_error by assumption. destruct p; split; reflexivity.
  - destruct Hc as [Hc|Hto]; [discriminate|].
    destruct ec; try discriminate.
    destruct (pinger.decode_reply (pinger.reply_buffer_ p ++ received))
      as [[stream ipv4_hdr] icmp_hdr] eqn:Hd.
    destruct (pinger.wanted pid stream icmp_hdr (pinger.sequence_number_ p)) eqn:Hw.
    + rewrite (handle_receive_wanted _ _ _ _ _ _ _ Hto Hd Hw).
      destruct p. cbn [snd fst pinger.num_replies_].
      destruct (num_replies_ =? 0); split; reflexivity.
    + rewrite (handle_receive_unwanted _ _ _ _ _ _ _ Hto Hd Hw).
      destruct p; split; reflexivity.
Qed.

(** The early [return]: nothing is started and the datagram stays in the
    buffer. *)
Lemma receive_not_rearmed received tmp now p :
  pinger.timed_out tmp (pinger.time_sent_ p) = true ->
  let m := pinger.handle_receive pid success received tmp now in
  pinger.effects_of m p = []
  /\ pinger.reply_buffer_ (pinger.state_after m p)
     = pinger.reply_buffer_ p ++ received.
Proof.
  intros Hto m. unfold m, pinger.effects_of, pinger.state_after.
  rewrite handle_receive_timed_out by assumption.
  destruct p; split; reflexivity.
Qed.

End session.

(** C3, on the code.  The program is started at time 0; the first datagram
    completes the receive when the clock reads 5.001 s, before the loop has
    run the handler of the timer.  [handle_receive] returns early: no
    receive is outstanding afterwards, the 84 bytes are still in the
    buffer, and no further datagram can be delivered. *)
Theorem stale_datagram_ends_receiving :
  exists w,
    io_service.dispatch example_pid
      (io_service.datagram success (echo_reply_datagram example_pid 1)
         5001000 5001000)
      example_world = Some w
    /\ io_service.receives (io_service.service example_world) = 1%nat
    /\ io_service.receives (io_service.service w) = 0%nat
    /\ pinger.reply_buffer_ (io_service.session w)
       = echo_reply_datagram example_pid 1
    /\ forall ec received tmp now,
         io_service.dispatch example_pid
           (io_service.datagram ec received tmp now) w = None.
Proof.
  eexists. split; [vm_compute; reflexivity|].
  repeat split; try reflexivity.
Qed.

(** C4 on a reply to the first request of the examples that is 5.0005 s
    old, more than the five seconds of the window: it is reported, it is
    counted, and it cancels the timer. *)
Lemma late_reply_is_accepted_witness :
  let p := io_service.session example_world in
  let m := pinger.handle_receive example_pid success
             (echo_reply_datagram example_pid 1) 5000500 5000500 in
  seconds 5 < 5000500 - pinger.time_sent_ p
  /\ count is_report (pinger.effects_of m p) = 1%nat
  /\ count is_cancel (pinger.effects_of m p) = 1%nat
  /\ pinger.num_received_ (pinger.state_after m p)
     = pinger.num_received_ p + 1.
Proof.
  intros p m.
  pose (d := pinger.decode_reply
               (pinger.reply_buffer_ p ++ echo_reply_datagram example_pid 1)).
  assert (Hd : pinger.decode_reply
                 (pinger.reply_buffer_ p ++ echo_reply_datagram example_pid 1)
               = (fst (fst d), snd (fst d), snd d))
    by (fold d; destruct d as [[? ?] ?]; reflexivity).
  assert (Hf : is_fail (fst (fst d)) = false) by (vm_compute; reflexivity).
  assert (Ht : icmp_header.type (snd d) = icmp_header.echo_reply)
    by (vm_compute; reflexivity).
  assert (Hi : icmp_header.identifier (snd d)
               = pinger.get_identifier example_pid)
    by (vm_compute; reflexivity).
  assert (Hs : icmp_header.sequence_number (snd d) = pinger.sequence_number_ p)
    by (vm_compute; reflexivity).
  assert (Hage : seconds 5 < 5000500 - pinger.time_sent_ p < seconds 5 + 1000)
    by (vm_compute; split; reflexivity).
  destruct (late_reply_is_accepted example_pid p
              (echo_reply_datagram example_pid 1) 5000500 5000500
              (fst (fst d)) (snd (fst d)) (snd d) Hd Hf Ht Hi Hs Hage)
    as (H1 & H2 & _ & H4 & _).
  split; [apply Hage|]. split; [exact H1|]. split; [exact H2|].
  fold m in H4. rewrite H4. reflexivity.
Defined.

(** ** One cycle: what happens between two requests *)

Section cycle.

Context {F : Type} {LD : LongDouble F}.
Variable pid : Z.

Implicit Types (p : pinger.t F) (ev : pinger.cycle_event)
  (evs : list pinger.cycle_event).

Lemma count_app (f : effect F -> bool) (es1 es2 : list (effect F)) :
  count f (es1 ++ es2) = (count f es1 + count f es2)%nat.
Proof. unfold count. now rewrite filter_app, length_app. Qed.

Lemma run_cycle_cons ev evs p :
  pinger.state_after (pinger.run_cycle pid (ev :: evs)) p
  = pinger.state_after (pinger.run_cycle pid evs)
      (pinger.state_after (pinger.handle pid ev) p)
  /\ pinger.effects_of (pinger.run_cycle pid (ev :: evs)) p
     = pinger.effects_of (pinger.handle pid ev) p
       ++ pinger.effects_of (pinger.run_cycle pid evs)
            (pinger.state_after (pinger.handle pid ev) p).
Proof.
  unfold pinger.state_after, pinger.effects_of.
  cbn [pinger.run_cycle]. unfold pinger.bind.
  destruct (pinger.handle pid ev p) as [[[] p1] es1]. cbn [fst snd].
  destruct (pinger.run_cycle pid evs p1) as [[[] p2] es2].
  split; reflexivity.
Qed.

Lemma run_cycle_app evs1 evs2 p :
  pinger.state_after (pinger.run_cycle pid (evs1 ++ evs2)) p
  = pinger.state_after (pinger.run_cycle pid evs2)
      (pinger.state_after (pinger.run_cycle pid evs1) p)
  /\ pinger.effects_of (pinger.run_cycle pid (evs1 ++ evs2)) p
     = pinger.effects_of (pinger.run_cycle pid evs1) p
       ++ pinger.effects_of (pinger.run_cycle pid evs2)
            (pinger.state_after (pinger.run_cycle pid evs1) p).
Proof.
  revert p. induction evs1 as [|ev evs1 IH]; intros p.
  - split; reflexivity.
  - change ((ev :: evs1) ++ evs2) with (ev :: (evs1 ++ evs2)).
    destruct (run_cycle_cons ev (evs1 ++ evs2) p) as [-> ->].
    destruct (run_cycle_cons ev evs1 p) as [-> ->].
    destruct (IH (pinger.state_after (pinger.handle pid ev) p)) as [-> ->].
    split; [reflexivity|]. now rewrite app_assoc.
Qed.

(** A reply that is accepted. *)
Lemma handle_accepted p ev :
  pinger.accepted_in pid p ev = true ->
  exists received tmp now ipv4_hdr icmp_hdr,
    ev = pinger.receive_completed success received tmp now
    /\ pinger.handle pid ev p
       = (tt, pinger.accepted_state now p,
          (if pinger.num_replies_ p =? 0 then [timer_cancel] else [])
          ++ [cout_report (pinger.report_of received now p ipv4_hdr icmp_hdr);
              socket_async_receive]).
Proof.
  unfold pinger.accepted_in, pinger.accepts.
  destruct ev as [ec received tmp now|ec]; [|discriminate].
  intros Ha. apply andb_true_iff in Ha. destruct Ha as [Ha Hw].
  apply andb_true_iff in Ha. destruct Ha as [Hec Hto].
  apply negb_true_iff in Hec, Hto.
  destruct ec; try discriminate.
  destruct (pinger.decode_reply (pinger.reply_buffer_ p ++ received))
    as [[stream ipv4_hdr] icmp_hdr] eqn:Hd.
  exists received, tmp, now, ipv4_hdr, icmp_hdr. split; [reflexivity|].
  cbn [pinger.handle]. now apply (handle_receive_wanted pid) with (stream := stream).
Qed.

(** Any other event of the cycle. *)
Lemma handle_not_accepted p ev :
  pinger.accepted_in pid p ev = false ->
  let es := pinger.effects_of (pinger.handle pid ev) p in
  let p' := pinger.state_after (pinger.handle pid ev) p in
  count is_cancel es = 0%nat
  /\ count is_report es = 0%nat
  /\ pinger.statistics p' = pinger.statistics p
  /\ pinger.num_replies_ p' = pinger.num_replies_ p.
Proof.
  unfold pinger.accepted_in, pinger.accepts, pinger.effects_of, pinger.state_after.
  destruct ev as [ec received tmp now|ec]; cbn [pinger.handle].
  - intros Ha.
    destruct (ec_is_set ec) eqn:Hec.
    { rewrite handle_receive_error by assumption.
      destruct p; repeat split; reflexivity. }
    destruct ec; try discriminate.
    destruct (pinger.timed_out tmp (pinger.time_sent_ p)) eqn:Hto.
    { rewrite handle_receive_timed_out by assumption.
      destruct p; repeat split; reflexivity. }
    destruct (pinger.decode_reply (pinger.reply_buffer_ p ++ received))
      as [[stream ipv4_hdr] icmp_hdr] eqn:Hd.
    cbn [negb andb ec_is_set] in Ha.
    rewrite (handle_receive_unwanted pid _ _ _ _ _ _ _ Hto Hd Ha).
    destruct p; repeat split; reflexivity.
  - intros _. rewrite handle_timeout_result.
    destruct ((pinger.num_replies_ p =? 0) && negb (ec_is_set ec));
      destruct (ec_is_set ec && negb (ec_is_canceled ec));
      repeat split; reflexivity.
Qed.

Lemma accepted_count_nonneg evs : forall p, 0 <= pinger.accepted_count pid p evs.
Proof.
  induction evs as [|ev evs IH]; intros p; cbn [pinger.accepted_count]; [lia|].
  specialize (IH (pinger.state_after (pinger.handle pid ev) p)).
  destruct (pinger.accepted_in pid p ev); lia.
Qed.

Lemma accepted_count_app evs1 evs2 p :
  pinger.accepted_count pid p (evs1 ++ evs2)
  = pinger.accepted_count pid p evs1
    + pinger.accepted_count pid
        (pinger.state_after (pinger.run_cycle pid evs1) p) evs2.
Proof.
  revert p. induction evs1 as [|ev evs1 IH]; intros p.
  - reflexivity.
  - change ((ev :: evs1) ++ evs2) with (ev :: (evs1 ++ evs2)).
    cbn [pinger.accepted_count]. rewrite IH.
    destruct (run_cycle_cons ev evs1 p) as [-> _]. lia.
Qed.

(** What a cycle adds up to, for a session that has counted [n] replies so
    far: the reply counter follows the accepted replies, each of them is
    reported, and the timer is cancelled once, by the first of them, when
    [n] is 0. *)
Lemma cycle_totals evs : forall p,
  0 <= pinger.num_replies_ p ->
  pinger.num_replies_ p + pinger.accepted_count pid p evs < 18446744073709551616 ->
  let m := pinger.run_cycle pid evs in
  pinger.num_replies_ (pinger.state_after m p)
  = pinger.num_replies_ p + pinger.accepted_count pid p evs
  /\ Z.of_nat (count is_report (pinger.effects_of m p))
     = pinger.accepted_count pid p evs
  /\ Z.of_nat (count is_cancel (pinger.effects_of m p))
     = (if (pinger.num_replies_ p =? 0) && (0 <? pinger.accepted_count pid p evs)
        then 1 else 0).
Proof.
  induction evs as [|ev evs IH]; intros p Hn Hb m; unfold m.
  - cbn. rewrite andb_false_r. repeat split; lia.
  - destruct (run_cycle_cons ev evs p) as [-> ->].
    cbn [pinger.accepted_count] in Hb |- *.
    pose proof (accepted_count_nonneg evs
                  (pinger.state_after (pinger.handle pid ev) p)) as Hc.
    rewrite !count_app, !Nat2Z.inj_add.
    destruct (pinger.accepted_in pid p ev) eqn:Ha.
    + destruct (handle_accepted p ev Ha)
        as (received & tmp & now & ipv4_hdr & icmp_hdr & -> & Hh).
      assert (Hs : pinger.state_after
                     (pinger.handle pid
                        (pinger.receive_completed success received tmp now)) p
                   = pinger.accepted_state now p)
        by (unfold pinger.state_after; rewrite Hh; reflexivity).
      assert (He : pinger.effects_of
                     (pinger.handle pid
                        (pinger.receive_completed success received tmp now)) p
                   = (if pinger.num_replies_ p =? 0 then [timer_cancel] else [])
                     ++ [cout_report
                           (pinger.report_of received now p ipv4_hdr icmp_hdr);
                         socket_async_receive])
        by (unfold pinger.effects_of; rewrite Hh; reflexivity).
      rewrite Hs in *. rewrite He.
      assert (Hr : pinger.num_replies_ (pinger.accepted_state now p)
                   = pinger.num_replies_ p + 1).
      { transitivity (to_size (pinger.num_replies_ p + 1));
          [destruct p; reflexivity|].
        unfold to_size. apply Z.mod_small. lia. }
      specialize (IH (pinger.accepted_state now p)).
      rewrite Hr in IH.
      destruct IH as (IH1 & IH2 & IH3); [lia|lia|].
      rewrite IH1, IH2, IH3.
      replace (pinger.num_replies_ p + 1 =? 0) with false
        by (symmetry; apply Z.eqb_neq; lia).
      cbn [andb].
      replace (0 <? 1 + pinger.accepted_count pid (pinger.accepted_state now p) evs)
        with true by (symmetry; apply Z.ltb_lt; lia).
      rewrite andb_true_r.
      destruct (pinger.num_replies_ p =? 0); cbn; repeat split; lia.
    + destruct (handle_not_accepted p ev Ha) as (Hc0 & Hr0 & _ & Hn0).
      rewrite Hc0, Hr0.
      specialize (IH (pinger.state_after (pinger.handle pid ev) p)).
      rewrite Hn0 in IH.
      destruct IH as (IH1 & IH2 & IH3); [lia|lia|].
      rewrite IH1, IH2, IH3. repeat split; lia.
Qed.

End cycle.

Section requests.

Context {F : Type} {LD : LongDouble F}.
Variable pid : Z.

Implicit Types (p : pinger.t F) (ev : pinger.cycle_event)
  (evs : list pinger.cycle_event).

(** No handler of the cycle touches the sequence number, the time of the
    request or the count of requests, and none sends. *)
Lemma handle_keeps_request p ev :
  let p' := pinger.state_after (pinger.handle pid ev) p in
  pinger.sequence_number_ p' = pinger.sequence_number_ p
  /\ pinger.time_sent_ p' = pinger.time_sent_ p
  /\ pinger.num_transmitted_ p' = pinger.num_transmitted_ p
  /\ pinger.sent_datagrams (pinger.effects_of (pinger.handle pid ev) p) = [].
Proof.
  destruct (pinger.accepted_in pid p ev) eqn:Ha.
  - destruct (handle_accepted pid p ev Ha)
      as (received & tmp & now & ipv4_hdr & icmp_hdr & -> & Hh).
    unfold pinger.state_after, pinger.effects_of. rewrite Hh.
    destruct p. cbn [fst snd pinger.num_replies_].
    destruct (num_replies_ =? 0); repeat split; reflexivity.
  - unfold pinger.state_after, pinger.effects_of.
    destruct ev as [ec received tmp now|ec]; cbn [pinger.handle].
    + destruct (ec_is_set ec) eqn:Hec.
      { rewrite handle_receive_error by assumption.
        destruct p; repeat split; reflexivity. }
      destruct ec; try discriminate.
      destruct (pinger.timed_out tmp (pinger.time_sent_ p)) eqn:Hto.
      { rewrite handle_receive_timed_out by assumption.
        destruct p; repeat split; reflexivity. }
      destruct (pinger.decode_reply (pinger.reply_buffer_ p ++ received))
        as [[stream ipv4_hdr] icmp_hdr] eqn:Hd.
      unfold pinger.accepted_in, pinger.accepts in Ha.
      rewrite Hto, Hd in Ha. cbn [negb andb ec_is_set] in Ha.
      rewrite (handle_receive_unwanted pid _ _ _ _ _ _ _ Hto Hd Ha).
      destruct p; repeat split; reflexivity.
    + rewrite handle_timeout_result.
      destruct ((pinger.num_replies_ p =? 0) && negb (ec_is_set ec));
        destruct (ec_is_set ec && negb (ec_is_canceled ec));
        repeat split; reflexivity.
Qed.

Lemma sent_datagrams_app (es1 es2 : list (effect F)) :
  pinger.sent_datagrams (es1 ++ es2)
  = pinger.sent_datagrams es1 ++ pinger.sent_datagrams es2.
Proof. unfold pinger.sent_datagrams. apply omap_app. Qed.

Lemma run_cycle_keeps_request evs : forall p,
  let p' := pinger.state_after (pinger.run_cycle pid evs) p in
  pinger.sequence_number_ p' = pinger.sequence_number_ p
  /\ pinger.time_sent_ p' = pinger.time_sent_ p
  /\ pinger.num_transmitted_ p' = pinger.num_transmitted_ p
  /\ pinger.sent_datagrams (pinger.effects_of (pinger.run_cycle pid evs) p) = [].
Proof.
  induction evs as [|ev evs IH]; intros p.
  - repeat split; reflexivity.
  - cbv zeta. destruct (run_cycle_cons pid ev evs p) as [-> ->].
    destruct (handle_keeps_request p ev) as (H1 & H2 & H3 & H4).
    destruct (IH (pinger.state_after (pinger.handle pid ev) p))
      as (I1 & I2 & I3 & I4).
    rewrite sent_datagrams_app, H4, I4. repeat split; congruence.
Qed.

Lemma start_send_datagram now p :
  pinger.sent_datagrams (pinger.effects_of (pinger.start_send pid now) p)
  = [pinger.request_of pid (to_ushort (pinger.sequence_number_ p + 1))].
Proof. unfold pinger.effects_of. rewrite start_send_result. reflexivity. Qed.

Lemma two_sends_effects now1 evs now2 p :
  pinger.effects_of (pinger.two_sends pid now1 evs now2) p
  = pinger.effects_of (pinger.start_send pid now1) p
    ++ pinger.effects_of (pinger.run_cycle pid evs) (pinger.sent_state now1 p)
    ++ pinger.effects_of (pinger.start_send pid now2)
         (pinger.state_after (pinger.run_cycle pid evs)
            (pinger.sent_state now1 p)).
Proof.
  unfold pinger.two_sends, pinger.effects_of, pinger.state_after, pinger.bind.
  rewrite start_send_result.
  destruct (pinger.run_cycle pid evs (pinger.sent_state now1 p))
    as [[[] p2] es2]. cbn [fst snd].
  destruct (pinger.start_send pid now2 p2) as [[[] p3] es3]. reflexivity.
Qed.

Lemma two_sends_sequence_numbers p now1 evs now2 :
  pinger.sequence_numbers_sent
    (pinger.effects_of (pinger.two_sends pid now1 evs now2) p)
  = [to_ushort (pinger.sequence_number_ p + 1);
     to_ushort (to_ushort (pinger.sequence_number_ p + 1) + 1)].
Proof.
  rewrite two_sends_effects. unfold pinger.sequence_numbers_sent.
  rewrite !sent_datagrams_app.
  destruct (run_cycle_keeps_request evs (pinger.sent_state now1 p))
    as (Hs & _ & _ & Hd).
  rewrite Hd, !start_send_datagram, Hs.
  cbn [app map pinger.sent_state pinger.sequence_number_].
  rewrite !sent_sequence_number_request.
  unfold to_ushort. rewrite !Z.mod_mod by lia. reflexivity.
Qed.

Lemma after_sends_sequence_number (n : nat) step : forall now p,
  is_ushort (pinger.sequence_number_ p) ->
  pinger.sequence_number_ (pinger.after_sends pid n now step p)
  = to_ushort (pinger.sequence_number_ p + Z.of_nat n).
Proof.
  induction n as [|n IH]; intros now p Hp.
  - cbn [pinger.after_sends]. rewrite Z.add_0_r. symmetry.
    now apply to_ushort_small.
  - cbn [pinger.after_sends]. unfold pinger.state_after.
    rewrite start_send_result. cbn [fst snd]. rewrite IH.
    + cbn [pinger.sent_state pinger.sequence_number_].
      unfold to_ushort. rewrite Zplus_mod_idemp_l. f_equal. lia.
    + cbn [pinger.sent_state pinger.sequence_number_].
      unfold is_ushort, to_ushort. apply Z.mod_pos_bound. lia.
Qed.

(** C9, as amended.  Of two consecutive requests of a session, whatever
    is received or times out between them, the later one carries the
    sequence number of the earlier one plus 1 modulo 2^16: one more when
    the earlier number is below 65535, and 0 after 65535. *)
Theorem consecutive_sequence_numbers p now1 evs now2 :
  exists s1 s2,
    pinger.sequence_numbers_sent
      (pinger.effects_of (pinger.two_sends pid now1 evs now2) p) = [s1; s2]
    /\ s1 = to_ushort (pinger.sequence_number_ p + 1)
    /\ s2 = to_ushort (s1 + 1)
    /\ (s1 < 65535 -> s2 = s1 + 1)
    /\ (s1 = 65535 -> s2 = 0).
Proof.
  exists (to_ushort (pinger.sequence_number_ p + 1)),
         (to_ushort (to_ushort (pinger.sequence_number_ p + 1) + 1)).
  split; [apply two_sends_sequence_numbers|].
  split; [reflexivity|]. split; [reflexivity|].
  assert (0 <= to_ushort (pinger.sequence_number_ p + 1) < 65536)
    by (unfold to_ushort; apply Z.mod_pos_bound; lia).
  split; intros Hs.
  - unfold to_ushort at 1. apply Z.mod_small. lia.
  - rewrite Hs. reflexivity.
Qed.

(** C5.  In a cycle that starts with no reply counted, take any events and
    then a reply that is accepted, fewer than 2^64 accepted replies in all.
    That reply cancels the timer if and only if no reply was accepted
    before it in the cycle; it is reported in one line; the received count
    goes up by one; minimum, maximum, sum and sum of squares take in its
    round-trip time.  Over the whole cycle the timer is cancelled once and
    there are as many report lines as accepted replies. *)
Theorem duplicate_replies p evs ev :
  pinger.num_replies_ p = 0 ->
  pinger.accepted_count pid p evs + 1 < 18446744073709551616 ->
  let p1 := pinger.state_after (pinger.run_cycle pid evs) p in
  pinger.accepted_in pid p1 ev = true ->
  let es := pinger.effects_of (pinger.handle pid ev) p1 in
  let p2 := pinger.state_after (pinger.handle pid ev) p1 in
  let all := pinger.effects_of (pinger.run_cycle pid (evs ++ [ev])) p in
  count is_cancel es
  = (if pinger.accepted_count pid p evs =? 0 then 1%nat else 0%nat)
  /\ count is_report es = 1%nat
  /\ pinger.num_received_ p2 = to_size (pinger.num_received_ p1 + 1)
  /\ pinger.ttl_min_ p2
     = ld_fmin (pinger.ttl_min_ p1) (pinger.rtt_of (pinger.time_sent_ p1) ev)
  /\ pinger.ttl_max_ p2
     = ld_fmax (pinger.ttl_max_ p1) (pinger.rtt_of (pinger.time_sent_ p1) ev)
  /\ pinger.ttl_sum_ p2
     = ld_add (pinger.ttl_sum_ p1) (pinger.rtt_of (pinger.time_sent_ p1) ev)
  /\ pinger.ttl_sum2_ p2
     = ld_add (pinger.ttl_sum2_ p1)
         (ld_mul (pinger.rtt_of (pinger.time_sent_ p1) ev)
                 (pinger.rtt_of (pinger.time_sent_ p1) ev))
  /\ Z.of_nat (count is_cancel all) = 1
  /\ Z.of_nat (count is_report all) = pinger.accepted_count pid p evs + 1.
Proof.
  intros Hn Hb p1 Ha es p2 all.
  pose proof (accepted_count_nonneg pid evs p) as Hc.
  destruct (cycle_totals pid evs p) as (Hr1 & _ & _); [lia|lia|].
  fold p1 in Hr1. rewrite Hn, Z.add_0_l in Hr1.
  destruct (handle_accepted pid p1 ev Ha)
    as (received & tmp & now & ipv4_hdr & icmp_hdr & Hev & Hh).
  assert (Hes : es = (if pinger.num_replies_ p1 =? 0 then [timer_cancel] else [])
                     ++ [cout_report
                           (pinger.report_of received now p1 ipv4_hdr icmp_hdr);
                         socket_async_receive])
    by (unfold es, pinger.effects_of; rewrite Hh; reflexivity).
  assert (Hp2 : p2 = pinger.accepted_state now p1)
    by (unfold p2, pinger.state_after; rewrite Hh; reflexivity).
  assert (Hcount : pinger.accepted_count pid p (evs ++ [ev])
                   = pinger.accepted_count pid p evs + 1).
  { rewrite accepted_count_app. fold p1. cbn [pinger.accepted_count].
    rewrite Ha. lia. }
  destruct (cycle_totals pid (evs ++ [ev]) p) as (_ & Hr2 & Hr3);
    [lia|rewrite Hcount; lia|].
  fold all in Hr2, Hr3. rewrite Hcount, Hn in *.
  replace (0 <? pinger.accepted_count pid p evs + 1) with true in Hr3
    by (symmetry; apply Z.ltb_lt; lia).
  cbn [Z.eqb andb] in Hr3.
  rewrite Hes, Hp2, Hr1, Hev.
  repeat split; try assumption; try reflexivity;
    destruct (pinger.accepted_count pid p evs =? 0); reflexivity.
Qed.

(** The summary divides by the received count, whatever it is. *)
Lemma summary_divides_by_received now p :
  pinger.effects_of (pinger.handle_termination now) p
  = [cout_summary
       (mk_summary (pinger.num_transmitted_ p) (pinger.num_received_ p)
          (to_size (pinger.num_transmitted_ p - pinger.num_received_ p))
          (ld_div (ld_of_Z (to_size (pinger.num_transmitted_ p
                                     - pinger.num_received_ p)))
                  (ld_of_Z (pinger.num_transmitted_ p)))
          (ld_div (ld_of_Z (total_milliseconds (now - pinger.time_init_ p)))
                  (ld_of_Z 1000))
          (pinger.ttl_min_ p)
          (ld_div (pinger.ttl_sum_ p) (ld_of_Z (pinger.num_received_ p)))
          (pinger.ttl_max_ p)
          (ld_sqrt
             (ld_sub
                (ld_div (pinger.ttl_sum2_ p) (ld_of_Z (pinger.num_received_ p)))
                (ld_mul
                   (ld_div (pinger.ttl_sum_ p) (ld_of_Z (pinger.num_received_ p)))
                   (ld_div (pinger.ttl_sum_ p) (ld_of_Z (pinger.num_received_ p)))))));
     process_exit 0].
Proof. destruct p. reflexivity. Qed.

End requests.

(** C5 on a cycle in which the reply to request 1 arrives twice: the second
    copy cancels nothing, is reported and is counted. *)
Lemma duplicate_replies_witness :
  let p := io_service.session example_world in
  let p1 := pinger.state_after
              (pinger.run_cycle example_pid duplicate_cycle) p in
  let es := pinger.effects_of (pinger.handle example_pid duplicate_reply) p1 in
  let p2 := pinger.state_after (pinger.handle example_pid duplicate_reply) p1 in
  pinger.accepted_count example_pid p duplicate_cycle = 1
  /\ count is_cancel es = 0%nat
  /\ count is_report es = 1%nat
  /\ pinger.num_received_ p2 = 2.
Proof.
  pose proof (duplicate_replies example_pid
                (io_service.session example_world)
                duplicate_cycle duplicate_reply) as H.
  destruct H as (H1 & H2 & H3 & _).
  - reflexivity.
  - vm_compute. reflexivity.
  - vm_compute. reflexivity.
  - cbv zeta. split; [vm_compute; reflexivity|].
    split; [exact H1|]. split; [exact H2|].
    rewrite H3. vm_compute. reflexivity.
Defined.

(** C9, counterexample.  After 65534 requests the next two carry 65535 and
    0: the later number is not the greater one. *)
Lemma sequence_number_wraps :
  pinger.sequence_number_ long_session = 65534
  /\ pinger.sequence_numbers_sent
       (pinger.effects_of
          (pinger.two_sends example_pid 0 [] 5000000) long_session)
     = [65535; 0]
  /\ ~ (65535 < 0).
Proof.
  assert (Hs : pinger.sequence_number_ long_session = 65534).
  { unfold long_session. rewrite after_sends_sequence_number.
    - reflexivity.
    - unfold is_ushort. cbn. lia. }
  split; [exact Hs|]. split; [|lia].
  rewrite two_sends_sequence_numbers, Hs. reflexivity.
Qed.

(** C6, on the code.  Five requests were sent and nothing was received
    when the signal arrives: the summary is printed with an average and a
    deviation that are NaN, the quotient of 0 by 0, and the process exits
    with status 0. *)
Theorem termination_without_replies :
  pinger.num_transmitted_ unanswered_session = 5
  /\ pinger.num_received_ unanswered_session = 0
  /\ exists s,
       pinger.effects_of (pinger.handle_termination 25000000)
         unanswered_session = [cout_summary s; process_exit 0]
       /\ s_avg s = ld_div (ld_of_Z 0) (ld_of_Z 0)
       /\ ld_is_nan (s_avg s) = true
       /\ ld_is_nan (s_mdev s) = true.
Proof.
  split; [reflexivity|]. split; [reflexivity|].
  eexists. split; [vm_compute; reflexivity|].
  repeat split; vm_compute; reflexivity.
Qed.

(** ** The timeout and the next request *)

Section loop.

Context {F : Type} {LD : LongDouble F}.
Variable pid : Z.

Implicit Types (w : io_service.world F) (p : pinger.t F).

Lemma set_reply_buffer_same p :
  pinger.reply_buffer_ p = [] -> pinger.set_reply_buffer_ [] p = p.
Proof. destruct p. cbn. now intros ->. Qed.

Lemma not_timed_out_within tmp sent :
  tmp <= sent + seconds 5 -> pinger.timed_out tmp sent = false.
Proof.
  intros H. destruct (pinger.timed_out tmp sent) eqn:Hto; [|reflexivity].
  apply timed_out_iff in Hto. lia.
Qed.

Lemma unanswered_step t w1 w ev w' :
  pinger.reply_buffer_ (io_service.session w1) = [] ->
  pinger.time_sent_ (io_service.session w1) = t ->
  io_service.waiting t w1 w ->
  io_service.unanswered pid (pinger.sequence_number_ (io_service.session w1)) t ev ->
  io_service.dispatch pid ev w = Some w' ->
  io_service.waiting t w1 w'.
Proof.
  intros Hbuf Hsent [Hs He Hw Ha Hx Hc (l & Hl & Hl1 & Hl2)] Hu Hd.
  destruct ev as [now|now|ec received tmp now|now]; try contradiction.
  destruct Hu as [Hnow Hacc].
  unfold io_service.dispatch in Hd. rewrite Hx in Hd.
  destruct (io_service.receives (io_service.service w)) as [|n] eqn:Hn;
    [discriminate|].
  destruct ((io_service.clock (io_service.service w) <=? tmp) && (tmp <=? now))
    eqn:Hcond; [|discriminate].
  apply andb_true_iff in Hcond. destruct Hcond as [Hc1 Hc2].
  apply Z.leb_le in Hc1, Hc2.
  injection Hd as <-.
  unfold io_service.perform. cbn [io_service.session io_service.service].
  set (p := io_service.session w) in *.
  assert (Hp : pinger.handle_receive pid ec received tmp now p
               = (tt, p, (if ec_is_set ec then [cerr_message ec] else [])
                         ++ [socket_async_receive])).
  { destruct (ec_is_set ec) eqn:Hec.
    - rewrite handle_receive_error by assumption.
      rewrite set_reply_buffer_same by (rewrite Hs; exact Hbuf). reflexivity.
    - destruct ec; try discriminate.
      assert (Hto : pinger.timed_out tmp (pinger.time_sent_ p) = false).
      { rewrite Hs, Hsent. apply not_timed_out_within. lia. }
      destruct (pinger.decode_reply (pinger.reply_buffer_ p ++ received))
        as [[stream ipv4_hdr] icmp_hdr] eqn:Hdec.
      unfold pinger.accepts in Hacc.
      rewrite Hs, Hsent in Hto. rewrite Hto in Hacc.
      rewrite Hs, Hbuf in Hdec. rewrite Hdec in Hacc.
      cbn [ec_is_set negb andb] in Hacc.
      rewrite (handle_receive_unwanted pid received tmp now p stream ipv4_hdr icmp_hdr).
      + rewrite set_reply_buffer_same by (rewrite Hs; exact Hbuf). reflexivity.
      + rewrite Hs, Hsent. exact Hto.
      + rewrite Hs, Hbuf. exact Hdec.
      + rewrite Hs. exact Hacc. }
  rewrite Hp.
  destruct (io_service.service w) as [ck ex ws ab rc xt lg] eqn:Hio.
  cbn [io_service.clock io_service.timer_expiry io_service.timer_waits
       io_service.aborted io_service.receives io_service.exited io_service.log] in *.
  subst.
  destruct (ec_is_set ec); cbn -[seconds]; split; cbn -[seconds];
    try assumption; try reflexivity; try lia.
  - exists (l ++ [cerr_message ec; socket_async_receive]).
    split; [now rewrite <- !app_assoc|].
    rewrite !count_app, Hl1, Hl2. split; reflexivity.
  - exists (l ++ [socket_async_receive]).
    split; [now rewrite <- !app_assoc|].
    rewrite !count_app, Hl1, Hl2. split; reflexivity.
Qed.

Lemma unanswered_run t w1 evs : forall w w2,
  pinger.reply_buffer_ (io_service.session w1) = [] ->
  pinger.time_sent_ (io_service.session w1) = t ->
  io_service.waiting t w1 w ->
  Forall (io_service.unanswered pid
            (pinger.sequence_number_ (io_service.session w1)) t) evs ->
  io_service.deliver pid evs w = Some w2 ->
  io_service.waiting t w1 w2.
Proof.
  induction evs as [|ev evs IH]; intros w w2 Hbuf Hsent Hw Hall Hd.
  - injection Hd as <-. exact Hw.
  - apply List.Forall_cons_iff in Hall. destruct Hall as [Hev Hall].
    cbn [io_service.deliver] in Hd.
    destruct (io_service.dispatch pid ev w) as [w'|] eqn:Hdis; [|discriminate].
    apply (IH w' w2); try assumption.
    now apply (unanswered_step t w1 w ev w').
Qed.

Lemma waiting_after_send t w0 :
  io_service.exited (io_service.service w0) = None ->
  io_service.timer_waits (io_service.service w0) = [] ->
  io_service.aborted (io_service.service w0) = [] ->
  let w1 := io_service.perform t (pinger.start_send pid t) w0 in
  io_service.waiting t w1 w1
  /\ io_service.session w1 = pinger.sent_state t (io_service.session w0).
Proof.
  intros Hx Hw Ha w1. unfold w1, io_service.perform.
  rewrite start_send_result.
  destruct w0 as [p [ck ex ws ab rc xt lg]]. cbn in Hx, Hw, Ha. subst.
  cbn -[seconds pinger.request_of]. split; [|reflexivity].
  split; cbn -[seconds pinger.request_of]; try reflexivity; try lia.
  - unfold seconds. lia.
  - exists []. rewrite app_nil_r. repeat split; reflexivity.
Qed.

(** The wait for the timeout completes, no reply having been counted. *)
Lemma timeout_fires p ck rc lg t :
  pinger.num_replies_ p = 0 -> pinger.time_sent_ p = t ->
  t <= ck <= t + seconds 5 ->
  io_service.next_timer pid
    (io_service.mk_world p
       (io_service.mk ck (t + seconds 5) [on_handle_timeout] [] rc None lg))
  = Some (io_service.mk_world p
            (io_service.mk (t + seconds 5) (t + seconds 1) [on_start_send] []
               rc None
               (lg ++ [cout_timed_out; timer_expires_at (t + seconds 1);
                       timer_async_wait on_start_send]))).
Proof.
  intros Hn Ht Hc.
  unfold io_service.next_timer, io_service.dispatch.
  cbn [io_service.service io_service.exited io_service.timer_waits
       io_service.timer_expiry io_service.clock].
  rewrite Z.max_r by lia.
  replace ((t + seconds 5 <=? t + seconds 5) && (ck <=? t + seconds 5))
    with true
    by (symmetry; apply andb_true_iff; split; apply Z.leb_le; lia).
  unfold io_service.perform.
  cbn [io_service.session io_service.service io_service.run_wait_handler].
  rewrite handle_timeout_result, Hn, Ht.
  cbn [Z.eqb ec_is_set negb andb app ec_is_canceled].
  cbn -[seconds]. rewrite <- !app_assoc. reflexivity.
Qed.

(** The wait that [handle_timeout] started completes at once: its expiry
    time, one second after the request, lies four seconds back. *)
Lemma send_fires p rc lg t :
  io_service.next_timer pid
    (io_service.mk_world p
       (io_service.mk (t + seconds 5) (t + seconds 1) [on_start_send] []
          rc None lg))
  = Some (io_service.mk_world (pinger.sent_state (t + seconds 5) p)
            (io_service.mk (t + seconds 5) (t + seconds 5 + seconds 5)
               [on_handle_timeout] [] rc None
               (lg ++ [socket_send_to
                         (pinger.request_of pid
                            (to_ushort (pinger.sequence_number_ p + 1)));
                       timer_expires_at (t + seconds 5 + seconds 5);
                       timer_async_wait on_handle_timeout]))).
Proof.
  unfold io_service.next_timer, io_service.dispatch.
  cbn [io_service.service io_service.exited io_service.timer_waits
       io_service.timer_expiry io_service.clock].
  rewrite Z.max_l by (unfold seconds; lia).
  replace ((t + seconds 1 <=? t + seconds 5) && (t + seconds 5 <=? t + seconds 5))
    with true
    by (symmetry; apply andb_true_iff; split; apply Z.leb_le; unfold seconds; lia).
  unfold io_service.perform.
  cbn [io_service.session io_service.service io_service.run_wait_handler].
  rewrite start_send_result.
  cbn -[seconds pinger.request_of pinger.sent_state].
  rewrite <- !app_assoc. reflexivity.
Qed.

Lemma drop_log (l1 l2 : list (effect F)) : drop (length l1) (l1 ++ l2) = l2.
Proof. now rewrite drop_app_length. Qed.

(** C2, as amended.  A request with sequence number s leaves at time t
    and every receive that completes by t + 5 s is an error or a datagram
    that is not accepted.  Then the wait for the timeout completes at
    t + 5 s and "Request timed out" is printed once; the wait that
    [handle_timeout] starts expires at t + 1 s, which has passed, so it
    completes at once and the next request leaves at t + 5 s, not at
    t + 6 s; it carries s + 1 modulo 2^16. *)
Theorem timeout_then_next_send t w0 evs w2 :
  io_service.exited (io_service.service w0) = None ->
  io_service.timer_waits (io_service.service w0) = [] ->
  io_service.aborted (io_service.service w0) = [] ->
  pinger.reply_buffer_ (io_service.session w0) = [] ->
  let w1 := io_service.perform t (pinger.start_send pid t) w0 in
  let s := pinger.sequence_number_ (io_service.session w1) in
  Forall (io_service.unanswered pid s t) evs ->
  io_service.deliver pid evs w1 = Some w2 ->
  exists w3 w4,
    io_service.next_timer pid w2 = Some w3
    /\ io_service.next_timer pid w3 = Some w4
    /\ io_service.clock (io_service.service w3) = t + seconds 5
    /\ count is_timed_out (io_service.since w1 w3) = 1%nat
    /\ count is_send (io_service.since w1 w3) = 0%nat
    /\ io_service.clock (io_service.service w4) = t + seconds 5
    /\ io_service.since w3 w4
       = [socket_send_to (pinger.request_of pid (to_ushort (s + 1)));
          timer_expires_at (t + seconds 5 + seconds 5);
          timer_async_wait on_handle_timeout]
    /\ pinger.time_sent_ (io_service.session w4) = t + seconds 5
    /\ pinger.sequence_number_ (io_service.session w4) = to_ushort (s + 1).
Proof.
  intros Hx Hw Ha Hbuf w1 s Hall Hd.
  destruct (waiting_after_send t w0 Hx Hw Ha) as [Hw1 Hs1]. fold w1 in Hw1, Hs1.
  assert (Hb1 : pinger.reply_buffer_ (io_service.session w1) = [])
    by (rewrite Hs1; destruct (io_service.session w0); exact Hbuf).
  assert (Ht1 : pinger.time_sent_ (io_service.session w1) = t)
    by (rewrite Hs1; reflexivity).
  assert (Hn1 : pinger.num_replies_ (io_service.session w1) = 0)
    by (rewrite Hs1; reflexivity).
  pose proof (unanswered_run t w1 evs w1 w2 Hb1 Ht1 Hw1 Hall Hd)
    as [Hs2 He2 Hw2 Ha2 Hx2 Hc2 (l & Hl & Hl1 & Hl2)].
  destruct w2 as [p2 [ck ex ws ab rc xt lg]].
  cbn [io_service.session io_service.service io_service.clock
       io_service.timer_expiry io_service.timer_waits io_service.aborted
       io_service.receives io_service.exited io_service.log] in *.
  subst p2 ex ws ab xt lg.
  eexists. eexists.
  split; [apply timeout_fires; assumption|].
  split; [apply send_fires|].
  unfold io_service.since.
  cbn [io_service.session io_service.service io_service.clock io_service.log].
  rewrite <- !app_assoc, !drop_log.
  fold s.
  repeat split.
  - rewrite !count_app, Hl1. reflexivity.
  - rewrite !count_app, Hl2. reflexivity.
  - rewrite !app_assoc, drop_log. reflexivity.
Qed.

End loop.

(** C2 on the second cycle of the examples: the request leaves at 5 s, a
    stray reply and a transport error come in, the timeout is reported at
    10 s and request 3 leaves at 10 s. *)
Lemma timeout_then_next_send_witness :
  let w1 := io_service.perform 5000000
              (pinger.start_send example_pid 5000000) before_second_request in
  exists w2 w3 w4,
    io_service.deliver example_pid unanswered_events w1 = Some w2
    /\ io_service.next_timer example_pid w2 = Some w3
    /\ io_service.next_timer example_pid w3 = Some w4
    /\ count is_timed_out (io_service.since w1 w3) = 1%nat
    /\ io_service.clock (io_service.service w4) = 10000000
    /\ pinger.sequence_number_ (io_service.session w4) = 3.
Proof.
  intros w1.
  destruct (io_service.deliver example_pid unanswered_events w1) as [w2|] eqn:Hd;
    [|vm_compute in Hd; discriminate].
  destruct (timeout_then_next_send example_pid 5000000 before_second_request
              unanswered_events w2)
    as (w3 & w4 & H1 & H2 & _ & H4 & _ & H6 & _ & _ & H9);
    try reflexivity; try exact Hd.
  - repeat apply List.Forall_cons; try apply List.Forall_nil;
      (split; [vm_compute; discriminate|vm_compute; reflexivity]).
  - exists w2, w3, w4. repeat split; assumption.
Defined.

(** C2, counterexample.  The program starts at time 0, sends request 1 and
    receives nothing.  The timeout is reported at 5 s and the second
    request leaves at 5 s as well, not at 6 s. *)
Lemma next_send_not_at_six_seconds :
  exists w3 w4,
    io_service.next_timer example_pid example_world = Some w3
    /\ io_service.next_timer example_pid w3 = Some w4
    /\ count is_timed_out (io_service.log (io_service.service w3)) = 1%nat
    /\ count is_send (io_service.log (io_service.service w3)) = 1%nat
    /\ count is_send (io_service.log (io_service.service w4)) = 2%nat
    /\ io_service.clock (io_service.service w4) = seconds 5
    /\ pinger.time_sent_ (io_service.session w4) = seconds 5
    /\ io_service.clock (io_service.service w4) <> seconds 6.
Proof.
  eexists. eexists.
  split; [vm_compute; reflexivity|].
  split; [vm_compute; reflexivity|].
  repeat split; try reflexivity. vm_compute. discriminate.
Qed.

(** ** The first variant *)

(** In the first variant [start_receive] is called inside the filter: a
    datagram that is not accepted, here a reply to request 9 while request
    1 is outstanding, leaves no receive started. *)
Lemma v1_rejected_datagram_ends_receiving :
  snd (pinger_v1.handle_receive (F := float) example_pid
         (echo_reply_datagram example_pid 9) 100000 v1_session) = []
  /\ count is_async_receive
       (snd (pinger_v1.handle_receive (F := float) example_pid
               (echo_reply_datagram example_pid 1) 100000 v1_session)) = 1%nat.
Proof. vm_compute. split; reflexivity. Qed.

(** * Further properties of the code *)

(** ** The ICMP header: fields and stream operators *)

Lemma to_ushort_range n : is_ushort (to_ushort n).
Proof. unfold is_ushort, to_ushort. apply Z.mod_pos_bound. lia. Qed.

Lemma to_ushort_idem n : to_ushort (to_ushort n) = to_ushort n.
Proof. apply to_ushort_small, to_ushort_range. Qed.

Lemma wf_bytes a b c d e f g i :
  is_byte a -> is_byte b -> is_byte c -> is_byte d ->
  is_byte e -> is_byte f -> is_byte g -> is_byte i ->
  icmp_header.wf (icmp_header.mk [a; b; c; d; e; f; g; i]).
Proof.
  intros. split; [reflexivity|]. cbn [icmp_header.rep_].
  repeat (apply List.Forall_cons; [assumption|]). apply List.Forall_nil.
Qed.

(** X1.  On a header of eight bytes each setter changes the field it names
    and no other: it stores its argument reduced to the width of the field
    (modulo 256 for the type and the code, modulo 2^16 for the checksum, the
    identifier and the sequence number), the four other getters read what
    they read before, and the header still holds eight bytes. *)
Theorem icmp_fields_set h n :
  icmp_header.wf h ->
  icmp_fields (icmp_header.set_type n h)
  = (to_byte n, icmp_header.code h, icmp_header.checksum h,
     icmp_header.identifier h, icmp_header.sequence_number h)
  /\ icmp_fields (icmp_header.set_code n h)
     = (icmp_header.type h, to_byte n, icmp_header.checksum h,
        icmp_header.identifier h, icmp_header.sequence_number h)
  /\ icmp_fields (icmp_header.set_checksum n h)
     = (icmp_header.type h, icmp_header.code h, to_ushort n,
        icmp_header.identifier h, icmp_header.sequence_number h)
  /\ icmp_fields (icmp_header.set_identifier n h)
     = (icmp_header.type h, icmp_header.code h, icmp_header.checksum h,
        to_ushort n, icmp_header.sequence_number h)
  /\ icmp_fields (icmp_header.set_sequence_number n h)
     = (icmp_header.type h, icmp_header.code h, icmp_header.checksum h,
        icmp_header.identifier h, to_ushort n)
  /\ icmp_header.wf (icmp_header.set_type n h)
  /\ icmp_header.wf (icmp_header.set_code n h)
  /\ icmp_header.wf (icmp_header.set_checksum n h)
  /\ icmp_header.wf (icmp_header.set_identifier n h)
  /\ icmp_header.wf (icmp_header.set_sequence_number n h).
Proof.
  intros Hwf.
  destruct (wf_inv h Hwf)
    as (a & b & c & d & e & f & g & i & -> & Ha & Hb & Hc & Hd & He & Hf & Hg & Hi).
  pose proof (to_byte_range n) as Hn. fold (is_byte (to_byte n)) in Hn.
  pose proof (hi_byte n) as Hh. pose proof (lo_byte n) as Hl.
  unfold icmp_fields, icmp_header.type, icmp_header.code, icmp_header.checksum,
    icmp_header.identifier, icmp_header.sequence_number, icmp_header.decode,
    icmp_header.set_type, icmp_header.set_code, icmp_header.set_checksum,
    icmp_header.set_identifier, icmp_header.set_sequence_number,
    icmp_header.encode.
  cbn [icmp_header.rep_ lookup_total list_lookup_total insert list_insert].
  fold (hi n) (lo n). rewrite !ushort_bytes.
  repeat split; apply wf_bytes; assumption.
Qed.

(** [list_inserts] over a whole array. *)
Lemma list_inserts_all (k l : list Z) :
  length k = length l -> list_inserts 0 k l = k.
Proof.
  intros Hlen. apply list_eq. intros j.
  destruct (decide (j < length k)%nat) as [Hj|Hj].
  - rewrite list_lookup_inserts by lia. f_equal. lia.
  - rewrite !lookup_ge_None_2; [reflexivity|lia|rewrite length_inserts; lia].
Qed.

Lemma icmp_read_good buf h :
  length (icmp_header.rep_ h) = 8%nat -> (8 <= length buf)%nat ->
  icmp_header.read (mk_istream buf false) h
  = (mk_istream (drop 8 buf) false, icmp_header.mk (take 8 buf)).
Proof.
  intros Hlen Hb. destruct h as [r]. cbn [icmp_header.rep_] in Hlen.
  unfold icmp_header.read, istream_read. cbn [is_fail is_buf icmp_header.rep_].
  rewrite list_inserts_all by (rewrite length_take; lia).
  replace (length buf <? 8)%nat with false
    by (symmetry; apply Nat.ltb_ge; lia).
  reflexivity.
Qed.

(** X2.  [operator>>] on an ICMP header.  On a stream that has failed it
    reads nothing and leaves the header alone.  On a good stream with eight
    bytes or more it takes exactly the first eight as the header, whatever
    they are, and the stream stays good.  On a good stream with fewer than
    eight bytes the stream fails and is left empty. *)
Theorem icmp_read_cases s h :
  length (icmp_header.rep_ h) = 8%nat ->
  (is_fail s = true -> icmp_header.read s h = (s, h))
  /\ (is_fail s = false -> (8 <= length (is_buf s))%nat ->
      icmp_header.read s h
      = (mk_istream (drop 8 (is_buf s)) false,
         icmp_header.mk (take 8 (is_buf s))))
  /\ (is_fail s = false -> (length (is_buf s) < 8)%nat ->
      is_fail (fst (icmp_header.read s h)) = true
      /\ is_buf (fst (icmp_header.read s h)) = []).
Proof.
  intros Hlen. destruct s as [buf fl]. cbn [is_fail is_buf].
  split; [|split].
  - intros ->. destruct h. reflexivity.
  - intros -> Hb. now apply icmp_read_good.
  - intros -> Hb. unfold icmp_header.read, istream_read.
    cbn [is_fail is_buf fst]. split.
    + apply Nat.ltb_lt. exact Hb.
    + apply drop_ge. lia.
Qed.

Lemma wf_write h :
  icmp_header.wf h -> icmp_header.write [] h = icmp_header.rep_ h.
Proof.
  intros Hwf.
  destruct (wf_inv h Hwf)
    as (a & b & c & d & e & f & g & i & -> & Ha & Hb & Hc & Hd & He & Hf & Hg & Hi).
  unfold icmp_header.write, ostream_write.
  cbn [icmp_header.rep_ take map app].
  rewrite !to_byte_small by assumption. reflexivity.
Qed.

(** X3.  [operator<<] appends the eight bytes of the header to the output,
    whatever the output holds already, and reading those bytes back, with
    anything behind them, gives the same header and leaves what was behind
    them in a good stream. *)
Theorem icmp_write_read h h0 os rest :
  icmp_header.wf h -> length (icmp_header.rep_ h0) = 8%nat ->
  icmp_header.write os h = os ++ icmp_header.rep_ h
  /\ length (icmp_header.write os h) = (length os + 8)%nat
  /\ icmp_header.read (mk_istream (icmp_header.write [] h ++ rest) false) h0
     = (mk_istream rest false, h).
Proof.
  intros Hwf Hlen0. pose proof (wf_write h Hwf) as Hw.
  assert (Hos : icmp_header.write os h = os ++ icmp_header.rep_ h).
  { unfold icmp_header.write, ostream_write in *. cbn [app] in Hw. now rewrite Hw. }
  destruct Hwf as [Hlen Hb].
  split; [exact Hos|]. split; [rewrite Hos, length_app; lia|].
  rewrite icmp_read_good by (try assumption; rewrite length_app, Hw; lia).
  rewrite Hw. rewrite drop_app_length', take_app_length' by (symmetry; assumption).
  destruct h; reflexivity.
Qed.

(** X1 on the header of the first request of the examples: 70000 is stored
    as 4464 in the checksum field. *)
Lemma icmp_fields_set_witness :
  icmp_header.wf (make_header 8 0 1234 1)
  /\ icmp_fields (icmp_header.set_checksum 70000 (make_header 8 0 1234 1))
     = (8, 0, 4464, 1234, 1).
Proof.
  split; [apply make_header_wf|].
  destruct (icmp_fields_set (make_header 8 0 1234 1) 70000
              (make_header_wf 8 0 1234 1)) as (_ & _ & H & _).
  exact H.
Defined.

(** X2 on a stream of three bytes. *)
Lemma icmp_read_cases_witness :
  length (icmp_header.rep_ icmp_header.new) = 8%nat
  /\ is_fail (fst (icmp_header.read (mk_istream [1; 2; 3] false)
                     icmp_header.new)) = true
  /\ is_buf (fst (icmp_header.read (mk_istream [1; 2; 3] false)
                    icmp_header.new)) = [].
Proof.
  split; [reflexivity|].
  destruct (icmp_read_cases (mk_istream [1; 2; 3] false) icmp_header.new
              eq_refl) as (_ & _ & H).
  apply H; [reflexivity|cbn; lia].
Defined.

(** X3 on the header of the first request of the examples. *)
Lemma icmp_write_read_witness :
  let h := make_header 8 0 1234 1 in
  icmp_header.write [9] h = [9] ++ icmp_header.rep_ h
  /\ icmp_header.read (mk_istream (icmp_header.write [] h ++ [7]) false)
       icmp_header.new
     = (mk_istream [7] false, h).
Proof.
  destruct (icmp_write_read (make_header 8 0 1234 1) icmp_header.new [9] [7]
              (make_header_wf 8 0 1234 1) eq_refl) as (H1 & _ & H3).
  cbv zeta. split; [exact H1|exact H3].
Defined.

(** ** The IPv4 header *)

Lemma land_15_range x : 0 <= Z.land x 15 <= 15.
Proof.
  change 15 with (Z.ones 4) at 1 2. rewrite Z.land_ones by lia.
  pose proof (Z.mod_pos_bound x (2 ^ 4)). lia.
Qed.

(** X4.  Whatever the sixty bytes of an IPv4 header hold, the getters stay
    in range: the version is at most 15, the header length is a multiple of
    four that is at most 60, so that never more than 40 bytes of options are
    asked for, the fragment offset is at most 8191, and the total length and
    the time to live fit in 16 bits.  The version and the header length
    together determine the first byte. *)
Theorem ipv4_field_ranges h :
  0 <= ipv4_header.version h <= 15
  /\ 0 <= ipv4_header.header_length h <= 60
  /\ ipv4_header.header_length h mod 4 = 0
  /\ ipv4_header.header_length h - 20 <= 40
  /\ 0 <= ipv4_header.fragment_offset h <= 8191
  /\ is_ushort (ipv4_header.total_length h)
  /\ is_ushort (ipv4_header.time_to_live h)
  /\ (is_byte (ipv4_header.rep_ h !!! 0%nat) ->
      ipv4_header.rep_ h !!! 0%nat
      = 16 * ipv4_header.version h + ipv4_header.header_length h / 4).
Proof.
  unfold ipv4_header.version, ipv4_header.header_length,
    ipv4_header.fragment_offset, ipv4_header.total_length,
    ipv4_header.time_to_live, ipv4_header.decode.
  set (b := ipv4_header.rep_ h !!! 0%nat).
  pose proof (land_15_range b) as H1.
  pose proof (land_15_range (Z.shiftr b 4)) as H2.
  assert (Hv : to_byte (Z.land (Z.shiftr b 4) 15) = Z.land (Z.shiftr b 4) 15)
    by (unfold to_byte; apply Z.mod_small; lia).
  assert (Hl : to_ushort (Z.land b 15 * 4) = Z.land b 15 * 4)
    by (unfold to_ushort; apply Z.mod_small; lia).
  rewrite Hv, Hl.
  assert (Hf : forall x, 0 <= to_ushort (Z.land x 8191) <= 8191).
  { intros x. change (Z.land x 8191) with (Z.land x (Z.ones 13)).
    rewrite Z.land_ones by lia.
    pose proof (Z.mod_pos_bound x (2 ^ 13)).
    unfold to_ushort. rewrite Z.mod_small; lia. }
  repeat split; try lia; try apply Hf; try apply Z.mod_pos_bound; try lia.
  - apply Z.mod_mul. lia.
  - intros [Hb0 Hb1]. rewrite Z.div_mul by lia.
    change 15 with (Z.ones 4). rewrite !Z.land_ones, Z.shiftr_div_pow2 by lia.
    change (2 ^ 4) with 16. Z.div_mod_to_equations. lia.
Qed.

Lemma ipv4_read_success buf h :
  is_fail (fst (ipv4_header.read (mk_istream buf false) h)) = false ->
  let h1 := ipv4_header.mk (list_inserts 0 (take 20 buf) (ipv4_header.rep_ h)) in
  let ol := ipv4_header.header_length h1 - 20 in
  ipv4_header.version h1 = 4 /\ 0 <= ol <= 40
  /\ (20 + Z.to_nat ol <= length buf)%nat
  /\ ipv4_header.read (mk_istream buf false) h
     = (mk_istream (drop (20 + Z.to_nat ol) buf) false,
        ipv4_header.mk (list_inserts 20 (take (Z.to_nat ol) (drop 20 buf))
                          (ipv4_header.rep_ h1))).
Proof.
  rewrite read_good. cbv zeta.
  set (h1 := ipv4_header.mk (list_inserts 0 (take 20 buf) (ipv4_header.rep_ h))).
  pose proof (header_length_range h1) as Hr.
  destruct ((ipv4_header.header_length h1 - 20 <? 0)
            || (40 <? ipv4_header.header_length h1 - 20)) eqn:Ho;
    [cbn; discriminate|].
  apply orb_false_iff in Ho. destruct Ho as [Ho1 Ho2].
  apply Z.ltb_ge in Ho1, Ho2.
  destruct ((length buf <? 20)%nat || negb (ipv4_header.version h1 =? 4)) eqn:Hs;
    [cbn; discriminate|].
  apply orb_false_iff in Hs. destruct Hs as [Hs1 Hs2].
  apply Nat.ltb_ge in Hs1. apply negb_false_iff, Z.eqb_eq in Hs2.
  cbn [fst is_fail]. intros Hf. apply Nat.ltb_ge in Hf.
  rewrite length_drop in Hf.
  repeat split; try assumption; try lia.
  rewrite drop_drop.
  replace (length (drop 20 buf) <? Z.to_nat (ipv4_header.header_length h1 - 20))%nat
    with false by (symmetry; apply Nat.ltb_ge; rewrite length_drop; lia).
  reflexivity.
Qed.

(** X5.  [operator>>] on an IPv4 header leaves the stream good exactly when
    the stream was good before, the header it has read says version 4, its
    header length is at least 20, and the stream held at least that many
    bytes. *)
Theorem ipv4_read_succeeds_iff s h :
  let s' := fst (ipv4_header.read s h) in
  let h' := snd (ipv4_header.read s h) in
  is_fail s' = false
  <-> is_fail s = false
      /\ ipv4_header.version h' = 4
      /\ 20 <= ipv4_header.header_length h' <= Z.of_nat (length (is_buf s)).
Proof.
  destruct s as [buf [|]]; cbv zeta.
  - rewrite read_failed. cbn [fst snd is_fail]. split; [discriminate|].
    intros [H _]. discriminate.
  - cbn [is_fail is_buf]. split.
    + intros Hf. destruct (ipv4_read_success buf h Hf) as (Hv & Ho & Hl & ->).
      cbn [snd]. rewrite version_inserts, header_length_inserts.
      cbn [ipv4_header.rep_].
      repeat split; try assumption; lia.
    + intros (_ & Hv & Hl1 & Hl2). rewrite read_good in Hv, Hl1, Hl2 |- *.
      cbv zeta in *.
      set (h1 := ipv4_header.mk (list_inserts 0 (take 20 buf) (ipv4_header.rep_ h))) in *.
      pose proof (header_length_range h1) as Hr.
      destruct ((ipv4_header.header_length h1 - 20 <? 0)
                || (40 <? ipv4_header.header_length h1 - 20)) eqn:Ho.
      { cbn [snd] in Hl1. apply orb_true_iff in Ho.
        destruct Ho as [Ho|Ho]; apply Z.ltb_lt in Ho; lia. }
      destruct ((length buf <? 20)%nat || negb (ipv4_header.version h1 =? 4)) eqn:Hs.
      { cbn [snd] in Hv, Hl1, Hl2. apply orb_true_iff in Hs.
        destruct Hs as [Hs|Hs].
        - apply Nat.ltb_lt in Hs. lia.
        - apply negb_true_iff, Z.eqb_neq in Hs. contradiction. }
      cbn [snd fst is_fail] in *.
      rewrite header_length_inserts in Hl1, Hl2.
      change (ipv4_header.mk (ipv4_header.rep_ h1)) with h1 in *.
      apply Nat.ltb_ge. rewrite length_drop. lia.
Qed.

(** The bytes of a header that was decoded without failure. *)
Lemma ipv4_read_lookup buf h :
  length (ipv4_header.rep_ h) = 60%nat ->
  is_fail (fst (ipv4_header.read (mk_istream buf false) h)) = false ->
  let h' := snd (ipv4_header.read (mk_istream buf false) h) in
  exists n : nat,
    ipv4_header.header_length h' = Z.of_nat n /\ (20 <= n <= 60)%nat
    /\ (n <= length buf)%nat
    /\ fst (ipv4_header.read (mk_istream buf false) h)
       = mk_istream (drop n buf) false
    /\ length (ipv4_header.rep_ h') = 60%nat
    /\ (forall i : nat, (i < n)%nat -> ipv4_header.rep_ h' !! i = buf !! i)
    /\ (forall i : nat, (n <= i)%nat ->
          ipv4_header.rep_ h' !! i = ipv4_header.rep_ h !! i).
Proof.
  intros Hlen Hf h'. unfold h'.
  destruct (ipv4_read_success buf h Hf) as (Hv & Ho & Hl & Hread).
  rewrite Hread. cbn [fst snd].
  set (r1 := list_inserts 0 (take 20 buf) (ipv4_header.rep_ h)) in *.
  set (ol := Z.to_nat (ipv4_header.header_length (ipv4_header.mk r1) - 20)) in *.
  exists (20 + ol)%nat.
  rewrite header_length_inserts.
  change (ipv4_header.mk (ipv4_header.rep_ (ipv4_header.mk r1)))
    with (ipv4_header.mk r1).
  cbn [ipv4_header.rep_].
  split; [unfold ol; lia|]. split; [unfold ol; lia|]. split; [exact Hl|].
  split; [reflexivity|].
  split; [unfold r1; rewrite !length_inserts; exact Hlen|].
  split.
  - intros i Hi. destruct (decide (i < 20)%nat) as [Hi20|Hi20].
    + rewrite list_lookup_inserts_lt by lia. unfold r1.
      rewrite list_lookup_inserts by (rewrite ?length_take; lia).
      rewrite lookup_take_lt by lia. f_equal. lia.
    + rewrite list_lookup_inserts
        by (rewrite ?length_take, ?length_drop; unfold r1;
            rewrite ?length_inserts; lia).
      rewrite lookup_take_lt by lia. rewrite lookup_drop. f_equal. lia.
  - intros i Hi.
    rewrite list_lookup_inserts_ge by (rewrite length_take, length_drop; lia).
    unfold r1. rewrite list_lookup_inserts_ge by (rewrite length_take; lia).
    reflexivity.
Qed.

(** X6.  When [operator>>] into an IPv4 header of sixty bytes succeeds on a
    fresh stream over [buf], the bytes of the header below the header
    length are those of [buf] in the same order, the bytes from the header
    length on are not touched; so the total length is read from bytes 2
    and 3 of the datagram, the time to live is byte 8, the protocol byte 9,
    the source address bytes 12 to 15 and the destination address bytes 16
    to 19. *)
Theorem ipv4_read_bytes buf h :
  length (ipv4_header.rep_ h) = 60%nat ->
  let s' := fst (ipv4_header.read (mk_istream buf false) h) in
  let h' := snd (ipv4_header.read (mk_istream buf false) h) in
  is_fail s' = false ->
  length (ipv4_header.rep_ h') = 60%nat
  /\ (forall i : nat, Z.of_nat i < ipv4_header.header_length h' ->
        ipv4_header.rep_ h' !! i = buf !! i)
  /\ (forall i : nat, ipv4_header.header_length h' <= Z.of_nat i ->
        ipv4_header.rep_ h' !! i = ipv4_header.rep_ h !! i)
  /\ ipv4_header.total_length h'
     = to_ushort (Z.shiftl (buf !!! 2%nat) 8 + buf !!! 3%nat)
  /\ ipv4_header.time_to_live h' = to_ushort (buf !!! 8%nat)
  /\ ipv4_header.protocol h' = buf !!! 9%nat
  /\ ipv4_header.source_address h'
     = [buf !!! 12%nat; buf !!! 13%nat; buf !!! 14%nat; buf !!! 15%nat]
  /\ ipv4_header.destination_address h'
     = [buf !!! 16%nat; buf !!! 17%nat; buf !!! 18%nat; buf !!! 19%nat].
Proof.
  intros Hlen s' h' Hf.
  destruct (ipv4_read_lookup buf h Hlen Hf)
    as (n & Hn & Hr & Hb & _ & Hl & Hlow & Hhigh).
  fold h' in Hn, Hl, Hlow, Hhigh. rewrite Hn.
  assert (Htot : forall i : nat, (i < n)%nat ->
            ipv4_header.rep_ h' !!! i = buf !!! i).
  { intros i Hi. rewrite !list_lookup_total_alt, Hlow by lia. reflexivity. }
  split; [exact Hl|].
  split; [intros i Hi; apply Hlow; lia|].
  split; [intros i Hi; apply Hhigh; lia|].
  unfold ipv4_header.time_to_live, ipv4_header.source_address,
    ipv4_header.destination_address, ipv4_header.protocol,
    ipv4_header.total_length, ipv4_header.decode.
  rewrite !Htot by lia. repeat split; reflexivity.
Qed.

Lemma land_bit_of_byte b k :
  is_byte b -> (k = 5 \/ k = 6) ->
  Z.land b (2 ^ k) = 2 ^ k * ((b / 2 ^ k) mod 2).
Proof.
  intros Hb Hk.
  assert (H : forallb (fun b => (Z.land b 32 =? 32 * ((b / 32) mod 2))
                                && (Z.land b 64 =? 64 * ((b / 64) mod 2)))
                (map Z.of_nat (seq 0 256)) = true) by (vm_compute; reflexivity).
  rewrite forallb_forall in H.
  assert (Hin : In b (map Z.of_nat (seq 0 256))).
  { apply in_map_iff. exists (Z.to_nat b). unfold is_byte in Hb.
    split; [lia|]. apply in_seq. lia. }
  apply H, andb_true_iff in Hin. destruct Hin as [H5 H6].
  destruct Hk as [-> | ->]; [apply Z.eqb_eq, H5|apply Z.eqb_eq, H6].
Qed.

(** X23.  The getters of bytes 6 and 7 of an IPv4 header read disjoint
    bits: the 16-bit word the two bytes form is 2^15 times its top bit,
    plus 2^14 if [dont_fragment], plus 2^13 if [more_fragments], plus the
    [fragment_offset]. *)
Theorem ipv4_fragment_word h :
  is_byte (ipv4_header.rep_ h !!! 6%nat) ->
  is_byte (ipv4_header.rep_ h !!! 7%nat) ->
  256 * (ipv4_header.rep_ h !!! 6%nat) + ipv4_header.rep_ h !!! 7%nat
  = 32768 * (ipv4_header.rep_ h !!! 6%nat / 128)
    + (if ipv4_header.dont_fragment h then 16384 else 0)
    + (if ipv4_header.more_fragments h then 8192 else 0)
    + ipv4_header.fragment_offset h.
Proof.
  intros H6 H7.
  unfold ipv4_header.dont_fragment, ipv4_header.more_fragments,
    ipv4_header.fragment_offset, ipv4_header.decode.
  set (b6 := ipv4_header.rep_ h !!! 6%nat) in *.
  set (b7 := ipv4_header.rep_ h !!! 7%nat) in *.
  change 64 with (2 ^ 6). change 32 with (2 ^ 5).
  rewrite !land_bit_of_byte by (try assumption; lia).
  change 8191 with (Z.ones 13). rewrite Z.land_ones by lia.
  rewrite Z.shiftl_mul_pow2 by lia.
  unfold to_ushort, is_byte in *.
  change (2 ^ 6) with 64. change (2 ^ 5) with 32. change (2 ^ 8) with 256.
  change (2 ^ 13) with 8192.
  destruct (64 * ((b6 / 64) mod 2) =? 0) eqn:E1;
    destruct (32 * ((b6 / 32) mod 2) =? 0) eqn:E2; cbn [negb];
    [apply Z.eqb_eq in E1|apply Z.eqb_eq in E1|apply Z.eqb_neq in E1|apply Z.eqb_neq in E1];
    [apply Z.eqb_eq in E2|apply Z.eqb_neq in E2|apply Z.eqb_eq in E2|apply Z.eqb_neq in E2];
    Z.div_mod_to_equations; lia.
Qed.

(** X6 on the 24-byte header of the examples. *)
Lemma ipv4_read_bytes_witness :
  let h' := snd (ipv4_header.read (mk_istream ipv4_input false)
                   ipv4_header.new) in
  is_fail (fst (ipv4_header.read (mk_istream ipv4_input false)
                  ipv4_header.new)) = false
  /\ ipv4_header.time_to_live h' = 64
  /\ ipv4_header.source_address h' = [10; 0; 0; 1].
Proof.
  assert (Hgood : is_fail (fst (ipv4_header.read (mk_istream ipv4_input false)
                                  ipv4_header.new)) = false)
    by (vm_compute; reflexivity).
  destruct (ipv4_read_bytes ipv4_input ipv4_header.new eq_refl Hgood)
    as (_ & _ & _ & _ & Ht & _ & Hs & _).
  cbv zeta. split; [exact Hgood|].
  split; [rewrite Ht; reflexivity|rewrite Hs; reflexivity].
Defined.

(** X23 on a header whose bytes 6 and 7 are 0x60 and 0x05: both flags are
    set and the offset is 5. *)
Lemma ipv4_fragment_word_witness :
  ipv4_header.dont_fragment fragmented_header = true
  /\ ipv4_header.more_fragments fragmented_header = true
  /\ 256 * 96 + 5
     = 32768 * (96 / 128) + 16384 + 8192
       + ipv4_header.fragment_offset fragmented_header.
Proof.
  split; [reflexivity|]. split; [reflexivity|].
  apply (ipv4_fragment_word fragmented_header); unfold is_byte; cbn; lia.
Defined.

(** ** The checksum and the layout of the body *)

(** The checksum depends on the body through the sum of its words only. *)
Lemma checksum_value_by_sum h body1 body2 :
  sum_words (words_of (map to_byte body1))
  = sum_words (words_of (map to_byte body2)) ->
  checksum_value h body1 = checksum_value h body2.
Proof.
  intros Hs. rewrite !checksum_value_wrapped. unfold unbounded_sum.
  now rewrite Hs.
Qed.

Lemma sum_words_app ws1 ws2 :
  sum_words (ws1 ++ ws2) = sum_words ws1 + sum_words ws2.
Proof.
  unfold sum_words. induction ws1 as [|w ws1 IH]; simpl; lia.
Qed.

Lemma sum_words_permutation ws1 ws2 :
  Permutation ws1 ws2 -> sum_words ws1 = sum_words ws2.
Proof.
  unfold sum_words. induction 1; simpl; lia.
Qed.

Lemma words_of_padded_aux (n : nat) : forall bytes,
  (length bytes <= n)%nat -> Nat.odd (length bytes) = true ->
  sum_words (words_of (bytes ++ [0])) = sum_words (words_of bytes).
Proof.
  induction n as [|n IH]; intros [|b1 [|b2 rest]] Hlen Hodd;
    cbn [length] in *; try discriminate; try lia.
  - unfold sum_words. simpl. lia.
  - specialize (IH rest ltac:(lia)).
    rewrite Nat.odd_succ_succ in Hodd. specialize (IH Hodd).
    unfold sum_words in *. simpl. simpl in IH. lia.
Qed.

(** X7.  A body of odd length has the checksum of the same body with one
    zero byte appended: the last byte counts as the high byte of a 16-bit
    word. *)
Theorem checksum_odd_body_padded h body :
  Nat.odd (length body) = true ->
  checksum_value h (body ++ [0]) = checksum_value h body
  /\ compute_checksum h (body ++ [0]) = compute_checksum h body.
Proof.
  intros Hodd.
  assert (H : checksum_value h (body ++ [0]) = checksum_value h body).
  { apply checksum_value_by_sum. rewrite map_app. cbn [map].
    change (to_byte 0) with 0.
    apply (words_of_padded_aux (length (map to_byte body))); [lia|].
    now rewrite length_map. }
  split; [exact H|]. unfold compute_checksum. now rewrite H.
Qed.

(** X8.  The checksum depends on the body only through its 16-bit words
    and not on their order: two bodies whose words are a permutation of one
    another give the same checksum. *)
Theorem checksum_word_order h body1 body2 :
  Permutation (words_of (map to_byte body1)) (words_of (map to_byte body2)) ->
  checksum_value h body1 = checksum_value h body2.
Proof.
  intros Hp. apply checksum_value_by_sum. now apply sum_words_permutation.
Qed.

(** X7 on the 13 bytes of the body of the first variant. *)
Lemma checksum_odd_body_padded_witness :
  let h := make_header 8 0 1234 1 in
  Nat.odd (length pinger_v1.body) = true
  /\ checksum_value h (pinger_v1.body ++ [0])
     = checksum_value h pinger_v1.body.
Proof.
  cbv zeta. split; [reflexivity|].
  destruct (checksum_odd_body_padded (make_header 8 0 1234 1) pinger_v1.body
              eq_refl) as [H _].
  exact H.
Defined.

(** X8 on a body of two words and the same words swapped. *)
Lemma checksum_word_order_witness :
  let h := make_header 8 0 1234 1 in
  checksum_value h [1; 2; 3; 4] = checksum_value h [3; 4; 1; 2].
Proof.
  apply (checksum_word_order (make_header 8 0 1234 1) [1; 2; 3; 4] [3; 4; 1; 2]).
  change (Permutation [258; 772] [772; 258]). apply perm_swap.
Defined.

(** ** Datagrams as [handle_receive] decodes them *)

Lemma ipv4_read_first_byte b buf h :
  (1 <= length (ipv4_header.rep_ h))%nat ->
  let h' := snd (ipv4_header.read (mk_istream (b :: buf) false) h) in
  ipv4_header.rep_ h' !!! 0%nat = b.
Proof.
  intros Hlen. cbv zeta. rewrite read_good. cbv zeta.
  set (h1 := ipv4_header.mk
               (list_inserts 0 (take 20 (b :: buf)) (ipv4_header.rep_ h))).
  assert (H1 : ipv4_header.rep_ h1 !!! 0%nat = b).
  { unfold h1. cbn [ipv4_header.rep_].
    rewrite list_lookup_total_alt, list_lookup_inserts
      by (cbn [take length]; lia).
    reflexivity. }
  destruct ((ipv4_header.header_length h1 - 20 <? 0)
            || (40 <? ipv4_header.header_length h1 - 20)); [exact H1|].
  destruct ((length (b :: buf) <? 20)%nat
            || negb (ipv4_header.version h1 =? 4)); [exact H1|].
  cbn [snd ipv4_header.rep_]. rewrite first_byte_inserts. exact H1.
Qed.

Lemma ipv4_first_byte_fields h (n : nat) :
  (20 <= n <= 60)%nat -> Z.of_nat n mod 4 = 0 ->
  ipv4_header.rep_ h !!! 0%nat = 64 + Z.of_nat n / 4 ->
  ipv4_header.version h = 4 /\ ipv4_header.header_length h = Z.of_nat n.
Proof.
  intros Hn Hm Hb. unfold ipv4_header.version, ipv4_header.header_length.
  rewrite Hb. change 15 with (Z.ones 4).
  rewrite !Z.land_ones, Z.shiftr_div_pow2 by lia. change (2 ^ 4) with 16.
  unfold to_byte, to_ushort. split; Z.div_mod_to_equations; lia.
Qed.

Lemma ipv4_read_datagram ip rest :
  ipv4_bytes_ok ip ->
  exists ipv4_hdr,
    ipv4_header.read (mk_istream (ip ++ rest) false) ipv4_header.new
    = (mk_istream rest false, ipv4_hdr)
    /\ ipv4_header.header_length ipv4_hdr = Z.of_nat (length ip)
    /\ ipv4_header.version ipv4_hdr = 4
    /\ forall i : nat, (i < length ip)%nat ->
         ipv4_header.rep_ ipv4_hdr !!! i = ip !!! i.
Proof.
  intros (Hn & Hm & Hb).
  destruct ip as [|b ip']; [cbn in Hn; lia|].
  set (buf := (b :: ip') ++ rest) in *.
  pose proof (ipv4_read_first_byte b (ip' ++ rest) ipv4_header.new
                ltac:(cbn; lia)) as H0.
  cbv zeta in H0. change (b :: ip' ++ rest) with buf in H0.
  cbn [lookup_total list_lookup_total] in Hb.
  destruct (ipv4_first_byte_fields
              (snd (ipv4_header.read (mk_istream buf false) ipv4_header.new))
              (length (b :: ip')) Hn Hm) as [Hv Hl]; [now rewrite H0|].
  assert (Hf : is_fail (fst (ipv4_header.read (mk_istream buf false)
                               ipv4_header.new)) = false).
  { revert Hv Hl. rewrite read_good. cbv zeta.
    set (h1 := ipv4_header.mk (list_inserts 0 (take 20 buf)
                                 (ipv4_header.rep_ ipv4_header.new))).
    assert (Hlb : (length (b :: ip') <= length buf)%nat)
      by (unfold buf; rewrite length_app; lia).
    destruct ((ipv4_header.header_length h1 - 20 <? 0)
              || (40 <? ipv4_header.header_length h1 - 20)) eqn:Ho.
    { cbn [snd]. intros _ Hl. apply orb_true_iff in Ho.
      destruct Ho as [Ho|Ho]; apply Z.ltb_lt in Ho; lia. }
    destruct ((length buf <? 20)%nat || negb (ipv4_header.version h1 =? 4)) eqn:Hs.
    { cbn [snd]. intros Hv Hl. apply orb_true_iff in Hs.
      destruct Hs as [Hs|Hs].
      - apply Nat.ltb_lt in Hs. lia.
      - apply negb_true_iff, Z.eqb_neq in Hs. contradiction. }
    cbn [snd fst is_fail]. rewrite header_length_inserts.
    change (ipv4_header.mk (ipv4_header.rep_ h1)) with h1.
    intros _ Hl. apply Nat.ltb_ge. rewrite length_drop. lia. }
  destruct (ipv4_read_lookup buf ipv4_header.new eq_refl Hf)
    as (n & Hn' & _ & _ & Hfst & _ & Hlow & _).
  cbv zeta in Hn', Hlow. rewrite Hl in Hn'.
  apply Nat2Z.inj in Hn'. subst n.
  exists (snd (ipv4_header.read (mk_istream buf false) ipv4_header.new)).
  split; [|split; [exact Hl|split; [exact Hv|]]].
  - rewrite (surjective_pairing (ipv4_header.read _ _)). rewrite Hfst.
    unfold buf. now rewrite drop_app_length.
  - intros i Hi. rewrite !list_lookup_total_alt, Hlow by lia.
    unfold buf. now rewrite lookup_app_l by lia.
Qed.

Lemma decode_reply_datagram ip icmp payload :
  ipv4_bytes_ok ip -> length icmp = 8%nat ->
  exists ipv4_hdr,
    pinger.decode_reply (ip ++ icmp ++ payload)
    = (mk_istream payload false, ipv4_hdr, icmp_header.mk icmp)
    /\ ipv4_header.header_length ipv4_hdr = Z.of_nat (length ip)
    /\ forall i : nat, (i < length ip)%nat ->
         ipv4_header.rep_ ipv4_hdr !!! i = ip !!! i.
Proof.
  intros Hip Hicmp.
  destruct (ipv4_read_datagram ip (icmp ++ payload) Hip)
    as (ipv4_hdr & Hread & Hl & _ & Hlow).
  exists ipv4_hdr. split; [|split; assumption].
  unfold pinger.decode_reply. rewrite Hread.
  rewrite icmp_read_good by (try reflexivity; rewrite length_app; lia).
  rewrite drop_app_length', take_app_length' by (symmetry; assumption).
  reflexivity.
Qed.

Section filter.

Context {F : Type} {LD : LongDouble F}.
Variable pid : Z.

Implicit Types p : pinger.t F.

(** The filter on a datagram made of a well-formed IPv4 header, eight bytes
    of ICMP header and a payload. *)
Lemma accepts_datagram seq sent ip icmp payload tmp now :
  ipv4_bytes_ok ip -> length icmp = 8%nat ->
  pinger.accepts pid seq sent []
    (pinger.receive_completed success (ip ++ icmp ++ payload) tmp now)
  = negb (pinger.timed_out tmp sent)
    && ((icmp_header.type (icmp_header.mk icmp) =? icmp_header.echo_reply)
        && (icmp_header.identifier (icmp_header.mk icmp) =? pinger.get_identifier pid)
        && (icmp_header.sequence_number (icmp_header.mk icmp) =? seq)).
Proof.
  intros Hip Hicmp.
  destruct (decode_reply_datagram ip icmp payload Hip Hicmp)
    as (ipv4_hdr & Hd & _).
  unfold pinger.accepts. cbn [app ec_is_set negb andb]. rewrite Hd.
  unfold pinger.wanted. cbn [is_fail negb andb]. reflexivity.
Qed.

Lemma set_reply_buffer_twice b b' p :
  pinger.set_reply_buffer_ b (pinger.set_reply_buffer_ b' p)
  = pinger.set_reply_buffer_ b p.
Proof. destruct p. reflexivity. Qed.

Lemma set_reply_buffer_accepted now p :
  pinger.set_reply_buffer_ [] (pinger.accepted_state now p)
  = pinger.accepted_state now p.
Proof. destruct p. reflexivity. Qed.

(** What [handle_receive] makes of a datagram made of a well-formed IPv4
    header, eight bytes of ICMP header and a payload, received without
    error into an empty buffer and read in time. *)
Lemma handle_receive_datagram p ip icmp payload tmp now :
  ipv4_bytes_ok ip -> length icmp = 8%nat ->
  pinger.reply_buffer_ p = [] ->
  pinger.timed_out tmp (pinger.time_sent_ p) = false ->
  pinger.handle_receive pid success (ip ++ icmp ++ payload) tmp now p
  = if (icmp_header.type (icmp_header.mk icmp) =? icmp_header.echo_reply)
       && (icmp_header.identifier (icmp_header.mk icmp)
           =? pinger.get_identifier pid)
       && (icmp_header.sequence_number (icmp_header.mk icmp)
           =? pinger.sequence_number_ p)
    then
      (tt, pinger.accepted_state now p,
       (if pinger.num_replies_ p =? 0 then [timer_cancel] else [])
       ++ [cout_report
             (mk_report
                (to_size (Z.of_nat (length ip + (8 + length payload))
                          - Z.of_nat (length ip)))
                [ip !!! 12%nat; ip !!! 13%nat; ip !!! 14%nat; ip !!! 15%nat]
                (icmp_header.sequence_number (icmp_header.mk icmp))
                (to_ushort (ip !!! 8%nat))
                (rtt_fixed3
                   (ld_div (ld_of_Z (now - pinger.time_sent_ p))
                           (ld_of_Z 1000))));
           socket_async_receive])
    else (tt, pinger.set_reply_buffer_ [] p, [socket_async_receive]).
Proof.
  intros Hip Hlen Hbuf Hto.
  destruct (decode_reply_datagram ip icmp payload Hip Hlen)
    as (ipv4_hdr & Hd & Hhl & Hlow).
  assert (Hd' : pinger.decode_reply
                  (pinger.reply_buffer_ p ++ ip ++ icmp ++ payload)
                = (mk_istream payload false, ipv4_hdr, icmp_header.mk icmp))
    by (rewrite Hbuf; exact Hd).
  assert (Hw : pinger.wanted pid (mk_istream payload false)
                 (icmp_header.mk icmp) (pinger.sequence_number_ p)
               = (icmp_header.type (icmp_header.mk icmp)
                  =? icmp_header.echo_reply)
                 && (icmp_header.identifier (icmp_header.mk icmp)
                     =? pinger.get_identifier pid)
                 && (icmp_header.sequence_number (icmp_header.mk icmp)
                     =? pinger.sequence_number_ p)) by reflexivity.
  destruct (pinger.wanted pid (mk_istream payload false) (icmp_header.mk icmp)
              (pinger.sequence_number_ p)) eqn:Hwd; rewrite <- Hw.
  - rewrite (handle_receive_wanted pid _ tmp now p _ _ _ Hto Hd' Hwd).
    unfold pinger.report_of, ipv4_header.time_to_live,
      ipv4_header.source_address, total_microseconds.
    destruct Hip as (Hn & _).
    rewrite Hhl, !Hlow by lia. rewrite !length_app, Hlen. reflexivity.
  - apply (handle_receive_unwanted pid _ tmp now p _ _ _ Hto Hd' Hwd).
Qed.

(** X9.  [handle_receive] never looks at the checksum of what it receives,
    nor at what the payload holds: on a datagram made of a valid IPv4
    header, an ICMP header and a payload, received into an empty buffer, it
    has the same effects and leaves the same session (the buffer apart,
    which the early [return] leaves filled) whatever value is put in the
    checksum field and whatever bytes fill the payload. *)
Theorem reply_checksum_not_verified p ec ip h n payload payload' tmp now :
  ipv4_bytes_ok ip -> length (icmp_header.rep_ h) = 8%nat ->
  length payload' = length payload ->
  pinger.reply_buffer_ p = [] ->
  let m := pinger.handle_receive pid ec
             (ip ++ icmp_header.rep_ h ++ payload) tmp now in
  let m' := pinger.handle_receive pid ec
              (ip ++ icmp_header.rep_ (icmp_header.set_checksum n h)
               ++ payload') tmp now in
  pinger.effects_of m' p = pinger.effects_of m p
  /\ pinger.set_reply_buffer_ [] (pinger.state_after m' p)
     = pinger.set_reply_buffer_ [] (pinger.state_after m p).
Proof.
  intros Hip Hlen Hpay' Hbuf m m'.
  unfold m, m', pinger.effects_of, pinger.state_after.
  destruct (ec_is_set ec) eqn:Hec.
  { rewrite !handle_receive_error by assumption. split; reflexivity. }
  destruct ec; try discriminate.
  destruct (pinger.timed_out tmp (pinger.time_sent_ p)) eqn:Hto.
  { rewrite !handle_receive_timed_out by assumption. cbn [fst snd].
    rewrite !set_reply_buffer_twice. split; reflexivity. }
  assert (Hlen' : length (icmp_header.rep_ (icmp_header.set_checksum n h))
                  = 8%nat)
    by (rewrite set_checksum_rep, !length_insert; assumption).
  rewrite !handle_receive_datagram by assumption.
  destruct (fields_set_checksum n h) as (Ht & _ & Hi & Hs).
  replace (icmp_header.mk (icmp_header.rep_ (icmp_header.set_checksum n h)))
    with (icmp_header.set_checksum n h)
    by (destruct (icmp_header.set_checksum n h); reflexivity).
  replace (icmp_header.mk (icmp_header.rep_ h)) with h
    by (destruct h; reflexivity).
  rewrite Ht, Hi, Hs, Hpay'. split; reflexivity.
Qed.

Lemma compute_checksum_make_header_wf ty cd id sq body :
  icmp_header.wf (compute_checksum (make_header ty cd id sq) body).
Proof.
  split; rewrite compute_checksum_rep; [reflexivity|].
  repeat apply List.Forall_cons;
    try apply to_byte_range; try apply hi_byte; try apply lo_byte.
  apply List.Forall_nil.
Qed.

Lemma request_of_bytes seq :
  pinger.request_of pid seq
  = icmp_header.rep_
      (compute_checksum
         (make_header icmp_header.echo_request 0 (pinger.get_identifier pid) seq)
         pinger.body)
    ++ pinger.body.
Proof.
  unfold pinger.request_of, wire, ostream_write.
  rewrite wf_write by apply compute_checksum_make_header_wf.
  reflexivity.
Qed.

(** The filter lets no request of the pinger through: its type is 8. *)
Lemma request_not_accepted seq sent ip s ec tmp now :
  ipv4_bytes_ok ip ->
  pinger.accepts pid seq sent []
    (pinger.receive_completed ec (ip ++ pinger.request_of pid s) tmp now)
  = false.
Proof.
  intros Hip. destruct (ec_is_set ec) eqn:Hec.
  { unfold pinger.accepts. now rewrite Hec. }
  destruct ec; try discriminate.
  rewrite request_of_bytes.
  rewrite accepts_datagram
    by (try assumption; apply compute_checksum_make_header_wf).
  unfold icmp_header.type. cbn [icmp_header.rep_].
  rewrite compute_checksum_rep. cbn [lookup_total list_lookup_total].
  change (to_byte icmp_header.echo_request =? icmp_header.echo_reply) with false.
  cbn [andb]. apply andb_false_r.
Qed.

(** An event the filter does not let through, as [handle_receive] treats
    it. *)
Lemma not_accepted_is_dropped p ec received tmp now :
  pinger.reply_buffer_ p = [] ->
  pinger.accepts pid (pinger.sequence_number_ p) (pinger.time_sent_ p) []
    (pinger.receive_completed ec received tmp now) = false ->
  let m := pinger.handle_receive pid ec received tmp now in
  count is_report (pinger.effects_of m p) = 0%nat
  /\ count is_cancel (pinger.effects_of m p) = 0%nat
  /\ pinger.statistics (pinger.state_after m p) = pinger.statistics p
  /\ pinger.num_replies_ (pinger.state_after m p) = pinger.num_replies_ p.
Proof.
  intros Hbuf Ha m.
  destruct (handle_not_accepted pid p
              (pinger.receive_completed ec received tmp now))
    as (H1 & H2 & H3 & H4).
  { unfold pinger.accepted_in. rewrite Hbuf. exact Ha. }
  repeat split; assumption.
Qed.

(** X10.  The pinger does not take a request of its own for a reply: when
    a datagram that [start_send] hands to the socket, in any session and at
    any time, comes back behind a valid IPv4 header, [handle_receive]
    prints no report, cancels no timer and leaves the statistics and the
    count of replies as they were, whatever the current sequence number. *)
Theorem own_request_rejected p0 now0 p ip d ec tmp now :
  ipv4_bytes_ok ip ->
  pinger.reply_buffer_ p = [] ->
  In d (pinger.sent_datagrams
          (pinger.effects_of (pinger.start_send pid now0) p0)) ->
  let m := pinger.handle_receive pid ec (ip ++ d) tmp now in
  count is_report (pinger.effects_of m p) = 0%nat
  /\ count is_cancel (pinger.effects_of m p) = 0%nat
  /\ pinger.statistics (pinger.state_after m p) = pinger.statistics p
  /\ pinger.num_replies_ (pinger.state_after m p) = pinger.num_replies_ p.
Proof.
  intros Hip Hbuf Hd. rewrite start_send_datagram in Hd.
  destruct Hd as [<-|[]].
  apply not_accepted_is_dropped; [assumption|].
  now apply request_not_accepted.
Qed.

(** The filter lets no datagram of fewer than 28 bytes through. *)
Lemma short_datagram_not_accepted seq sent ec received tmp now :
  (length received < 28)%nat ->
  pinger.accepts pid seq sent []
    (pinger.receive_completed ec received tmp now) = false.
Proof.
  intros Hlen. unfold pinger.accepts. cbn [app].
  destruct (pinger.decode_reply received) as [[stream ipv4_hdr] icmp_hdr] eqn:Hd.
  assert (Hf : is_fail stream = true).
  { unfold pinger.decode_reply in Hd.
    destruct (ipv4_header.read (mk_istream received false) ipv4_header.new)
      as [s1 h1] eqn:Hr.
    destruct (icmp_header.read s1 icmp_header.new) as [s2 h2] eqn:Hr2.
    injection Hd as <- _ _.
    destruct (is_fail s1) eqn:Hf1.
    - unfold icmp_header.read, istream_read in Hr2. rewrite Hf1 in Hr2.
      injection Hr2 as <- _. exact Hf1.
    - assert (Hf : is_fail (fst (ipv4_header.read (mk_istream received false)
                                   ipv4_header.new)) = false)
        by (rewrite Hr; exact Hf1).
      destruct (ipv4_read_lookup received ipv4_header.new eq_refl Hf)
        as (n & _ & Hn & _ & Hfst & _).
      rewrite Hr in Hfst. cbn [fst] in Hfst. subst s1.
      unfold icmp_header.read, istream_read in Hr2.
      cbn [is_fail is_buf] in Hr2. injection Hr2 as <- _.
      cbn [is_fail]. apply Nat.ltb_lt. rewrite length_drop. lia. }
  unfold pinger.wanted. rewrite Hf. cbn [negb andb]. apply andb_false_r.
Qed.

(** X11.  On a datagram of fewer than 28 bytes, the least an IPv4 header
    and an ICMP header take, received into an empty buffer,
    [handle_receive] prints no report, cancels no timer and leaves the
    statistics and the count of replies as they were. *)
Theorem short_datagram_rejected p ec received tmp now :
  pinger.reply_buffer_ p = [] ->
  (length received < 28)%nat ->
  let m := pinger.handle_receive pid ec received tmp now in
  count is_report (pinger.effects_of m p) = 0%nat
  /\ count is_cancel (pinger.effects_of m p) = 0%nat
  /\ pinger.statistics (pinger.state_after m p) = pinger.statistics p
  /\ pinger.num_replies_ (pinger.state_after m p) = pinger.num_replies_ p.
Proof.
  intros Hbuf Hlen.
  apply not_accepted_is_dropped; [assumption|].
  now apply short_datagram_not_accepted.
Qed.

End filter.

Lemma example_ip_ok : ipv4_bytes_ok example_ip.
Proof. repeat split; try reflexivity; cbn; lia. Qed.

(** X9 on the reply to request 1 of the examples with its checksum set to
    0 and its payload zeroed: it is reported like the reply itself. *)
Lemma reply_checksum_not_verified_witness :
  let p := io_service.session example_world in
  pinger.effects_of
    (pinger.handle_receive example_pid success
       (example_ip
        ++ icmp_header.rep_
             (icmp_header.set_checksum 0 (example_reply_header 1))
        ++ replicate 56 0) 100000 100010) p
  = pinger.effects_of
      (pinger.handle_receive example_pid success
         (example_ip ++ icmp_header.rep_ (example_reply_header 1)
          ++ replicate 56 122) 100000 100010) p
  /\ count is_report
       (pinger.effects_of
          (pinger.handle_receive example_pid success
             (example_ip ++ icmp_header.rep_ (example_reply_header 1)
              ++ replicate 56 122) 100000 100010) p) = 1%nat.
Proof.
  intros p.
  assert (Hlen : length (icmp_header.rep_ (example_reply_header 1)) = 8%nat)
    by (vm_compute; reflexivity).
  assert (Hbuf : pinger.reply_buffer_ p = []) by (vm_compute; reflexivity).
  destruct (reply_checksum_not_verified example_pid p success example_ip
              (example_reply_header 1) 0 (replicate 56 122) (replicate 56 0)
              100000 100010 example_ip_ok Hlen eq_refl Hbuf) as [H _].
  split; [exact H|]. vm_compute. reflexivity.
Defined.

(** X10 on the first request of the examples. *)
Lemma own_request_rejected_witness :
  let p := io_service.session example_world in
  let m := pinger.handle_receive example_pid success
             (example_ip ++ pinger.request_of example_pid 1) 100000 100010 in
  count is_report (pinger.effects_of m p) = 0%nat
  /\ count is_cancel (pinger.effects_of m p) = 0%nat.
Proof.
  intros p m.
  assert (Hbuf : pinger.reply_buffer_ p = []) by (vm_compute; reflexivity).
  assert (Hin : In (pinger.request_of example_pid 1)
                  (pinger.sent_datagrams
                     (pinger.effects_of (pinger.start_send example_pid 0)
                        (pinger.initial (F := float) 0)))).
  { rewrite start_send_datagram. left. reflexivity. }
  destruct (own_request_rejected example_pid (pinger.initial 0) 0 p example_ip
              (pinger.request_of example_pid 1) success 100000 100010
              example_ip_ok Hbuf Hin) as (H1 & H2 & _).
  split; assumption.
Defined.

(** X11 on 27 bytes. *)
Lemma short_datagram_rejected_witness :
  let p := io_service.session example_world in
  let m := pinger.handle_receive example_pid success (replicate 27 0)
             100000 100010 in
  count is_report (pinger.effects_of m p) = 0%nat
  /\ count is_cancel (pinger.effects_of m p) = 0%nat.
Proof.
  intros p m.
  assert (Hbuf : pinger.reply_buffer_ p = []) by (vm_compute; reflexivity).
  assert (Hlen : (length (replicate 27 0) < 28)%nat) by (cbn; lia).
  destruct (short_datagram_rejected example_pid p success (replicate 27 0)
              100000 100010 Hbuf Hlen) as (H1 & H2 & _).
  split; assumption.
Defined.

(** ** The request and the report *)

Section accepted.

Context {F : Type} {LD : LongDouble F}.
Variable pid : Z.

Implicit Types p : pinger.t F.

(** X12.  An echo reply for the identifier of the process and the current
    sequence number, behind a valid IPv4 header, with a payload of fewer
    than 65536 bytes, received into an empty buffer and read within the
    five seconds, is reported with the number of bytes that follow the IPv4
    header, the source address and the time to live of the IPv4 header, the
    sequence number, and the time since the request in microseconds divided
    by 1000; the first such reply of a cycle cancels the wait, and a new
    receive is started. *)
Theorem accepted_reply_report p ip h payload tmp now :
  ipv4_bytes_ok ip -> length (icmp_header.rep_ h) = 8%nat ->
  Z.of_nat (length payload) < 65536 ->
  pinger.reply_buffer_ p = [] ->
  pinger.timed_out tmp (pinger.time_sent_ p) = false ->
  icmp_header.type h = icmp_header.echo_reply ->
  icmp_header.identifier h = pinger.get_identifier pid ->
  icmp_header.sequence_number h = pinger.sequence_number_ p ->
  pinger.handle_receive pid success (ip ++ icmp_header.rep_ h ++ payload) tmp now p
  = (tt, pinger.accepted_state now p,
     (if pinger.num_replies_ p =? 0 then [timer_cancel] else [])
     ++ [cout_report
           (mk_report (8 + Z.of_nat (length payload))
              [ip !!! 12%nat; ip !!! 13%nat; ip !!! 14%nat; ip !!! 15%nat]
              (pinger.sequence_number_ p)
              (to_ushort (ip !!! 8%nat))
              (rtt_fixed3
                 (ld_div (ld_of_Z (now - pinger.time_sent_ p)) (ld_of_Z 1000))));
         socket_async_receive]).
Proof.
  intros Hip Hlen Hpay Hbuf Hto Hty Hid Hsq.
  destruct (decode_reply_datagram ip (icmp_header.rep_ h) payload Hip Hlen)
    as (ipv4_hdr & Hd & Hhl & Hlow).
  replace (icmp_header.mk (icmp_header.rep_ h)) with h in Hd by (now destruct h).
  rewrite (handle_receive_wanted pid _ tmp now p
             (mk_istream payload false) ipv4_hdr h Hto).
  - unfold pinger.report_of, ipv4_header.time_to_live,
      ipv4_header.source_address, total_microseconds.
    destruct Hip as (Hn & _).
    rewrite Hhl, Hsq, !Hlow by lia. rewrite !length_app, Hlen.
    replace (to_size (Z.of_nat (length ip + (8 + length payload))
                      - Z.of_nat (length ip)))
      with (8 + Z.of_nat (length payload)); [reflexivity|].
    unfold to_size. rewrite Z.mod_small; lia.
  - rewrite Hbuf. exact Hd.
  - unfold pinger.wanted. cbn [is_fail negb andb].
    rewrite Hty, Hid, Hsq, !Z.eqb_refl. reflexivity.
Qed.

(** X13.  What [start_send] hands to the socket is one datagram of 64
    bytes: the ICMP header of an echo request with code 0, the identifier
    of the process, the sequence number that follows the current one modulo
    2^16, and a checksum that passes the RFC 1071 check together with the
    56 bytes of the body that follow. *)
Theorem request_well_formed now p :
  let seq := to_ushort (pinger.sequence_number_ p + 1) in
  let h := compute_checksum
             (make_header icmp_header.echo_request 0
                (pinger.get_identifier pid) seq) pinger.body in
  pinger.sent_datagrams (pinger.effects_of (pinger.start_send pid now) p)
  = [icmp_header.rep_ h ++ pinger.body]
  /\ length (icmp_header.rep_ h ++ pinger.body) = 64%nat
  /\ icmp_header.type h = icmp_header.echo_request
  /\ icmp_header.code h = 0
  /\ icmp_header.identifier h = pinger.get_identifier pid
  /\ icmp_header.sequence_number h = seq
  /\ rfc1071_check (icmp_header.rep_ h ++ pinger.body) = 0.
Proof.
  intros seq h.
  pose proof (request_of_bytes pid seq) as Hreq. fold h in Hreq.
  split; [rewrite start_send_datagram; fold seq; rewrite Hreq; reflexivity|].
  assert (Hrep : icmp_header.rep_ h
                 = [to_byte icmp_header.echo_request; to_byte 0;
                    hi (checksum_value
                          (make_header icmp_header.echo_request 0
                             (pinger.get_identifier pid) seq) pinger.body);
                    lo (checksum_value
                          (make_header icmp_header.echo_request 0
                             (pinger.get_identifier pid) seq) pinger.body);
                    hi (pinger.get_identifier pid);
                    lo (pinger.get_identifier pid); hi seq; lo seq])
    by apply compute_checksum_rep.
  split; [rewrite length_app, Hrep; reflexivity|].
  unfold icmp_header.type, icmp_header.code, icmp_header.identifier,
    icmp_header.sequence_number, icmp_header.decode.
  rewrite Hrep. cbn [lookup_total list_lookup_total].
  rewrite !ushort_bytes.
  split; [reflexivity|]. split; [reflexivity|].
  split; [apply to_ushort_idem|]. split; [apply to_ushort_idem|].
  rewrite <- Hrep, <- Hreq. unfold pinger.request_of.
  apply checksum_verifies_wf; [apply make_header_wf|].
  apply short_body_fits. cbn. lia.
Qed.

End accepted.

(** X12 on the reply to the first request of the examples. *)
Lemma accepted_reply_report_witness :
  let p := io_service.session example_world in
  exists r,
    pinger.effects_of
      (pinger.handle_receive example_pid success
         (example_ip ++ icmp_header.rep_ (example_reply_header 1)
          ++ replicate 56 122) 100000 100010) p
    = [timer_cancel; cout_report r; socket_async_receive]
    /\ r_bytes r = 64
    /\ r_from r = [10; 0; 0; 1]
    /\ r_icmp_seq r = 1
    /\ r_ttl r = 64.
Proof.
  intros p. eexists. unfold pinger.effects_of.
  rewrite (accepted_reply_report example_pid p example_ip
             (example_reply_header 1) (replicate 56 122) 100000 100010).
  - split; [reflexivity|]. repeat split; vm_compute; reflexivity.
  - apply example_ip_ok.
  - vm_compute. reflexivity.
  - vm_compute. reflexivity.
  - vm_compute. reflexivity.
  - vm_compute. reflexivity.
  - vm_compute. reflexivity.
  - vm_compute. reflexivity.
  - vm_compute. reflexivity.
Defined.

(** ** What holds in every world the program reaches *)

Section invariant.

Context {F : Type} {LD : LongDouble F}.
Variable pid : Z.

Implicit Types (w : io_service.world F) (p : pinger.t F).

Lemma count_cons (f : effect F -> bool) e es :
  count f (e :: es) = ((if f e then 1 else 0) + count f es)%nat.
Proof.
  unfold count. rewrite filter_cons.
  destruct (decide (f e = true)) as [H|H].
  - rewrite H. reflexivity.
  - destruct (f e); [contradiction|reflexivity].
Qed.

Lemma count_nil (f : effect F -> bool) : count f [] = 0%nat.
Proof. reflexivity. Qed.

Lemma to_size_succ n : to_size (to_size n + 1) = to_size (n + 1).
Proof. unfold to_size. apply Zplus_mod_idemp_l. Qed.

Lemma to_ushort_succ n : to_ushort (to_ushort n + 1) = to_ushort (n + 1).
Proof. unfold to_ushort. apply Zplus_mod_idemp_l. Qed.

Ltac count_log :=
  rewrite ?count_app, ?count_cons, ?count_nil;
  cbn [is_send is_report is_timed_out is_cancel is_async_receive].

Ltac run_service :=
  cbn -[seconds pinger.request_of to_size to_ushort count
        pinger.accepted_state pinger.sent_state pinger.report_of].

Lemma steady_boot now : steady (io_service.boot pid now).
Proof.
  unfold io_service.boot, io_service.perform, pinger.construct, pinger.bind.
  rewrite start_send_result. run_service.
  split; run_service; count_log; try reflexivity; try lia.
Qed.

Lemma steady_step ev w w' :
  steady w -> io_service.dispatch pid ev w = Some w' -> steady w'.
Proof.
  intros [Hrc Hbuf Htm Hsent Htx Hsq Hrx] Hd.
  destruct w as [p [ck ex ws ab rc xt lg]].
  cbn [io_service.session io_service.service io_service.receives
       io_service.timer_waits io_service.aborted io_service.log] in *.
  unfold io_service.dispatch in Hd.
  cbn [io_service.service io_service.exited io_service.timer_waits
       io_service.timer_expiry io_service.clock io_service.aborted
       io_service.receives io_service.session] in Hd.
  destruct xt; [discriminate|].
  destruct ev as [now|now|ec received tmp now|now].
  - (* the timer expires *)
    destruct ws as [|h ws]; [discriminate|].
    destruct ((ex <=? now) && (ck <=? now)); [|discriminate].
    injection Hd as <-.
    assert (ws = []) by (destruct ws; [reflexivity|cbn in Htm; lia]).
    assert (ab = []) by (destruct ab; [reflexivity|cbn in Htm; lia]).
    subst ws ab.
    unfold io_service.perform.
    cbn [io_service.session io_service.service io_service.set_timer_waits
         io_service.clock io_service.timer_expiry io_service.timer_waits
         io_service.aborted io_service.receives io_service.exited io_service.log].
    destruct h; cbn [io_service.run_wait_handler].
    + rewrite handle_timeout_result.
      destruct ((pinger.num_replies_ p =? 0) && negb (ec_is_set success));
        run_service; split; run_service;
        count_log; rewrite ?Nat.add_0_r; try assumption; try lia.
    + rewrite start_send_result. run_service.
      split; run_service; count_log; rewrite ?Nat.add_0_r;
        try assumption; try lia.
      * cbn [pinger.sent_state pinger.num_transmitted_].
        rewrite Htx, to_size_succ. apply (f_equal to_size). lia.
      * cbn [pinger.sent_state pinger.sequence_number_].
        rewrite Hsq, to_ushort_succ. apply (f_equal to_ushort). lia.
  - (* a cancelled wait is dispatched *)
    destruct ab as [|h ab]; [discriminate|].
    destruct (ck <=? now); [|discriminate].
    injection Hd as <-.
    assert (ws = []) by (destruct ws; [reflexivity|cbn in Htm; lia]).
    assert (ab = []) by (destruct ab; [reflexivity|cbn in Htm; lia]).
    subst ws ab.
    unfold io_service.perform.
    cbn [io_service.session io_service.service io_service.set_aborted
         io_service.clock io_service.timer_expiry io_service.timer_waits
         io_service.aborted io_service.receives io_service.exited io_service.log].
    destruct h; cbn [io_service.run_wait_handler].
    + rewrite handle_timeout_result.
      cbn [ec_is_set ec_is_canceled negb andb app]. rewrite andb_false_r.
      run_service; split; run_service;
        count_log; rewrite ?Nat.add_0_r; try assumption; try lia.
    + rewrite start_send_result. run_service.
      split; run_service; count_log; rewrite ?Nat.add_0_r;
        try assumption; try lia.
      * cbn [pinger.sent_state pinger.num_transmitted_].
        rewrite Htx, to_size_succ. apply (f_equal to_size). lia.
      * cbn [pinger.sent_state pinger.sequence_number_].
        rewrite Hsq, to_ushort_succ. apply (f_equal to_ushort). lia.
  - (* a receive completes *)
    destruct rc as [|n]; [discriminate|].
    destruct ((ck <=? tmp) && (tmp <=? now)); [|discriminate].
    injection Hd as <-.
    assert (n = 0%nat) by lia. subst n. specialize (Hbuf eq_refl).
    unfold io_service.perform.
    cbn [io_service.session io_service.service io_service.set_receives
         io_service.clock io_service.timer_expiry io_service.timer_waits
         io_service.aborted io_service.receives io_service.exited io_service.log].
    destruct (ec_is_set ec) eqn:Hec.
    { rewrite handle_receive_error by assumption. run_service.
      split; run_service; count_log; rewrite ?Nat.add_0_r;
        try assumption; try lia; try reflexivity;
        destruct p; assumption. }
    destruct ec; try discriminate.
    destruct (pinger.timed_out tmp (pinger.time_sent_ p)) eqn:Hto.
    { rewrite handle_receive_timed_out by assumption. run_service.
      split; run_service; count_log; rewrite ?Nat.add_0_r;
        try assumption; try lia; try discriminate;
        destruct p; assumption. }
    destruct (pinger.decode_reply (pinger.reply_buffer_ p ++ received))
      as [[stream ipv4_hdr] icmp_hdr] eqn:Hdec.
    destruct (pinger.wanted pid stream icmp_hdr (pinger.sequence_number_ p)) eqn:Hw.
    + rewrite (handle_receive_wanted pid _ _ _ _ _ _ _ Hto Hdec Hw).
      destruct (pinger.num_replies_ p =? 0); run_service;
        split; run_service; count_log; rewrite ?Nat.add_0_r, ?length_app;
        try assumption; try lia; try reflexivity.
      all: cbn [pinger.accepted_state pinger.num_received_];
        rewrite Hrx, to_size_succ; apply (f_equal to_size); lia.
    + rewrite (handle_receive_unwanted pid _ _ _ _ _ _ _ Hto Hdec Hw).
      run_service.
      split; run_service; count_log; rewrite ?Nat.add_0_r;
        try assumption; try lia; try reflexivity;
        destruct p; assumption.
  - (* the signal *)
    destruct (ck <=? now); [|discriminate].
    injection Hd as <-.
    unfold io_service.perform.
    cbn [io_service.session io_service.service
         io_service.clock io_service.timer_expiry io_service.timer_waits
         io_service.aborted io_service.receives io_service.exited io_service.log].
    destruct p. run_proc. run_service.
    split; run_service; count_log; rewrite ?Nat.add_0_r;
      try assumption; try lia.
Qed.

Lemma steady_reachable w : reachable pid w -> steady w.
Proof.
  intros (now & evs & Hd). revert Hd.
  generalize (steady_boot now). generalize (io_service.boot pid now).
  induction evs as [|ev evs IH]; intros w0 Hs Hd.
  - injection Hd as <-. exact Hs.
  - cbn [io_service.deliver] in Hd.
    destruct (io_service.dispatch pid ev w0) as [w1|] eqn:Hdis; [|discriminate].
    apply (IH w1); [|exact Hd]. now apply (steady_step ev w0).
Qed.

(** X14.  In every world the program reaches at most one receive is
    outstanding, and [reply_buffer_] is empty while it is, so that a
    datagram is decoded from its own first byte. *)
Theorem one_receive_outstanding w :
  reachable pid w ->
  (io_service.receives (io_service.service w) <= 1)%nat
  /\ (io_service.receives (io_service.service w) = 1%nat ->
      pinger.reply_buffer_ (io_service.session w) = []).
Proof.
  intros Hr. destruct (steady_reachable w Hr). split; assumption.
Qed.

(** X15.  In every world the program reaches exactly one completion of
    the timer is due: a wait that is outstanding, or one that was cancelled
    and whose handler has not run yet. *)
Theorem one_wait_outstanding w :
  reachable pid w ->
  (length (io_service.timer_waits (io_service.service w))
   + length (io_service.aborted (io_service.service w)) = 1)%nat.
Proof.
  intros Hr. now destruct (steady_reachable w Hr).
Qed.

Lemma to_ushort_to_size n : to_ushort (to_size n) = to_ushort n.
Proof.
  unfold to_ushort, to_size. Z.div_mod_to_equations. lia.
Qed.

(** X16.  In every world the program reaches at least one request has
    been sent, [num_transmitted_] is the number of requests sent and
    [num_received_] the number of replies reported, both modulo 2^64, and
    [sequence_number_] is the number of requests sent modulo 2^16, hence
    [num_transmitted_] modulo 2^16. *)
Theorem counters_follow_log w :
  reachable pid w ->
  let sends := Z.of_nat (count is_send (io_service.log (io_service.service w))) in
  let reports :=
    Z.of_nat (count is_report (io_service.log (io_service.service w))) in
  1 <= sends
  /\ pinger.num_transmitted_ (io_service.session w) = to_size sends
  /\ pinger.num_received_ (io_service.session w) = to_size reports
  /\ pinger.sequence_number_ (io_service.session w) = to_ushort sends
  /\ pinger.sequence_number_ (io_service.session w)
     = to_ushort (pinger.num_transmitted_ (io_service.session w)).
Proof.
  intros Hr sends reports.
  destruct (steady_reachable w Hr) as [_ _ _ Hs Htx Hsq Hrx].
  fold sends in Htx, Hsq. fold reports in Hrx.
  split; [unfold sends; lia|]. split; [exact Htx|]. split; [exact Hrx|].
  split; [exact Hsq|]. rewrite Htx, to_ushort_to_size. exact Hsq.
Qed.

Lemma to_size_sub a b : to_size (to_size a - to_size b) = to_size (a - b).
Proof.
  unfold to_size. now rewrite Zminus_mod_idemp_l, Zminus_mod_idemp_r.
Qed.

(** X17.  When the signal is dispatched in a world the program has
    reached, [handle_termination] prints one summary and exits with status
    0; the summary gives the number of requests sent, the number of replies
    reported and their difference, each modulo 2^64; no event is dispatched
    afterwards. *)
Theorem sigint_prints_summary_and_exits w now w' :
  reachable pid w ->
  io_service.dispatch pid (io_service.sigint now) w = Some w' ->
  let sends := Z.of_nat (count is_send (io_service.log (io_service.service w))) in
  let reports :=
    Z.of_nat (count is_report (io_service.log (io_service.service w))) in
  (exists s,
      io_service.since w w' = [cout_summary s; process_exit 0]
      /\ s_transmitted s = to_size sends
      /\ s_received s = to_size reports
      /\ s_lossed s = to_size (sends - reports))
  /\ io_service.exited (io_service.service w') = Some 0
  /\ forall ev, io_service.dispatch pid ev w' = None.
Proof.
  intros Hr Hd sends reports.
  destruct (steady_reachable w Hr) as [_ _ _ _ Htx _ Hrx].
  fold sends in Htx. fold reports in Hrx.
  unfold io_service.dispatch in Hd.
  destruct (io_service.exited (io_service.service w)); [discriminate|].
  destruct (io_service.clock (io_service.service w) <=? now); [|discriminate].
  injection Hd as <-.
  unfold io_service.perform, io_service.since.
  pose proof (summary_divides_by_received now (io_service.session w)) as He.
  unfold pinger.effects_of in He.
  destruct (pinger.handle_termination now (io_service.session w))
    as [[u p'] es]. cbn [snd] in He. subst es.
  cbn [fold_left io_service.apply_effect io_service.service io_service.log
       io_service.exited io_service.clock io_service.timer_expiry
       io_service.timer_waits io_service.aborted io_service.receives].
  rewrite <- app_assoc, drop_log.
  split; [|split; [reflexivity|]].
  - eexists. split; [reflexivity|].
    cbn [s_transmitted s_received s_lossed].
    split; [exact Htx|]. split; [exact Hrx|].
    rewrite Htx, Hrx. apply to_size_sub.
  - intros ev. unfold io_service.dispatch.
    cbn [io_service.service io_service.exited]. reflexivity.
Qed.

(** X18.  When more replies have been counted than requests sent, as
    duplicates make possible, the summary prints 2^64 minus the excess as
    the number lost, and the loss ratio is computed from that number. *)
Theorem lossed_wraps_below_zero now p :
  0 <= pinger.num_transmitted_ p < pinger.num_received_ p ->
  pinger.num_received_ p < 18446744073709551616 ->
  exists s,
    pinger.effects_of (pinger.handle_termination now) p
    = [cout_summary s; process_exit 0]
    /\ s_lossed s
       = 18446744073709551616
         - (pinger.num_received_ p - pinger.num_transmitted_ p)
    /\ s_loss s
       = ld_div (ld_of_Z (18446744073709551616
                          - (pinger.num_received_ p - pinger.num_transmitted_ p)))
                (ld_of_Z (pinger.num_transmitted_ p)).
Proof.
  intros Ht Hr. rewrite summary_divides_by_received.
  eexists. split; [reflexivity|]. cbn [s_lossed s_loss].
  assert (H : to_size (pinger.num_transmitted_ p - pinger.num_received_ p)
              = 18446744073709551616
                - (pinger.num_received_ p - pinger.num_transmitted_ p)).
  { unfold to_size. symmetry. apply (Z.mod_unique _ _ (-1)); lia. }
  rewrite H. split; reflexivity.
Qed.

End invariant.

Lemma example_world_reachable : reachable example_pid example_world.
Proof. exists 0, []. reflexivity. Qed.

(** X14 on the program of the examples, just started. *)
Lemma one_receive_outstanding_witness :
  io_service.receives (io_service.service example_world) = 1%nat
  /\ pinger.reply_buffer_ (io_service.session example_world) = [].
Proof.
  destruct (one_receive_outstanding example_pid example_world
              example_world_reachable) as [_ H].
  split; [reflexivity|apply H; reflexivity].
Defined.

(** X15 on the program of the examples, just started. *)
Lemma one_wait_outstanding_witness :
  (length (io_service.timer_waits (io_service.service example_world))
   + length (io_service.aborted (io_service.service example_world)) = 1)%nat.
Proof.
  apply (one_wait_outstanding example_pid example_world example_world_reachable).
Defined.

(** X16 on the program of the examples, just started. *)
Lemma counters_follow_log_witness :
  pinger.num_transmitted_ (io_service.session example_world) = 1
  /\ pinger.sequence_number_ (io_service.session example_world) = 1.
Proof.
  destruct (counters_follow_log example_pid example_world
              example_world_reachable) as (_ & H2 & _ & H4 & _).
  split; [rewrite H2|rewrite H4]; vm_compute; reflexivity.
Defined.

(** X17 on the program of the examples, interrupted after one second. *)
Lemma sigint_prints_summary_and_exits_witness :
  io_service.dispatch example_pid (io_service.sigint 1000000) example_world
  = Some interrupted_world
  /\ io_service.exited (io_service.service interrupted_world) = Some 0
  /\ io_service.dispatch example_pid (io_service.timer_expired 5000000)
       interrupted_world = None.
Proof.
  assert (Hd : io_service.dispatch example_pid (io_service.sigint 1000000)
                 example_world = Some interrupted_world)
    by (vm_compute; reflexivity).
  destruct (sigint_prints_summary_and_exits example_pid example_world 1000000
              interrupted_world example_world_reachable Hd) as (_ & Hx & Hn).
  split; [exact Hd|]. split; [exact Hx|apply Hn].
Defined.

(** X18 on the session in which the reply to the only request came twice:
    the summary says 18446744073709551615 lost. *)
Lemma lossed_wraps_below_zero_witness :
  pinger.num_transmitted_ duplicate_session = 1
  /\ pinger.num_received_ duplicate_session = 2
  /\ exists s,
       pinger.effects_of (pinger.handle_termination 1000000) duplicate_session
       = [cout_summary s; process_exit 0]
       /\ s_lossed s = 18446744073709551615.
Proof.
  assert (Ht : pinger.num_transmitted_ duplicate_session = 1)
    by (vm_compute; reflexivity).
  assert (Hr : pinger.num_received_ duplicate_session = 2)
    by (vm_compute; reflexivity).
  destruct (lossed_wraps_below_zero 1000000 duplicate_session)
    as (s & He & Hl & _).
  - rewrite Ht, Hr. lia.
  - rewrite Hr. lia.
  - split; [exact Ht|]. split; [exact Hr|]. exists s.
    split; [exact He|]. rewrite Hl, Ht, Hr. reflexivity.
Defined.

(** ** A reply, the cancelled wait and the next request *)

Section reply.

Context {F : Type} {LD : LongDouble F}.
Variable pid : Z.

Implicit Types (w : io_service.world F) (p : pinger.t F).

Ltac run_service :=
  cbn -[seconds pinger.request_of to_size to_ushort count Z.max
        pinger.accepted_state pinger.sent_state pinger.report_of].


End reply.


(** ** The loop of requests goes on *)

Section progress.

Context {F : Type} {LD : LongDouble F}.
Variable pid : Z.

Implicit Types (w : io_service.world F) (p : pinger.t F).

Ltac run_service :=
  cbn -[seconds pinger.request_of to_size to_ushort count Z.max
        pinger.accepted_state pinger.sent_state pinger.report_of].

Lemma start_send_dispatched now p ck ex ws ab rc lg :
  exists l,
    io_service.perform now (pinger.start_send pid now)
      (io_service.mk_world p (io_service.mk ck ex ws ab rc None lg))
    = io_service.mk_world (pinger.sent_state now p)
        (io_service.mk now (now + seconds 5) [on_handle_timeout] (ab ++ ws) rc
           None (lg ++ l))
    /\ count is_send l = 1%nat.
Proof.
  unfold io_service.perform. rewrite start_send_result. run_service.
  eexists. rewrite <- !app_assoc. split; reflexivity.
Qed.

Lemma handle_timeout_dispatched now ec p ck ex ws ab rc lg :
  exists l,
    io_service.perform now (pinger.handle_timeout ec)
      (io_service.mk_world p (io_service.mk ck ex ws ab rc None lg))
    = io_service.mk_world p
        (io_service.mk now (pinger.time_sent_ p + seconds 1) [on_start_send]
           (ab ++ ws) rc None (lg ++ l))
    /\ count is_send l = 0%nat.
Proof.
  unfold io_service.perform. rewrite handle_timeout_result.
  cbn [io_service.session io_service.service].
  destruct ((pinger.num_replies_ p =? 0) && negb (ec_is_set ec));
    destruct (ec_is_set ec && negb (ec_is_canceled ec));
    run_service; eexists; rewrite <- ?app_assoc;
    (split; [reflexivity|]); reflexivity.
Qed.

(** The completion of a wait, as the loop runs it: at the earliest time at
    which it can. *)
Lemma wait_completes h p ck ex rc lg :
  io_service.next_timer pid
    (io_service.mk_world p (io_service.mk ck ex [h] [] rc None lg))
  = Some (io_service.perform (Z.max ck ex)
            (io_service.run_wait_handler pid h success (Z.max ck ex))
            (io_service.mk_world p (io_service.mk ck ex [] [] rc None lg))).
Proof.
  unfold io_service.next_timer, io_service.dispatch.
  cbn [io_service.service io_service.exited io_service.timer_waits
       io_service.timer_expiry io_service.clock].
  replace ((ex <=? Z.max ck ex) && (ck <=? Z.max ck ex)) with true
    by (symmetry; apply andb_true_iff; split; apply Z.leb_le; lia).
  reflexivity.
Qed.

Lemma cancelled_wait_completes h p ck ex rc lg :
  io_service.dispatch pid (io_service.wait_aborted ck)
    (io_service.mk_world p (io_service.mk ck ex [] [h] rc None lg))
  = Some (io_service.perform ck
            (io_service.run_wait_handler pid h operation_canceled ck)
            (io_service.mk_world p (io_service.mk ck ex [] [] rc None lg))).
Proof.
  unfold io_service.dispatch.
  cbn [io_service.service io_service.exited io_service.aborted
       io_service.clock].
  rewrite Z.leb_refl. reflexivity.
Qed.

(** X24.  In every world the program reaches and has not left through
    [exit], the next request is at most two completions of the timer away:
    one or two events, each a wait that expires or a cancelled wait whose
    handler runs, can be dispatched from there, and exactly one request is
    sent in them.  No receive has to complete for that. *)
Theorem next_request_within_two_completions w :
  reachable pid w ->
  io_service.exited (io_service.service w) = None ->
  exists evs w',
    (length evs <= 2)%nat
    /\ Forall (fun ev => match ev with
                         | io_service.timer_expired _
                         | io_service.wait_aborted _ => True
                         | _ => False
                         end) evs
    /\ io_service.deliver pid evs w = Some w'
    /\ count is_send (io_service.since w w') = 1%nat.
Proof.
  intros Hr Hx. destruct (steady_reachable pid w Hr) as [_ _ Htm _ _ _ _].
  destruct w as [p [ck ex ws ab rc xt lg]].
  cbn [io_service.service io_service.exited io_service.timer_waits
       io_service.aborted] in *. subst xt.
  unfold io_service.since. cbn [io_service.service io_service.log].
  destruct ws as [|h [|h' ws]]; destruct ab as [|g [|g' ab]];
    cbn [length] in Htm; try lia; clear Htm.
  - (* a cancelled wait is due *)
    pose proof (cancelled_wait_completes g p ck ex rc lg) as H1.
    destruct g; cbn [io_service.run_wait_handler] in H1.
    + destruct (handle_timeout_dispatched ck operation_canceled p ck ex [] [] rc lg)
        as (l & Hp & Hl). cbn [app] in Hp. rewrite Hp in H1.
      pose proof (wait_completes on_start_send p ck
                    (pinger.time_sent_ p + seconds 1) rc (lg ++ l)) as H2.
      cbn [io_service.run_wait_handler] in H2.
      destruct (start_send_dispatched
                  (Z.max ck (pinger.time_sent_ p + seconds 1)) p ck
                  (pinger.time_sent_ p + seconds 1) [] [] rc (lg ++ l))
        as (l2 & Hp2 & Hl2). rewrite Hp2 in H2.
      eexists [io_service.wait_aborted ck; io_service.timer_expired _].
      eexists. split; [cbn; lia|]. split; [repeat constructor|].
      split.
      * cbn [io_service.deliver]. rewrite H1.
        unfold io_service.next_timer in H2.
        cbn [io_service.service io_service.clock io_service.timer_expiry] in H2.
        rewrite H2. reflexivity.
      * cbn [io_service.service io_service.log].
        rewrite <- app_assoc, drop_log, count_app, Hl, Hl2. reflexivity.
    + destruct (start_send_dispatched ck p ck ex [] [] rc lg)
        as (l & Hp & Hl). rewrite Hp in H1.
      exists [io_service.wait_aborted ck]. eexists.
      split; [cbn; lia|]. split; [repeat constructor|].
      split; [cbn [io_service.deliver]; rewrite H1; reflexivity|].
      cbn [io_service.service io_service.log]. rewrite drop_log. exact Hl.
  - (* a wait is outstanding *)
    pose proof (wait_completes h p ck ex rc lg) as H1.
    unfold io_service.next_timer in H1.
    cbn [io_service.service io_service.clock io_service.timer_expiry] in H1.
    destruct h; cbn [io_service.run_wait_handler] in H1.
    + destruct (handle_timeout_dispatched (Z.max ck ex) success p ck ex [] [] rc lg)
        as (l & Hp & Hl). cbn [app] in Hp. rewrite Hp in H1.
      pose proof (wait_completes on_start_send p (Z.max ck ex)
                    (pinger.time_sent_ p + seconds 1) rc (lg ++ l)) as H2.
      cbn [io_service.run_wait_handler] in H2.
      destruct (start_send_dispatched
                  (Z.max (Z.max ck ex) (pinger.time_sent_ p + seconds 1)) p
                  (Z.max ck ex)
                  (pinger.time_sent_ p + seconds 1) [] [] rc (lg ++ l))
        as (l2 & Hp2 & Hl2). rewrite Hp2 in H2.
      eexists [io_service.timer_expired _; io_service.timer_expired _].
      eexists. split; [cbn; lia|]. split; [repeat constructor|].
      split.
      * cbn [io_service.deliver]. rewrite H1.
        unfold io_service.next_timer in H2.
        cbn [io_service.service io_service.clock io_service.timer_expiry] in H2.
        rewrite H2. reflexivity.
      * cbn [io_service.service io_service.log].
        rewrite <- app_assoc, drop_log, count_app, Hl, Hl2. reflexivity.
    + destruct (start_send_dispatched (Z.max ck ex) p ck ex [] [] rc lg)
        as (l & Hp & Hl). rewrite Hp in H1.
      eexists [io_service.timer_expired _]. eexists.
      split; [cbn; lia|]. split; [repeat constructor|].
      split; [cbn [io_service.deliver]; rewrite H1; reflexivity|].
      cbn [io_service.service io_service.log]. rewrite drop_log. exact Hl.
Qed.

End progress.

(** X24 on the program of the examples, just started. *)
Lemma next_request_within_two_completions_witness :
  exists evs w',
    (length evs <= 2)%nat
    /\ io_service.deliver example_pid evs example_world = Some w'
    /\ count is_send (io_service.since example_world w') = 1%nat.
Proof.
  assert (Hx : io_service.exited (io_service.service example_world) = None)
    by (vm_compute; reflexivity).
  destruct (next_request_within_two_completions example_pid example_world
              example_world_reachable Hx) as (evs & w' & H1 & _ & H3 & H4).
  exists evs, w'. split; [exact H1|]. split; [exact H3|exact H4].
Defined.

(** ** The first variant: request, filter and report *)

Section first_variant.

Context {F : Type}.
Variable pid : Z.

Implicit Types (p : pinger_v1.t).

(** X20.  In the first variant [start_send] hands the socket one datagram
    of 21 bytes, the header of an echo request for the identifier of the
    process and the next sequence number followed by the 13 bytes of
    "Some message."; although the body has odd length the checksum passes
    the RFC 1071 check.  It then sets the timer to five seconds after the
    time of sending and waits for [handle_timeout]. *)
Theorem v1_request_checksum_verifies now p :
  let seq := to_ushort (pinger_v1.sequence_number_ p + 1) in
  let h := compute_checksum
             (make_header icmp_header.echo_request 0
                (pinger_v1.get_identifier pid) seq) pinger_v1.body in
  pinger_v1.start_send (F := F) pid now p
  = (pinger_v1.mk seq now (pinger_v1.reply_buffer_ p) 0,
     [socket_send_to (icmp_header.rep_ h ++ pinger_v1.body);
      timer_expires_at (now + seconds 5);
      timer_async_wait on_handle_timeout])
  /\ length (icmp_header.rep_ h ++ pinger_v1.body) = 21%nat
  /\ icmp_header.type h = icmp_header.echo_request
  /\ icmp_header.identifier h = pinger_v1.get_identifier pid
  /\ icmp_header.sequence_number h = seq
  /\ rfc1071_check (icmp_header.rep_ h ++ pinger_v1.body) = 0.
Proof.
  intros seq h.
  assert (Hwire : wire h pinger_v1.body = icmp_header.rep_ h ++ pinger_v1.body).
  { unfold wire, ostream_write.
    rewrite wf_write by apply compute_checksum_make_header_wf. reflexivity. }
  assert (Hrep : icmp_header.rep_ h
                 = [to_byte icmp_header.echo_request; to_byte 0;
                    hi (checksum_value
                          (make_header icmp_header.echo_request 0
                             (pinger_v1.get_identifier pid) seq) pinger_v1.body);
                    lo (checksum_value
                          (make_header icmp_header.echo_request 0
                             (pinger_v1.get_identifier pid) seq) pinger_v1.body);
                    hi (pinger_v1.get_identifier pid);
                    lo (pinger_v1.get_identifier pid); hi seq; lo seq])
    by apply compute_checksum_rep.
  split.
  { unfold pinger_v1.start_send. fold seq.
    change (icmp_header.set_sequence_number seq
              (icmp_header.set_identifier (pinger_v1.get_identifier pid)
                 (icmp_header.set_code 0
                    (icmp_header.set_type icmp_header.echo_request
                       icmp_header.new))))
      with (make_header icmp_header.echo_request 0
              (pinger_v1.get_identifier pid) seq).
    fold h. change (ostream_write pinger_v1.body (icmp_header.write [] h))
      with (wire h pinger_v1.body).
    rewrite Hwire. reflexivity. }
  split; [rewrite length_app, Hrep; reflexivity|].
  unfold icmp_header.type, icmp_header.identifier,
    icmp_header.sequence_number, icmp_header.decode.
  rewrite Hrep. cbn [lookup_total list_lookup_total].
  rewrite !ushort_bytes.
  split; [reflexivity|].
  split; [apply to_ushort_idem|]. split; [apply to_ushort_idem|].
  rewrite <- Hrep, <- Hwire.
  apply checksum_verifies_wf; [apply make_header_wf|].
  apply short_body_fits. cbn. lia.
Qed.

Lemma v1_handle_receive_cases received now p stream ipv4_hdr icmp_hdr :
  pinger.decode_reply (pinger_v1.reply_buffer_ p ++ received)
  = (stream, ipv4_hdr, icmp_hdr) ->
  pinger_v1.handle_receive (F := F) pid received now p
  = if pinger.wanted pid stream icmp_hdr (pinger_v1.sequence_number_ p) then
      (pinger_v1.mk (pinger_v1.sequence_number_ p) (pinger_v1.time_sent_ p) []
         (to_size (pinger_v1.num_replies_ p + 1)),
       (if pinger_v1.num_replies_ p =? 0 then [timer_cancel] else [])
       ++ [cout_report
             (mk_report
                (to_size (Z.of_nat (length received)
                          - ipv4_header.header_length ipv4_hdr))
                (ipv4_header.source_address ipv4_hdr)
                (icmp_header.sequence_number icmp_hdr)
                (ipv4_header.time_to_live ipv4_hdr)
                (rtt_ms (total_milliseconds (now - pinger_v1.time_sent_ p))));
           socket_async_receive])
    else
      (pinger_v1.mk (pinger_v1.sequence_number_ p) (pinger_v1.time_sent_ p)
         (is_buf stream) (pinger_v1.num_replies_ p), []).
Proof.
  intros Hd. unfold pinger.decode_reply in Hd.
  unfold pinger_v1.handle_receive.
  destruct (ipv4_header.read
              {| is_buf := pinger_v1.reply_buffer_ p ++ received;
                 is_fail := false |} ipv4_header.new) as [s1 h1].
  destruct (icmp_header.read s1 icmp_header.new) as [s2 h2].
  injection Hd as -> -> ->.
  cbn [pinger_v1.sequence_number_ pinger_v1.time_sent_
       pinger_v1.reply_buffer_ pinger_v1.num_replies_].
  change (negb (is_fail stream)
          && (icmp_header.type icmp_hdr =? icmp_header.echo_reply)
          && (icmp_header.identifier icmp_hdr =? pinger_v1.get_identifier pid)
          && (icmp_header.sequence_number icmp_hdr
              =? pinger_v1.sequence_number_ p))
    with (pinger.wanted pid stream icmp_hdr (pinger_v1.sequence_number_ p)).
  destruct (pinger.wanted pid stream icmp_hdr (pinger_v1.sequence_number_ p));
    reflexivity.
Qed.

(** X21.  In the first variant [handle_receive] starts a new receive
    exactly when it reports a reply.  It reports at most one, sends nothing
    and never prints "Request timed out"; it leaves the sequence number and
    the time of sending alone.  When it reports nothing it has no effect at
    all and does not count a reply; when it reports a reply the buffer is
    emptied, one more reply is counted, and the wait is cancelled only if
    it is the first reply of the cycle. *)
Theorem v1_receive_rearms_iff_reported received now p :
  let '(p', es) := pinger_v1.handle_receive (F := F) pid received now p in
  count is_async_receive es = count is_report es
  /\ (count is_report es <= 1)%nat
  /\ count is_send es = 0%nat
  /\ count is_timed_out es = 0%nat
  /\ pinger_v1.sequence_number_ p' = pinger_v1.sequence_number_ p
  /\ pinger_v1.time_sent_ p' = pinger_v1.time_sent_ p
  /\ (count is_report es = 0%nat ->
      es = [] /\ pinger_v1.num_replies_ p' = pinger_v1.num_replies_ p)
  /\ (count is_report es = 1%nat ->
      pinger_v1.reply_buffer_ p' = []
      /\ pinger_v1.num_replies_ p' = to_size (pinger_v1.num_replies_ p + 1)
      /\ count is_cancel es
         = if pinger_v1.num_replies_ p =? 0 then 1%nat else 0%nat).
Proof.
  destruct (pinger.decode_reply (pinger_v1.reply_buffer_ p ++ received))
    as [[stream ipv4_hdr] icmp_hdr] eqn:Hd.
  rewrite (v1_handle_receive_cases received now p stream ipv4_hdr icmp_hdr Hd).
  destruct (pinger.wanted pid stream icmp_hdr (pinger_v1.sequence_number_ p)).
  - destruct (pinger_v1.num_replies_ p =? 0);
      cbn [app]; rewrite ?count_cons, ?count_nil;
      cbn [is_send is_report is_timed_out is_cancel is_async_receive
           pinger_v1.sequence_number_ pinger_v1.time_sent_
           pinger_v1.reply_buffer_ pinger_v1.num_replies_];
      repeat split; try reflexivity; try lia; intros; discriminate.
  - rewrite ?count_nil.
    cbn [pinger_v1.sequence_number_ pinger_v1.time_sent_
         pinger_v1.reply_buffer_ pinger_v1.num_replies_].
    repeat split; try reflexivity; try lia; intros; discriminate.
Qed.

(** X22.  In the first variant an echo reply for the identifier of the
    process and the current sequence number, behind a valid IPv4 header,
    with a payload of fewer than 65536 bytes and received into an empty
    buffer, is accepted however late it comes.  It is reported with the
    number of bytes that follow the IPv4 header, the source address and the
    time to live of the IPv4 header, the sequence number, and the time since
    the request in whole milliseconds, rounded toward zero. *)
Theorem v1_reply_reported_in_milliseconds p ip h payload now :
  ipv4_bytes_ok ip ->
  length (icmp_header.rep_ h) = 8%nat ->
  Z.of_nat (length payload) < 65536 ->
  pinger_v1.reply_buffer_ p = [] ->
  icmp_header.type h = icmp_header.echo_reply ->
  icmp_header.identifier h = pinger_v1.get_identifier pid ->
  icmp_header.sequence_number h = pinger_v1.sequence_number_ p ->
  pinger_v1.handle_receive (F := F) pid (ip ++ icmp_header.rep_ h ++ payload)
    now p
  = (pinger_v1.mk (pinger_v1.sequence_number_ p) (pinger_v1.time_sent_ p) []
       (to_size (pinger_v1.num_replies_ p + 1)),
     (if pinger_v1.num_replies_ p =? 0 then [timer_cancel] else [])
     ++ [cout_report
           (mk_report (8 + Z.of_nat (length payload))
              [ip !!! 12%nat; ip !!! 13%nat; ip !!! 14%nat; ip !!! 15%nat]
              (pinger_v1.sequence_number_ p)
              (to_ushort (ip !!! 8%nat))
              (rtt_ms (Z.quot (now - pinger_v1.time_sent_ p) 1000)));
         socket_async_receive]).
Proof.
  intros Hip Hlen Hpay Hbuf Hty Hid Hsq.
  destruct (decode_reply_datagram ip (icmp_header.rep_ h) payload Hip Hlen)
    as (ipv4_hdr & Hd & Hhl & Hlow).
  replace (icmp_header.mk (icmp_header.rep_ h)) with h in Hd by (now destruct h).
  rewrite (v1_handle_receive_cases _ now p (mk_istream payload false) ipv4_hdr h)
    by (rewrite Hbuf; exact Hd).
  unfold pinger.wanted. cbn [is_fail negb andb].
  change (pinger.get_identifier pid) with (pinger_v1.get_identifier pid).
  rewrite Hty, Hid, Hsq, !Z.eqb_refl. cbn [andb].
  unfold ipv4_header.time_to_live, ipv4_header.source_address,
    total_milliseconds.
  destruct Hip as (Hn & _).
  rewrite Hhl, !Hlow by lia. rewrite !length_app, Hlen.
  replace (to_size (Z.of_nat (length ip + (8 + length payload))
                    - Z.of_nat (length ip)))
    with (8 + Z.of_nat (length payload)); [reflexivity|].
  unfold to_size. rewrite Z.mod_small; lia.
Qed.

End first_variant.

(** X22 on a reply that comes 7.0005 s after the request: it is accepted
    and reported with 7000 ms. *)
Lemma v1_reply_reported_in_milliseconds_witness :
  pinger_v1.handle_receive (F := float) example_pid
    (example_ip ++ icmp_header.rep_ (example_reply_header 1)
     ++ replicate 56 122) 7000500 v1_session
  = (pinger_v1.mk 1 0 [] 1,
     [timer_cancel;
      cout_report (mk_report 64 [10; 0; 0; 1] 1 64 (rtt_ms 7000));
      socket_async_receive]).
Proof.
  rewrite (v1_reply_reported_in_milliseconds example_pid v1_session example_ip
             (example_reply_header 1) (replicate 56 122) 7000500).
  - vm_compute. reflexivity.
  - apply example_ip_ok.
  - vm_compute. reflexivity.
  - vm_compute. reflexivity.
  - vm_compute. reflexivity.
  - vm_compute. reflexivity.
  - vm_compute. reflexivity.
  - vm_compute. reflexivity.
Defined.
